(** * Monte Carlo policy-cost simulator: a shallow embedding

    The development follows [src/parameters.py], [src/config.py] and
    [src/simulation.py].

    Numbers.  A finite float64 value is represented by the rational it
    denotes ([Q]); rounding, overflow and signed zeros are abstracted.
    The IEEE special values that the program can produce by dividing by
    zero are kept: [float64] adds the infinities and NaN to the rationals,
    with NumPy's rules for them.

    Effects.  The program draws from NumPy's global generator
    ([np.random]).  Its state is threaded explicitly through the state and
    exception monad [M]; a Python exception is a value of [exn].  Text
    written to standard output is not modelled, except for the warning of
    [validate_parameters], which is returned as a list.

    External libraries.  The Mersenne-Twister generator, the square root
    and the quantile function of Student's t distribution belong to NumPy
    and SciPy; they are taken as parameters (class [NumericLib]). *)

From Stdlib Require Import String ZArith QArith Qminmax Qround List Bool Lia Lqa.
From Stdlib Require Import Sorting.Sorted Sorting.Permutation.
Import ListNotations.

Set Implicit Arguments.

(** ** Python exceptions and results *)

Inductive exn : Type :=
| NegativeMean (key : string) (value : Q)
    (* ValueError("Parameter {key} has negative mean: {value}") *)
| NegativeStdDev (key : string) (value : Q)
    (* ValueError("Parameter {key} has negative std_dev: {value}") *)
| ScaleNegative          (* numpy: ValueError("scale < 0") *)
| NegativeDimensions     (* numpy: ValueError("negative dimensions are not allowed") *)
| SeedOutOfRange         (* numpy: ValueError("Seed must be between 0 and 2**32 - 1") *)
| ArraysLengthMismatch   (* pandas: ValueError("All arrays must be of the same length") *)
| BroadcastError         (* numpy: ValueError("operands could not be broadcast together") *)
| ZeroSizeReduction      (* numpy: ValueError("zero-size array to reduction operation") *)
| PercentileOutOfRange   (* numpy: ValueError("Percentiles must be in the range [0, 100]") *)
| ConfidenceOutOfRange   (* scipy: ValueError("alpha must be between 0 and 1 inclusive") *)
| KeyError (key : string).

Inductive Result (A : Type) : Type :=
| Ok (a : A)
| Raise (e : exn).

Arguments Ok {A} a.
Arguments Raise {A} e.

(** ** Monads: plain exceptions, and exceptions over the generator state *)

Class Monad (T : Type -> Type) : Type := {
  ret : forall {A}, A -> T A;
  bind : forall {A B}, T A -> (A -> T B) -> T B
}.

Declare Scope monad_scope.
Delimit Scope monad_scope with monad.
Notation "x <- c1 ;; c2" := (bind c1 (fun x => c2))
  (at level 100, c1 at next level, right associativity) : monad_scope.
Notation "c1 ;; c2" := (bind c1 (fun _ => c2))
  (at level 100, right associativity) : monad_scope.

#[global] Instance Result_Monad : Monad Result := {
  ret := fun A a => Ok a;
  bind := fun A B r k => match r with Ok a => k a | Raise e => Raise e end
}.

(** An exception leaves the state as it was when it was raised. *)
Definition StateExn (S A : Type) : Type := S -> Result A * S.

#[global] Instance StateExn_Monad (S : Type) : Monad (StateExn S) := {
  ret := fun A a s => (Ok a, s);
  bind := fun A B m k s =>
            match m s with
            | (Ok a, s') => k a s'
            | (Raise e, s') => (Raise e, s')
            end
}.

Definition throw {S A} (e : exn) : StateExn S A := fun s => (Raise e, s).

Definition lift {S A} (r : Result A) : StateExn S A := fun s => (r, s).

(** ** Python dictionaries

    A [dict] keeps its items in insertion order; assigning to a key that
    is present replaces the value in place. *)

Section Dict.
Variable V : Type.

Definition dict : Type := list (string * V).

Fixpoint dict_get (d : dict) (k : string) : option V :=
    match d with
    | [] => None
    | (k', v) :: rest => if String.eqb k k' then Some v else dict_get rest k
    end.

Fixpoint dict_set (d : dict) (k : string) (v : V) : dict :=
    match d with
    | [] => [(k, v)]
    | (k', v') :: rest =>
        if String.eqb k k' then (k', v) :: rest else (k', v') :: dict_set rest k v
    end.

Definition dict_keys (d : dict) : list string := map fst d.

Definition dict_values (d : dict) : list V := map snd d.

(** [{**a, **b}] and, with [a = {}], a dictionary built by successive
    assignments. *)
Definition dict_update (a : dict) (b : list (string * V)) : dict :=
    fold_left (fun acc kv => dict_set acc (fst kv) (snd kv)) b a.

Definition dict_merge (a b : dict) : dict := dict_update (dict_update [] a) b.

(** [d[k]] *)
Definition dict_getitem (d : dict) (k : string) : Result V :=
    match dict_get d k with
    | Some v => Ok v
    | None => Raise (KeyError k)
    end.
End Dict.

(** ** float64 with its special values *)

Inductive float64 : Type :=
| Fin (q : Q)
| Inf (negative : bool)
| NaN.

Module Float64.

Definition Qltb (x y : Q) : bool := negb (Qle_bool y x).

Definition is_finite (x : float64) : bool :=
    match x with Fin _ => true | _ => false end.

Definition is_nan (x : float64) : bool :=
    match x with NaN => true | _ => false end.

Definition neg (x : float64) : float64 :=
    match x with
    | Fin q => Fin (- q)
    | Inf s => Inf (negb s)
    | NaN => NaN
    end.

Definition add (x y : float64) : float64 :=
    match x, y with
    | NaN, _ | _, NaN => NaN
    | Fin a, Fin b => Fin (a + b)
    | Inf s, Fin _ | Fin _, Inf s => Inf s
    | Inf s, Inf s' => if Bool.eqb s s' then Inf s else NaN
    end.

Definition sub (x y : float64) : float64 := add x (neg y).

Definition mul (x y : float64) : float64 :=
    match x, y with
    | NaN, _ | _, NaN => NaN
    | Fin a, Fin b => Fin (a * b)
    | Inf s, Fin b | Fin b, Inf s =>
        if Qeq_bool b 0 then NaN else Inf (xorb s (Qltb b 0))
    | Inf s, Inf s' => Inf (xorb s s')
    end.

(** True division.  A zero divisor does not raise: NumPy returns NaN for
    [0/0] and an infinity for [x/0], and at most prints a RuntimeWarning. *)
Definition div (x y : float64) : float64 :=
    match x, y with
    | NaN, _ | _, NaN => NaN
    | Fin a, Fin b =>
        if Qeq_bool b 0
        then (if Qeq_bool a 0 then NaN else Inf (Qltb a 0))
        else Fin (a / b)
    | Inf s, Fin b => Inf (xorb s (Qltb b 0))
    | Fin _, Inf _ => Fin 0
    | Inf _, Inf _ => NaN
    end.

(** [x < y]; every comparison with NaN is false. *)
Definition ltb (x y : float64) : bool :=
    match x, y with
    | NaN, _ | _, NaN => false
    | Fin a, Fin b => Qltb a b
    | Fin _, Inf s => negb s
    | Inf s, Fin _ => s
    | Inf s, Inf s' => s && negb s'
    end.

Definition eqb (x y : float64) : bool :=
    match x, y with
    | Fin a, Fin b => Qeq_bool a b
    | Inf s, Inf s' => Bool.eqb s s'
    | _, _ => false
    end.

Definition of_Z (z : Z) : float64 := Fin (inject_Z z).

Definition of_nat (n : nat) : float64 := of_Z (Z.of_nat n).

End Float64.

(** ** The numeric libraries the program calls *)

Class NumericLib : Type := {
  (** state of the global generator [np.random] *)
  rng_state : Type;
  (** the state [np.random.seed(seed)] installs *)
  init_by_seed : Z -> rng_state;
  (** one standard-normal draw *)
  legacy_gauss : rng_state -> Q * rng_state;
  (** square root of a non-negative finite value *)
  sqrt_finite : Q -> Q;
  (** [scipy.special.stdtrit]: quantile of the standard t distribution *)
  t_ppf : Q -> Z -> Q
}.

(** ** NumPy and pandas operations on one-dimensional arrays *)

Module Np.
Import Float64.

Definition ndarray : Type := list Q.

Definition sum (a : ndarray) : Q := fold_right Qplus 0 a.

(** [np.maximum(a, x)] *)
Definition maximum (a : ndarray) (x : Q) : ndarray :=
  map (fun v => if Qltb v x then x else v) a.

(** [a - b], with the broadcasting of a length-one operand *)
Definition subtract (a b : ndarray) : Result ndarray :=
  if Nat.eqb (length a) (length b) then
    Ok (map (fun p => fst p - snd p) (combine a b))
  else
    match a, b with
    | [x], _ => Ok (map (fun y => x - y) b)
    | _, [y] => Ok (map (fun x => x - y) a)
    | _, _ => Raise BroadcastError
    end.

(** [np.sum(a > x)] *)
Definition count_greater (a : ndarray) (x : Q) : nat :=
  length (filter (fun v => Qltb x v) a).

(** [np.mean]: NaN for an empty array *)
Definition mean (a : ndarray) : float64 :=
  div (Fin (sum a)) (of_nat (length a)).

(** [np.var(a, ddof)]: the sum of squared deviations from the mean,
    divided by [max (n - ddof) 0] *)
Definition var_ddof (ddof : nat) (a : ndarray) : float64 :=
  match mean a with
  | Fin m =>
      let ss := sum (map (fun v => (v - m) * (v - m)) a) in
      div (Fin ss) (of_nat (length a - ddof))
  | other => other
  end.

Definition var (a : ndarray) : float64 := var_ddof 0 a.

Section WithLib.
Context {L : NumericLib}.

Definition sqrt (x : float64) : float64 :=
  match x with
  | Fin q => if Qltb q 0 then NaN else Fin (sqrt_finite q)
  | Inf false => Inf false
  | Inf true => NaN
  | NaN => NaN
  end.

Definition std_ddof (ddof : nat) (a : ndarray) : float64 :=
  sqrt (var_ddof ddof a).

Definition std (a : ndarray) : float64 := std_ddof 0 a.
End WithLib.

(** [np.min], [np.max]: an empty array has no minimum *)
Definition min (a : ndarray) : Result Q :=
  match a with
  | [] => Raise ZeroSizeReduction
  | x :: rest => Ok (fold_left Qmin rest x)
  end.

Definition max (a : ndarray) : Result Q :=
  match a with
  | [] => Raise ZeroSizeReduction
  | x :: rest => Ok (fold_left Qmax rest x)
  end.

(** [np.sort] *)
Fixpoint insert (x : Q) (l : ndarray) : ndarray :=
  match l with
  | [] => [x]
  | y :: rest => if Qle_bool x y then x :: l else y :: insert x rest
  end.

Definition sort (a : ndarray) : ndarray := fold_right insert [] a.

(** [np.median]: the mean of the middle element, or of the two middle
    elements, of the sorted array *)
Definition median (a : ndarray) : float64 :=
  let n := length a in
  let s := sort a in
  let index := Nat.div n 2 in
  if Nat.eqb n 0 then NaN
  else if Nat.odd n then mean (firstn 1 (skipn index s))
  else mean (firstn 2 (skipn (index - 1) s)).

(** [numpy.lib.function_base._lerp] *)
Definition _lerp (a b t : Q) : Q :=
  let diff_b_a := b - a in
  if Qle_bool (1 # 2) t then b - diff_b_a * (1 - t) else a + diff_b_a * t.

(** [arr[i]]; a negative index counts from the end *)
Definition item (arr : ndarray) (i : Z) : Q :=
  nth (Z.to_nat (if (i <? 0)%Z then Z.of_nat (length arr) + i else i)) arr 0.

(** the linear method of [numpy.lib.function_base._quantile], on a sorted
    array [arr] of [n1 + 1] values: the two neighbours of the virtual index
    are interpolated; at or beyond the last position both neighbours are
    the last element (index -1), below the first both are the first *)
Definition _quantile (arr : ndarray) (n1 : nat) (quantile : Q) : Q :=
  let virtual_index := inject_Z (Z.of_nat n1) * quantile in
  let above_bounds := Qle_bool (inject_Z (Z.of_nat n1)) virtual_index in
  let below_bounds := Qltb virtual_index 0 in
  let previous_index :=
    if below_bounds then 0%Z
    else if above_bounds then (-1)%Z
    else Qfloor virtual_index in
  let next_index :=
    if below_bounds then 0%Z
    else if above_bounds then (-1)%Z
    else (Qfloor virtual_index + 1)%Z in
  let gamma := virtual_index - inject_Z previous_index in
  _lerp (item arr previous_index) (item arr next_index) gamma.

(** [np.percentile(a, p)] with the default linear method *)
Definition percentile (a : ndarray) (p : Q) : Result float64 :=
  let quantile := p / 100 in
  if negb (Qle_bool 0 quantile && Qle_bool quantile 1) then
    Raise PercentileOutOfRange
  else
    match length a with
    | O => Ok NaN
    | S n1 => Ok (Fin (_quantile (sort a) n1 quantile))
    end.

End Np.

(** [pandas.DataFrame] holding float columns, and [pandas.Series] reductions *)

Module Pd.
Import Float64.

Record DataFrame : Type := {
  columns : dict Np.ndarray;
  nrows : nat
}.

(** [pd.DataFrame(d)] for a dictionary of arrays: a column per key, in
    the dictionary's order *)
Definition DataFrame_of_dict (d : dict Np.ndarray) : Result DataFrame :=
  match d with
  | [] => Ok {| columns := []; nrows := 0 |}
  | (_, c) :: rest =>
      if forallb (fun kc => Nat.eqb (length (snd kc)) (length c)) rest
      then Ok {| columns := d; nrows := length c |}
      else Raise ArraysLengthMismatch
  end.

(** the cells of row [i], column by column *)
Definition row (df : DataFrame) (i : nat) : list Q :=
  map (fun kc => nth i (snd kc) 0) (columns df).

(** [df.sum(axis=1).values] *)
Definition sum_axis1 (df : DataFrame) : Np.ndarray :=
  map (fun i => Np.sum (row df i)) (seq 0 (nrows df)).

(** [df[key]] *)
Definition getitem (df : DataFrame) (key : string) : Result Np.ndarray :=
  dict_getitem (columns df) key.

Definition Series_mean (s : Np.ndarray) : float64 := Np.mean s.

Definition Series_median (s : Np.ndarray) : float64 := Np.median s.

Section WithLib.
Context {L : NumericLib}.

(** [Series.std()]: sample standard deviation ([ddof = 1]), NaN when
    there are not more than [ddof] values *)
Definition Series_std (s : Np.ndarray) : float64 :=
  if Nat.leb (length s) 1 then NaN else Np.std_ddof 1 s.
End WithLib.
End Pd.

(** [scipy.stats] *)

Module Stats.
Import Float64.

Section WithLib.
Context {L : NumericLib}.

(** [stats.sem(a)]: [std(a, ddof=1) / sqrt(n)] *)
Definition sem (a : Np.ndarray) : float64 :=
  div (Np.std_ddof 1 a) (Np.sqrt (of_nat (length a))).

(** [stats.t.ppf(q, df, loc, scale)].  Arguments outside the domain
    ([df <= 0], a scale that is not positive, a NaN location) do not
    raise: the result is NaN. *)
Definition t_dist_ppf (q : Q) (df : Z) (loc scale : float64) : float64 :=
  let cond0 := (0 <? df)%Z && ltb (Fin 0) scale && eqb loc loc in
  if cond0 && (Qltb 0 q && Qltb q 1) then
    add (mul (Fin (t_ppf q df)) scale) loc
  else if cond0 && Qeq_bool q 0 then add (mul (Inf true) scale) loc
  else if cond0 && Qeq_bool q 1 then add (mul (Inf false) scale) loc
  else NaN.

(** [stats.t.interval(confidence, df, loc, scale)] *)
Definition t_interval (confidence : Q) (df : Z) (loc scale : float64)
  : Result (float64 * float64) :=
  if Qltb 1 confidence || Qltb confidence 0 then Raise ConfidenceOutOfRange
  else
    let q1 := (1 - confidence) / 2 in
    let q2 := (1 + confidence) / 2 in
    Ok (t_dist_ppf q1 df loc scale, t_dist_ppf q2 df loc scale).
End WithLib.
End Stats.

(** ** src/config.py *)

Module Config.
Definition DEFAULT_NUM_SIMULATIONS : Z := 10000.
Definition DEFAULT_RANDOM_SEED : Z := 42.
Definition DEFAULT_BUDGET_THRESHOLD : Q := 2.
Definition CONFIDENCE_LEVEL : Q := 95 # 100.
Definition PERCENTILES : list Z := [5; 25; 50; 75; 95]%Z.
End Config.

(** ** src/parameters.py *)

Module Parameters.
Import Float64.

Record PolicyParameter : Type := {
  name : string;
  mean : Q;
  std_dev : Q;
  description : string;
  source : string
}.

(** The two module-level tables.  They are ordinary mutable dictionaries,
    so the functions below take them as an argument; [module_tables] holds
    the values the module assigns. *)
Record Tables : Type := {
  POLICY_PARAMETERS : dict PolicyParameter;
  REVENUE_PARAMETERS : dict PolicyParameter
}.

Definition module_tables : Tables := {|
  POLICY_PARAMETERS := [
    ("free_buses"%string,
      {| name := "Free Public Transportation";
         mean := 7 # 10; std_dev := 1 # 10;
         description := "Free bus service for all NYC residents";
         source := "Public estimates" |});
    ("universal_childcare"%string,
      {| name := "Universal Free Childcare";
         mean := 6; std_dev := 1;
         description := "Free childcare with increased wages for workers";
         source := "High-end estimates with wage increases" |});
    ("affordable_housing"%string,
      {| name := "Affordable Housing Program";
         mean := 10; std_dev := 15 # 10;
         description := "$100B over 10 years, union labor, 200K units";
         source := "Mamdani campaign proposal" |});
    ("government_grocery_stores"%string,
      {| name := "Government-Subsidized Grocery Stores";
         mean := 75 # 1000; std_dev := 25 # 1000;
         description := "5 government-run grocery stores (1 per borough)";
         source := "Estimated from similar programs" |})
  ];
  REVENUE_PARAMETERS := [
    ("tax_increases"%string,
      {| name := "Tax Revenue Increases";
         mean := 10; std_dev := 15 # 10;
         description := "2% tax on >$1M income + corporate tax increase to 11.5%";
         source := "Mamdani campaign proposal" |})
  ]
|}.

Section WithLib.
Context {L : NumericLib}.

Definition M : Type -> Type := StateExn rng_state.

Local Open Scope monad_scope.

(** [np.random.seed(seed)] *)
Definition np_random_seed (seed : Z) : M unit :=
  fun s =>
    if ((0 <=? seed) && (seed <? 2 ^ 32))%Z
    then (Ok tt, init_by_seed seed)
    else (Raise SeedOutOfRange, s).

(** [n] successive draws of [loc + scale * gauss] *)
Fixpoint normal_draws (n : nat) (loc scale : Q) (s : rng_state)
  : list Q * rng_state :=
  match n with
  | O => ([], s)
  | S k =>
      let (z, s1) := legacy_gauss s in
      let (rest, s2) := normal_draws k loc scale s1 in
      ((loc + scale * z) :: rest, s2)
  end.

(** [np.random.normal(loc, scale, size)] *)
Definition np_random_normal (loc scale : Q) (size : Z) : M Np.ndarray :=
  if Qltb scale 0 then throw ScaleNegative
  else if (size <? 0)%Z then throw NegativeDimensions
  else fun s =>
         let (a, s') := normal_draws (Z.to_nat size) loc scale s in
         (Ok a, s').

(** [PolicyParameter.sample(self, size, seed)] *)
Definition sample (self : PolicyParameter) (size : Z) (seed : option Z)
  : M Np.ndarray :=
  match seed with
  | Some sd => np_random_seed sd
  | None => ret tt
  end ;;
  samples <- np_random_normal (mean self) (std_dev self) size ;;
  ret (Np.maximum samples 0).
End WithLib.

(** the values of the dictionary returned by [get_policy_summary] *)
Record PolicySummary : Type := {
  summary_name : string;
  summary_mean : Q;
  summary_std_dev : Q;
  min_estimate : Q;
  max_estimate : Q
}.

(** Python's [max(0, x)]: [x] when it is greater than 0, else 0 *)
Definition max_with_zero (x : Q) : Q := if Qltb 0 x then x else 0.

(** [get_policy_summary]: an item per policy, assigned in table order *)
Definition get_policy_summary (tables : Tables) : dict PolicySummary :=
  dict_update []
    (map (fun kp =>
            let param := snd kp in
            (fst kp,
             {| summary_name := name param;
                summary_mean := mean param;
                summary_std_dev := std_dev param;
                min_estimate := max_with_zero (mean param - 2 * std_dev param);
                max_estimate := mean param + 2 * std_dev param |}))
         (POLICY_PARAMETERS tables)).

Inductive ValidationWarning : Type :=
  | StdDevExceedsMean (key : string).
    (* print("Warning: {key} has std_dev > mean, may produce many zero values") *)

(** the body of the [for] loop of [validate_parameters], item by item;
    the warnings printed before an exception stay printed *)
Fixpoint validate_items (items : list (string * PolicyParameter))
  : list ValidationWarning * Result bool :=
  match items with
  | [] => ([], Ok true)
  | (key, param) :: rest =>
      if Qltb (mean param) 0 then
        ([], Raise (NegativeMean key (mean param)))
      else if Qltb (std_dev param) 0 then
        ([], Raise (NegativeStdDev key (std_dev param)))
      else
        let (warnings, r) := validate_items rest in
        if Qltb (mean param) (std_dev param)
        then (StdDevExceedsMean key :: warnings, r)
        else (warnings, r)
  end.

Definition validate_parameters (tables : Tables)
  : list ValidationWarning * Result bool :=
  validate_items
    (dict_merge (POLICY_PARAMETERS tables) (REVENUE_PARAMETERS tables)).

End Parameters.

(** ** src/simulation.py *)

Module Simulation.
Import Float64 Parameters.

(** one block of summary statistics: keys "mean", "median", "std", "min",
    "max" *)
Record Summary : Type := {
  stat_mean : float64;
  stat_median : float64;
  stat_std : float64;
  stat_min : Q;
  stat_max : Q
}.

Record ThresholdAnalysis : Type := {
  exceedances : Z;
  probability : float64;
  percentage : float64
}.

Record Interval : Type := {
  lower : float64;
  upper : float64
}.

Record ConfidenceIntervals : Type := {
  ci_total_costs : Interval;
  ci_revenues : Interval;
  ci_net_budget_impact : Interval
}.

Record PolicyStatistics : Type := {
  policy_mean : float64;
  policy_std : float64;
  policy_median : float64
}.

(** the dictionary built by [_calculate_statistics] *)
Record Statistics : Type := {
  stats_num_simulations : Z;
  stats_budget_threshold : Q;
  stats_total_costs : Summary;
  stats_total_costs_percentiles : list (Z * float64);
  stats_revenues : Summary;
  stats_net_budget_impact : Summary;
  stats_net_budget_impact_percentiles : list (Z * float64);
  threshold_analysis : ThresholdAnalysis;
  confidence_intervals : ConfidenceIntervals;
  policy_statistics : dict PolicyStatistics
}.

Record SimulationResults : Type := {
  policy_costs : Pd.DataFrame;
  total_costs : Np.ndarray;
  revenues : Np.ndarray;
  net_budget_impact : Np.ndarray;
  threshold_exceedances : nat;
  statistics : Statistics
}.

(** value of one item of [run_sensitivity_analysis]'s dictionary *)
Record Sensitivity : Type := {
  variance : float64;
  contribution_to_total : float64;
  sens_percentage : float64
}.

(** [[f(x) for x in l]] where [f] may raise *)
Fixpoint mapM {A B} (f : A -> Result B) (l : list A) : Result (list B) :=
  match l with
  | [] => Ok []
  | x :: rest =>
      match f x with
      | Raise e => Raise e
      | Ok y =>
          match mapM f rest with
          | Raise e => Raise e
          | Ok ys => Ok (y :: ys)
          end
      end
  end.

(** [sorted(items, key=..., reverse=True)]: the list is reversed, sorted
    stably in ascending order of [<] on the keys, and reversed again *)
Section Sorted.
Variable A : Type.
Variable key : A -> float64.

Fixpoint insert_by_key (x : A) (l : list A) : list A :=
  match l with
  | [] => [x]
  | y :: rest =>
      if ltb (key x) (key y) then x :: l else y :: insert_by_key x rest
  end.

Definition sorted_ascending (l : list A) : list A :=
  fold_left (fun acc x => insert_by_key x acc) l [].

Definition sorted_reverse (l : list A) : list A :=
  rev (sorted_ascending (rev l)).
End Sorted.

Module MonteCarloSimulator.

Record t : Type := {
  num_simulations : Z;
  budget_threshold : Q;
  random_seed : option Z
}.

Section WithLib.
Context {L : NumericLib}.

Local Open Scope monad_scope.

(** [MonteCarloSimulator.__init__]: the only place where the simulator
    seeds the generator *)
Definition __init__ (num_simulations : Z) (budget_threshold : Q)
  (random_seed : option Z) : M t :=
  let self := {| num_simulations := num_simulations;
                 budget_threshold := budget_threshold;
                 random_seed := random_seed |} in
  match random_seed with
  | Some seed => np_random_seed seed
  | None => ret tt
  end ;;
  ret self.

(** the local function [ci] of [_calculate_confidence_intervals] *)
Definition ci (data : Np.ndarray) : Result Interval :=
  let mean := Np.mean data in
  let sem := Stats.sem data in
  interval <- Stats.t_interval Config.CONFIDENCE_LEVEL
                (Z.of_nat (length data) - 1) mean sem ;;
  ret {| lower := fst interval; upper := snd interval |}.

Definition _calculate_confidence_intervals (self : t)
  (total_costs revenues net_budget_impact : Np.ndarray)
  : Result ConfidenceIntervals :=
  c1 <- ci total_costs ;;
  c2 <- ci revenues ;;
  c3 <- ci net_budget_impact ;;
  ret {| ci_total_costs := c1; ci_revenues := c2; ci_net_budget_impact := c3 |}.

Definition summary (a : Np.ndarray) : Result Summary :=
  let mean := Np.mean a in
  let median := Np.median a in
  let std := Np.std a in
  min <- Np.min a ;;
  max <- Np.max a ;;
  ret {| stat_mean := mean; stat_median := median; stat_std := std;
         stat_min := min; stat_max := max |}.

(** [{p: float(np.percentile(a, p)) for p in PERCENTILES}] *)
Definition percentiles_of (a : Np.ndarray) : Result (list (Z * float64)) :=
  mapM (fun p => v <- Np.percentile a (inject_Z p) ;; ret (p, v))
       Config.PERCENTILES.

Definition policy_statistics_of (policy_costs : Pd.DataFrame)
  : Result (dict PolicyStatistics) :=
  mapM (fun policy_key =>
          column <- Pd.getitem policy_costs policy_key ;;
          ret (policy_key,
               {| policy_mean := Pd.Series_mean column;
                  policy_std := Pd.Series_std column;
                  policy_median := Pd.Series_median column |}))
       (dict_keys (Pd.columns policy_costs)).

(** [MonteCarloSimulator._calculate_statistics]; the entries are computed
    in the order of the dictionary literal *)
Definition _calculate_statistics (self : t) (policy_costs : Pd.DataFrame)
  (total_costs revenues net_budget_impact : Np.ndarray)
  (threshold_exceedances : nat) : Result Statistics :=
  total_summary <- summary total_costs ;;
  total_percentiles <- percentiles_of total_costs ;;
  revenues_summary <- summary revenues ;;
  net_summary <- summary net_budget_impact ;;
  net_percentiles <- percentiles_of net_budget_impact ;;
  let threshold :=
    {| exceedances := Z.of_nat threshold_exceedances;
       probability := div (of_nat threshold_exceedances)
                          (of_Z (num_simulations self));
       percentage := div (of_nat (100 * threshold_exceedances))
                         (of_Z (num_simulations self)) |} in
  intervals <- _calculate_confidence_intervals self total_costs revenues
                 net_budget_impact ;;
  per_policy <- policy_statistics_of policy_costs ;;
  ret {| stats_num_simulations := num_simulations self;
         stats_budget_threshold := budget_threshold self;
         stats_total_costs := total_summary;
         stats_total_costs_percentiles := total_percentiles;
         stats_revenues := revenues_summary;
         stats_net_budget_impact := net_summary;
         stats_net_budget_impact_percentiles := net_percentiles;
         threshold_analysis := threshold;
         confidence_intervals := intervals;
         policy_statistics := per_policy |}.

(** the first [for] loop of [run_simulation] *)
Fixpoint sample_policies (items : list (string * PolicyParameter))
  (size : Z) (policy_costs_dict : dict Np.ndarray) : M (dict Np.ndarray) :=
  match items with
  | [] => ret policy_costs_dict
  | (policy_key, policy_param) :: rest =>
      costs <- sample policy_param size None ;;
      sample_policies rest size (dict_set policy_costs_dict policy_key costs)
  end.

(** [MonteCarloSimulator.run_simulation] *)
Definition run_simulation (tables : Tables) (self : t) : M SimulationResults :=
  policy_costs_dict <-
    sample_policies (POLICY_PARAMETERS tables) (num_simulations self) [] ;;
  revenue_param <-
    lift (dict_getitem (REVENUE_PARAMETERS tables) "tax_increases") ;;
  revenues <- sample revenue_param (num_simulations self) None ;;
  policy_costs_df <- lift (Pd.DataFrame_of_dict policy_costs_dict) ;;
  let total_costs := Pd.sum_axis1 policy_costs_df in
  net_budget_impact <- lift (Np.subtract total_costs revenues) ;;
  let threshold_exceedances :=
    Np.count_greater total_costs (budget_threshold self) in
  statistics <-
    lift (_calculate_statistics self policy_costs_df total_costs revenues
            net_budget_impact threshold_exceedances) ;;
  ret {| policy_costs := policy_costs_df;
         total_costs := total_costs;
         revenues := revenues;
         net_budget_impact := net_budget_impact;
         threshold_exceedances := threshold_exceedances;
         statistics := statistics |}.

End WithLib.
End MonteCarloSimulator.

(** [run_sensitivity_analysis]; [base_simulator] is not used by the body.
    The last loop prints each policy's name and so looks every key up in
    [POLICY_PARAMETERS]. *)
Definition run_sensitivity_analysis (tables : Tables)
  (base_simulator : MonteCarloSimulator.t) (results : SimulationResults)
  : Result (dict Sensitivity) :=
  let base_variance := Np.var (total_costs results) in
  match
    mapM (fun policy_key =>
            match Pd.getitem (policy_costs results) policy_key with
            | Raise e => Raise e
            | Ok column =>
                let policy_variance := Np.var column in
                let contribution := div policy_variance base_variance in
                Ok (policy_key,
                    {| variance := policy_variance;
                       contribution_to_total := contribution;
                       sens_percentage := mul (Fin 100) contribution |})
            end)
         (dict_keys (Pd.columns (policy_costs results)))
  with
  | Raise e => Raise e
  | Ok items =>
      let unsorted := dict_update [] items in
      let sensitivity :=
        dict_update []
          (sorted_reverse (fun kv => contribution_to_total (snd kv))
             unsorted) in
      match
        mapM (fun kv => dict_getitem (POLICY_PARAMETERS tables) (fst kv))
             sensitivity
      with
      | Raise e => Raise e
      | Ok _ => Ok sensitivity
      end
  end.

End Simulation.

(** ** app.py *)

Module App.
Import Float64 Parameters Simulation.

(** the dictionary returned by [run_custom_simulation] *)
Record CustomResults : Type := {
  policy_costs : Pd.DataFrame;
  total_costs : Np.ndarray;
  revenues : Np.ndarray;
  net_budget_impact : Np.ndarray;
  threshold : Q;
  exceedances : nat;
  num_sims : Z
}.

Definition custom_parameter (name : string) (mean std_dev : Q)
  : PolicyParameter :=
  {| Parameters.name := name; Parameters.mean := mean;
     Parameters.std_dev := std_dev;
     Parameters.description := ""; Parameters.source := "" |}.

Definition custom_policies
  (fb_mean fb_std cc_mean cc_std ah_mean ah_std gs_mean gs_std : Q)
  : dict PolicyParameter :=
  [("free_buses"%string, custom_parameter "Free Buses" fb_mean fb_std);
   ("universal_childcare"%string,
    custom_parameter "Universal Childcare" cc_mean cc_std);
   ("affordable_housing"%string,
    custom_parameter "Affordable Housing" ah_mean ah_std);
   ("government_grocery_stores"%string,
    custom_parameter "Grocery Stores" gs_mean gs_std)].

Definition custom_revenue (rev_mean rev_std : Q) : PolicyParameter :=
  custom_parameter "Tax Revenue" rev_mean rev_std.

Section WithLib.
Context {L : NumericLib}.

Local Open Scope monad_scope.

(** [run_custom_simulation]: the sampling and the aggregation of
    [run_simulation] on parameters built from the arguments, without the
    statistics *)
Definition run_custom_simulation (num_sims : Z) (threshold : Q)
  (fb_mean fb_std cc_mean cc_std ah_mean ah_std gs_mean gs_std
   rev_mean rev_std : Q) : M CustomResults :=
  policy_costs_dict <-
    MonteCarloSimulator.sample_policies
      (custom_policies fb_mean fb_std cc_mean cc_std ah_mean ah_std
         gs_mean gs_std)
      num_sims [] ;;
  revenues <- sample (custom_revenue rev_mean rev_std) num_sims None ;;
  policy_costs_df <- lift (Pd.DataFrame_of_dict policy_costs_dict) ;;
  let total_costs := Pd.sum_axis1 policy_costs_df in
  net_budget_impact <- lift (Np.subtract total_costs revenues) ;;
  let threshold_exceedances := Np.count_greater total_costs threshold in
  ret {| policy_costs := policy_costs_df;
         total_costs := total_costs;
         revenues := revenues;
         net_budget_impact := net_budget_impact;
         threshold := threshold;
         exceedances := threshold_exceedances;
         num_sims := num_sims |}.
End WithLib.
End App.

(** ** A small instance of the library interface

    A linear congruential generator whose draws are half-integers between
    -3 and 3, an integer square root and a two-valued quantile function.
    It is used to run the definitions on concrete inputs. *)

Module TestLib.

Definition lcg_next (s : Z) : Z := ((s * 1103515245 + 12345) mod 2147483648)%Z.

Definition lcg_gauss (s : Z) : Q * Z :=
  (inject_Z ((s / 65536) mod 13 - 6) / 2, lcg_next s).

Definition isqrt (q : Q) : Q := inject_Z (Z.sqrt (Qfloor q)).

Definition two_sided (q : Q) (df : Z) : Q :=
  if Float64.Qltb q (1 # 2) then - (2) else 2.

Definition lib : NumericLib := {|
  rng_state := Z;
  init_by_seed := fun seed => lcg_next seed;
  legacy_gauss := lcg_gauss;
  sqrt_finite := isqrt;
  t_ppf := two_sided
|}.

End TestLib.

(** the simulators and the parameter used in the concrete runs *)
Definition three_trials : Simulation.MonteCarloSimulator.t :=
  {| Simulation.MonteCarloSimulator.num_simulations := 3;
     Simulation.MonteCarloSimulator.budget_threshold := 133 # 10;
     Simulation.MonteCarloSimulator.random_seed := Some 42%Z |}.

Definition one_trial : Simulation.MonteCarloSimulator.t :=
  {| Simulation.MonteCarloSimulator.num_simulations := 1;
     Simulation.MonteCarloSimulator.budget_threshold := 16;
     Simulation.MonteCarloSimulator.random_seed := Some 42%Z |}.

(** the module's tables with every standard deviation set to zero *)
Definition without_spread (param : Parameters.PolicyParameter)
  : Parameters.PolicyParameter :=
  {| Parameters.name := Parameters.name param;
     Parameters.mean := Parameters.mean param;
     Parameters.std_dev := 0;
     Parameters.description := Parameters.description param;
     Parameters.source := Parameters.source param |}.

Definition zero_spread_tables : Parameters.Tables :=
  {| Parameters.POLICY_PARAMETERS :=
       map (fun kp => (fst kp, without_spread (snd kp)))
           (Parameters.POLICY_PARAMETERS Parameters.module_tables);
     Parameters.REVENUE_PARAMETERS :=
       map (fun kp => (fst kp, without_spread (snd kp)))
           (Parameters.REVENUE_PARAMETERS Parameters.module_tables) |}.

Definition affordable_housing : Parameters.PolicyParameter :=
  {| Parameters.name := "Affordable Housing Program";
     Parameters.mean := 10; Parameters.std_dev := 15 # 10;
     Parameters.description := "$100B over 10 years, union labor, 200K units";
     Parameters.source := "Mamdani campaign proposal" |}.

(** a parameter whose standard deviation exceeds its mean: some of its
    draws are negative *)
Definition wide_spread : Parameters.PolicyParameter :=
  {| Parameters.name := "Wide spread";
     Parameters.mean := 1; Parameters.std_dev := 2;
     Parameters.description := "standard deviation above the mean";
     Parameters.source := "example" |}.

(** tables in which a policy is filed under the key of the revenue *)
Definition shared_key_tables : Parameters.Tables :=
  {| Parameters.POLICY_PARAMETERS :=
       [("tax_increases"%string,
         {| Parameters.name := "Filed under the revenue key";
            Parameters.mean := 1; Parameters.std_dev := - (1);
            Parameters.description := "negative standard deviation";
            Parameters.source := "example" |})];
     Parameters.REVENUE_PARAMETERS :=
       Parameters.REVENUE_PARAMETERS Parameters.module_tables |}.

(** the module's tables with every standard deviation negated *)
Definition negated_spread (param : Parameters.PolicyParameter)
  : Parameters.PolicyParameter :=
  {| Parameters.name := Parameters.name param;
     Parameters.mean := Parameters.mean param;
     Parameters.std_dev := - Parameters.std_dev param;
     Parameters.description := Parameters.description param;
     Parameters.source := Parameters.source param |}.

Definition negative_spread_tables : Parameters.Tables :=
  {| Parameters.POLICY_PARAMETERS :=
       map (fun kp => (fst kp, negated_spread (snd kp)))
           (Parameters.POLICY_PARAMETERS Parameters.module_tables);
     Parameters.REVENUE_PARAMETERS :=
       map (fun kp => (fst kp, negated_spread (snd kp)))
           (Parameters.REVENUE_PARAMETERS Parameters.module_tables) |}.

(** ** Vocabulary of the statements *)

Section Vocabulary.
Context {L : NumericLib}.
Import Float64 Parameters Simulation MonteCarloSimulator.

Local Open Scope monad_scope.

(** the generator state after [n] draws *)
Fixpoint advance (n : nat) (s : rng_state) : rng_state :=
  match n with
  | O => s
  | S k => advance k (snd (legacy_gauss s))
  end.

(** a column of [n] non-negative values *)
Definition column_ok (n : nat) (c : Np.ndarray) : Prop :=
  length c = n /\ Forall (fun v => 0 <= v) c.

(** [v] is [draw] clamped at zero: zero for a negative draw, the draw
    itself otherwise *)
Definition clamped_at_zero (draw v : Q) : Prop :=
  (draw < 0 -> v = 0) /\ (0 <= draw -> v = draw).

(** a seed that [np.random.seed] accepts, or no seed *)
Definition seed_accepted (seed : option Z) : Prop :=
  match seed with
  | Some sd => (0 <= sd < 2 ^ 32)%Z
  | None => True
  end.

(** the steps a successful [run_simulation] went through *)
Inductive run_trace (tables : Tables) (self : t) (s : rng_state)
  (r : SimulationResults) (s' : rng_state) : Prop :=
| RunTrace (d : dict Np.ndarray) (revenue_param : PolicyParameter)
    (s1 : rng_state)
    (trace_policies :
       sample_policies (POLICY_PARAMETERS tables) (num_simulations self) [] s
       = (Ok d, s1))
    (trace_lookup :
       dict_getitem (REVENUE_PARAMETERS tables) "tax_increases"
       = Ok revenue_param)
    (trace_revenues :
       sample revenue_param (num_simulations self) None s1
       = (Ok (revenues r), s'))
    (trace_frame : Pd.DataFrame_of_dict d = Ok (policy_costs r))
    (trace_total : total_costs r = Pd.sum_axis1 (policy_costs r))
    (trace_net :
       Np.subtract (total_costs r) (revenues r) = Ok (net_budget_impact r))
    (trace_exceedances :
       threshold_exceedances r =
       Np.count_greater (total_costs r) (budget_threshold self))
    (trace_statistics :
       _calculate_statistics self (policy_costs r) (total_costs r)
         (revenues r) (net_budget_impact r) (threshold_exceedances r)
       = Ok (statistics r)).

(** The shape of the results of a successful run: at least one trial and
    one policy, every column and vector of the configured length, costs and
    revenues non-negative, no seeding. *)
Record run_shape (tables : Tables) (self : t) (s : rng_state)
  (r : SimulationResults) (s' : rng_state) : Prop := {
  shape_trials : (1 <= num_simulations self)%Z;
  shape_columns_nonempty : Pd.columns (policy_costs r) <> [];
  shape_nrows : Z.of_nat (Pd.nrows (policy_costs r)) = num_simulations self;
  shape_columns :
    Forall (fun kc => column_ok (Z.to_nat (num_simulations self)) (snd kc))
           (Pd.columns (policy_costs r));
  shape_total : column_ok (Z.to_nat (num_simulations self)) (total_costs r);
  shape_revenues : column_ok (Z.to_nat (num_simulations self)) (revenues r);
  shape_net :
    net_budget_impact r =
    map (fun p => fst p - snd p) (combine (total_costs r) (revenues r));
  shape_state :
    s' = advance ((length (POLICY_PARAMETERS tables) + 1)
                  * Z.to_nat (num_simulations self)) s
}.

(** construct a simulator and run it once, as [main] and the tests do *)
Definition construct_and_run (tables : Tables) (num_simulations : Z)
  (budget_threshold : Q) (random_seed : option Z) : M SimulationResults :=
  simulator <- __init__ num_simulations budget_threshold random_seed ;;
  run_simulation tables simulator.

(** construct a simulator and call [run_simulation] on it twice *)
Definition construct_and_run_twice (tables : Tables) (num_simulations : Z)
  (budget_threshold : Q) (random_seed : option Z)
  : M (SimulationResults * SimulationResults) :=
  simulator <- __init__ num_simulations budget_threshold random_seed ;;
  first <- run_simulation tables simulator ;;
  second <- run_simulation tables simulator ;;
  ret (first, second).

(** the number of draws one run takes from the generator *)
Definition draws_per_run (tables : Tables) (num_simulations : Z) : nat :=
  (length (POLICY_PARAMETERS tables) + 1) * Z.to_nat num_simulations.

(** the parameter has a negative mean or a negative standard deviation *)
Definition negative_field (param : PolicyParameter) : Prop :=
  mean param < 0 \/ std_dev param < 0.

(** the exception names the key and the negative value of [param] *)
Definition identifies (e : exn) (key : string) (param : PolicyParameter) : Prop :=
  (e = NegativeMean key (mean param) /\ mean param < 0) \/
  (e = NegativeStdDev key (std_dev param) /\ std_dev param < 0).

(** where the interval is undefined *)
Definition undefined_interval : Interval := {| lower := NaN; upper := NaN |}.

(** both bounds are numbers *)
Definition finite_interval (i : Interval) : Prop :=
  is_finite (lower i) = true /\ is_finite (upper i) = true.

(** what the specification asks of the intervals when there is one trial:
    an explicit signal, or intervals whose bounds are numbers (such as the
    point value) *)
Definition handles_one_trial (self : MonteCarloSimulator.t)
  (total_costs revenues net_budget_impact : Np.ndarray) : Prop :=
  length total_costs = 1%nat ->
  length revenues = 1%nat ->
  length net_budget_impact = 1%nat ->
  (exists e,
     _calculate_confidence_intervals self total_costs revenues
       net_budget_impact = Raise e)
  \/
  (exists c,
     _calculate_confidence_intervals self total_costs revenues
       net_budget_impact = Ok c /\
     finite_interval (ci_total_costs c) /\
     finite_interval (ci_revenues c) /\
     finite_interval (ci_net_budget_impact c)).




End Vocabulary.

(** ** Vocabulary of the further statements *)

Section FurtherVocabulary.
Context {L : NumericLib}.
Import Float64 Parameters Simulation MonteCarloSimulator.

(** the warnings that [validate_parameters] prints for valid items *)
Definition warnings_of (items : list (string * PolicyParameter))
  : list ValidationWarning :=
  map (fun kp => StdDevExceedsMean (fst kp))
      (filter (fun kp => Qltb (mean (snd kp)) (std_dev (snd kp))) items).

(** neither field of the parameter is negative *)
Definition valid_parameter (param : PolicyParameter) : Prop :=
  0 <= mean param /\ 0 <= std_dev param.

(** the summary item of a policy *)
Definition summarises (kp : string * PolicyParameter)
  (ks : string * PolicySummary) : Prop :=
  fst ks = fst kp /\
  summary_name (snd ks) = name (snd kp) /\
  summary_mean (snd ks) = mean (snd kp) /\
  summary_std_dev (snd ks) = std_dev (snd kp).

(** the tables that [run_custom_simulation] builds from its arguments *)
Definition custom_tables
  (fb_mean fb_std cc_mean cc_std ah_mean ah_std gs_mean gs_std
   rev_mean rev_std : Q) : Tables :=
  {| POLICY_PARAMETERS :=
       App.custom_policies fb_mean fb_std cc_mean cc_std ah_mean ah_std
         gs_mean gs_std;
     REVENUE_PARAMETERS :=
       [("tax_increases"%string, App.custom_revenue rev_mean rev_std)] |}.

(** the part of the results that [run_custom_simulation] also computes *)
Definition same_samples (r : SimulationResults) (c : App.CustomResults)
  : Prop :=
  App.policy_costs c = policy_costs r /\
  App.total_costs c = total_costs r /\
  App.revenues c = revenues r /\
  App.net_budget_impact c = net_budget_impact r /\
  App.exceedances c = threshold_exceedances r.

(** [key] orders the items from the largest to the smallest finite value *)
Definition descending (d : dict Sensitivity) : Prop :=
  StronglySorted
    (fun a b =>
       exists qa qb,
         contribution_to_total (snd a) = Fin qa /\
         contribution_to_total (snd b) = Fin qb /\ qb <= qa)
    d.

(** the minimum and the maximum of a summary block are values of the
    vector that bound all of them, and its median lies between the two *)
Definition summary_within_bounds (a : Np.ndarray) (sm : Summary) : Prop :=
  Forall (fun v => stat_min sm <= v <= stat_max sm) a /\
  In (stat_min sm) a /\ In (stat_max sm) a /\
  (exists m, stat_median sm = Fin m /\ stat_min sm <= m <= stat_max sm).

End FurtherVocabulary.

(** * Properties *)

(** ** Comparisons on rationals *)

Lemma Qltb_lt (x y : Q) : Float64.Qltb x y = true <-> x < y.
Proof.
  unfold Float64.Qltb. rewrite negb_true_iff.
  split; intro H.
  - apply Qnot_le_lt. intro Hle. apply Qle_bool_iff in Hle. congruence.
  - destruct (Qle_bool y x) eqn:E; [|reflexivity].
    apply Qle_bool_iff in E. exfalso. apply (Qlt_not_le _ _ H E).
Qed.

Lemma Qltb_ge (x y : Q) : Float64.Qltb x y = false <-> y <= x.
Proof.
  unfold Float64.Qltb. rewrite negb_false_iff. apply Qle_bool_iff.
Qed.

(** ** Inversion of monadic sequencing *)

Lemma bind_Result_ok {A B} (r : Result A) (k : A -> Result B) (b : B) :
  bind r k = Ok b -> exists a, r = Ok a /\ k a = Ok b.
Proof.
  destruct r as [a|e]; simpl; intro H; [eauto | discriminate].
Qed.

Lemma bind_StateExn_ok {S A B} (m : StateExn S A) (k : A -> StateExn S B)
  (s s' : S) (b : B) :
  bind m k s = (Ok b, s') ->
  exists a s1, m s = (Ok a, s1) /\ k a s1 = (Ok b, s').
Proof.
  simpl. destruct (m s) as [[a|e] s1]; intro H; [eauto | discriminate].
Qed.

Lemma bind_StateExn_step {S A B} (m : StateExn S A) (k : A -> StateExn S B)
  (s s1 : S) (a : A) :
  m s = (Ok a, s1) -> bind m k s = k a s1.
Proof. intro H. simpl. now rewrite H. Qed.

Lemma bind_lift_step {S A B} (r : Result A) (k : A -> StateExn S B)
  (s : S) (a : A) :
  r = Ok a -> bind (lift r) k s = k a s.
Proof. intro H. subst r. reflexivity. Qed.

Lemma lift_ok {S A} (r : Result A) (s s' : S) (a : A) :
  lift r s = (Ok a, s') -> r = Ok a /\ s' = s.
Proof. unfold lift. intro H. inversion H. auto. Qed.

Ltac invert_bind H :=
  match type of H with
  | bind _ _ _ = (Ok _, _) =>
      let a := fresh "a" in
      let s := fresh "s" in
      let H1 := fresh "Hstep" in
      apply bind_StateExn_ok in H; destruct H as (a & s & H1 & H)
  | bind _ _ = Ok _ =>
      let a := fresh "a" in
      let H1 := fresh "Hstep" in
      apply bind_Result_ok in H; destruct H as (a & H1 & H)
  end.

(** ** Dictionaries *)

Section DictFacts.
Variable V : Type.
Implicit Types (d : dict V) (k : string) (v : V).

Lemma dict_set_not_nil d k v : dict_set d k v <> [].
Proof. destruct d as [|[k' v'] d]; simpl; [|destruct (String.eqb k k')]; discriminate. Qed.

Lemma dict_set_Forall (P : string * V -> Prop) d k v :
  Forall P d -> P (k, v) -> Forall P (dict_set d k v).
Proof.
  intros Hd Hkv. induction Hd as [|[k' v'] d Hx Hd IH]; simpl.
  - constructor; [assumption | constructor].
  - destruct (String.eqb k k') eqn:E.
    + apply String.eqb_eq in E. subst k'. constructor; assumption.
    + constructor; assumption.
Qed.

Lemma dict_update_Forall (P : string * V -> Prop) (b : list (string * V)) d :
  Forall P d -> Forall P b -> Forall P (dict_update d b).
Proof.
  unfold dict_update. revert d.
  induction b as [|[k v] b IH]; simpl; intros d Hd Hb; [assumption|].
  inversion Hb; subst. apply IH; [|assumption].
  apply dict_set_Forall; assumption.
Qed.

Lemma dict_update_not_nil (b : list (string * V)) d :
  d <> [] \/ b <> [] -> dict_update d b <> [].
Proof.
  unfold dict_update. revert d.
  induction b as [|[k v] b IH]; simpl; intros d H.
  - destruct H as [H|H]; [assumption | congruence].
  - apply IH. left. apply dict_set_not_nil.
Qed.

Lemma dict_get_In_keys d k : In k (dict_keys d) -> exists v, dict_get d k = Some v.
Proof.
  induction d as [|[k' v'] d IH]; simpl; intro H; [contradiction|].
  destruct (String.eqb k k') eqn:E; [eauto|].
  destruct H as [H|H]; [|auto].
  subst k'. rewrite String.eqb_refl in E. discriminate.
Qed.

Lemma dict_get_In d k v : dict_get d k = Some v -> In (k, v) d.
Proof.
  induction d as [|[k' v'] d IH]; simpl; intro H; [discriminate|].
  destruct (String.eqb k k') eqn:E.
  - apply String.eqb_eq in E. inversion H. subst. auto.
  - auto.
Qed.

(** Assigning to keys that are all new appends the items. *)
Lemma dict_set_fresh d k v : ~ In k (dict_keys d) -> dict_set d k v = d ++ [(k, v)].
Proof.
  induction d as [|[k' v'] d IH]; simpl; intro H; [reflexivity|].
  destruct (String.eqb k k') eqn:E.
  - apply String.eqb_eq in E. subst. exfalso. auto.
  - rewrite IH; auto.
Qed.

Lemma dict_update_fresh (b : list (string * V)) d :
  NoDup (dict_keys d ++ dict_keys b) -> dict_update d b = d ++ b.
Proof.
  unfold dict_update. revert d.
  induction b as [|[k v] b IH]; simpl; intros d H.
  - now rewrite app_nil_r.
  - assert (Hk : ~ In k (dict_keys d)).
    { intro Hin. apply NoDup_remove_2 in H. apply H.
      apply in_or_app. now left. }
    rewrite dict_set_fresh by exact Hk.
    rewrite IH.
    + now rewrite <- app_assoc.
    + unfold dict_keys in *. rewrite map_app. simpl.
      rewrite <- app_assoc. exact H.
Qed.

(** Two dictionaries that share no key merge into their concatenation. *)
Lemma dict_merge_distinct_keys (a b : dict V) :
  NoDup (dict_keys a ++ dict_keys b) -> dict_merge a b = a ++ b.
Proof.
  intro H. unfold dict_merge.
  assert (Ha : dict_update [] a = a).
  { apply (dict_update_fresh a []). simpl.
    apply NoDup_app_remove_r in H. exact H. }
  rewrite Ha. apply dict_update_fresh. exact H.
Qed.
End DictFacts.

(** ** Sampling (parameters.py) *)

Section SamplingFacts.
Context {L : NumericLib}.
Import Parameters.

Lemma advance_add (n m : nat) (s : rng_state) :
  advance (n + m) s = advance m (advance n s).
Proof. revert s. induction n as [|n IH]; simpl; intro s; [reflexivity | apply IH]. Qed.

Lemma normal_draws_length n loc scale s :
  length (fst (normal_draws n loc scale s)) = n.
Proof.
  revert s. induction n as [|n IH]; simpl; intro s; [reflexivity|].
  destruct (legacy_gauss s) as [z s1]. specialize (IH s1).
  destruct (normal_draws n loc scale s1) as [rest s2]. simpl in *. now f_equal.
Qed.

Lemma normal_draws_state n loc scale s :
  snd (normal_draws n loc scale s) = advance n s.
Proof.
  revert s. induction n as [|n IH]; simpl; intro s; [reflexivity|].
  destruct (legacy_gauss s) as [z s1] eqn:E. specialize (IH s1).
  destruct (normal_draws n loc scale s1) as [rest s2]. simpl in *. exact IH.
Qed.

Lemma maximum_length a x : length (Np.maximum a x) = length a.
Proof. unfold Np.maximum. apply length_map. Qed.

Lemma maximum_lower_bound a x : Forall (fun v => x <= v) (Np.maximum a x).
Proof.
  unfold Np.maximum. apply Forall_forall. intros v Hin.
  apply in_map_iff in Hin. destruct Hin as (u & Hu & _). subst v.
  destruct (Float64.Qltb u x) eqn:E.
  - apply Qle_refl.
  - now apply Qltb_ge.
Qed.

(** [sample] without a seed, case by case *)
Lemma sample_unseeded (p : PolicyParameter) (size : Z) (s : rng_state) :
  sample p size None s =
  if Float64.Qltb (std_dev p) 0 then (Raise ScaleNegative, s)
  else if (size <? 0)%Z then (Raise NegativeDimensions, s)
  else (Ok (Np.maximum (fst (normal_draws (Z.to_nat size) (mean p) (std_dev p) s)) 0),
        advance (Z.to_nat size) s).
Proof.
  unfold sample, np_random_normal. simpl.
  destruct (Float64.Qltb (std_dev p) 0); [reflexivity|].
  destruct (size <? 0)%Z; [reflexivity|].
  rewrite <- (normal_draws_state (Z.to_nat size) (mean p) (std_dev p) s).
  destruct (normal_draws (Z.to_nat size) (mean p) (std_dev p) s); reflexivity.
Qed.

Lemma sample_unseeded_ok p size s a s' :
  sample p size None s = (Ok a, s') ->
  (0 <= size)%Z /\ 0 <= std_dev p /\
  column_ok (Z.to_nat size) a /\ s' = advance (Z.to_nat size) s.
Proof.
  rewrite sample_unseeded.
  destruct (Float64.Qltb (std_dev p) 0) eqn:Estd; [discriminate|].
  destruct (size <? 0)%Z eqn:Esize; [discriminate|].
  intro H. inversion H; subst. clear H.
  apply Qltb_ge in Estd. apply Z.ltb_ge in Esize.
  repeat split; try assumption.
  - rewrite maximum_length. apply normal_draws_length.
  - apply maximum_lower_bound.
Qed.

Lemma sample_unseeded_succeeds p size s :
  (0 <= size)%Z -> 0 <= std_dev p ->
  exists a, sample p size None s = (Ok a, advance (Z.to_nat size) s).
Proof.
  intros Hsize Hstd. rewrite sample_unseeded.
  apply Qltb_ge in Hstd. rewrite Hstd.
  apply Z.ltb_ge in Hsize. rewrite Hsize. eauto.
Qed.

(** [np.maximum(samples, 0)] clamps every value at zero. *)
Lemma maximum_clamps (a : Np.ndarray) :
  Forall2 clamped_at_zero a (Np.maximum a 0).
Proof.
  unfold Np.maximum. induction a as [|v a IH]; simpl; constructor; [|exact IH].
  unfold clamped_at_zero. destruct (Float64.Qltb v 0) eqn:E.
  - apply Qltb_lt in E. split; [reflexivity|]. intro H.
    exfalso. exact (Qlt_not_le _ _ E H).
  - apply Qltb_ge in E. split; [|reflexivity]. intro H.
    exfalso. exact (Qlt_not_le _ _ H E).
Qed.

(** [np.random.normal] with a scale and a size that are not negative *)
Lemma np_random_normal_draws (loc scale : Q) (size : Z) (s : rng_state) :
  0 <= scale -> (0 <= size)%Z ->
  np_random_normal loc scale size s
  = (Ok (fst (normal_draws (Z.to_nat size) loc scale s)),
     advance (Z.to_nat size) s).
Proof.
  intros Hscale Hsize. unfold np_random_normal.
  apply Qltb_ge in Hscale. rewrite Hscale.
  apply Z.ltb_ge in Hsize. rewrite Hsize.
  rewrite <- (normal_draws_state (Z.to_nat size) loc scale s).
  destruct (normal_draws (Z.to_nat size) loc scale s); reflexivity.
Qed.

(** C2.  For a parameter whose standard deviation is not negative (whatever
    its mean, so in particular when the mean is not negative either) and a
    count [N >= 0], [sample(N)] returns an array of exactly [N] values, each
    of them [>= 0]: they are the [N] draws that [np.random.normal] makes
    from the generator (reseeded first when a seed is given), each clamped
    at zero, that is, replaced by zero when it is negative and kept as it
    is otherwise.  The optional seed may be absent or any seed NumPy
    accepts. *)
Theorem sample_returns_N_nonnegative_values
  (p : PolicyParameter) (N : Z) (seed : option Z) (s : rng_state) :
  0 <= mean p -> 0 <= std_dev p -> (0 <= N)%Z -> seed_accepted seed ->
  exists draws a s',
    np_random_normal (mean p) (std_dev p) N
      (match seed with Some sd => init_by_seed sd | None => s end)
    = (Ok draws, s') /\
    sample p N seed s = (Ok a, s') /\
    Z.of_nat (length a) = N /\
    Forall (fun v => 0 <= v) a /\
    Forall2 clamped_at_zero draws a.
Proof.
  intros _ Hstd HN Hseed.
  assert (Hgen : forall s0, exists draws a s',
             np_random_normal (mean p) (std_dev p) N s0 = (Ok draws, s') /\
             sample p N None s0 = (Ok a, s') /\
             Z.of_nat (length a) = N /\ Forall (fun v => 0 <= v) a /\
             Forall2 clamped_at_zero draws a).
  { intro s0.
    set (draws := fst (normal_draws (Z.to_nat N) (mean p) (std_dev p) s0)).
    exists draws, (Np.maximum draws 0), (advance (Z.to_nat N) s0).
    split; [now apply np_random_normal_draws|].
    split.
    { rewrite sample_unseeded.
      apply Qltb_ge in Hstd. rewrite Hstd.
      apply Z.ltb_ge in HN. rewrite HN. reflexivity. }
    split; [|split].
    - rewrite maximum_length. unfold draws. rewrite normal_draws_length.
      apply Z2Nat.id. exact HN.
    - apply maximum_lower_bound.
    - apply maximum_clamps. }
  destruct seed as [sd|].
  - simpl in Hseed.
    destruct (Hgen (init_by_seed sd))
      as (draws & a & s' & Hd & Ha & Hlen & Hpos & Hclamp).
    exists draws, a, s'. split; [exact Hd|]. split; [|repeat split; assumption].
    unfold sample in *. simpl in *. unfold np_random_seed.
    assert (E : ((0 <=? sd) && (sd <? 2 ^ 32))%Z = true).
    { apply andb_true_iff. split; [apply Z.leb_le | apply Z.ltb_lt]; lia. }
    rewrite E. exact Ha.
  - apply Hgen.
Qed.

End SamplingFacts.

(** ** The simulation run (simulation.py) *)

Section RunFacts.
Context {L : NumericLib}.
Import Parameters Simulation MonteCarloSimulator.

Lemma sample_policies_cons key param rest size acc :
  sample_policies ((key, param) :: rest) size acc =
  bind (sample param size None)
       (fun costs => sample_policies rest size (dict_set acc key costs)).
Proof. reflexivity. Qed.

(** Every column that the sampling loop stores has [size] non-negative
    values, and the loop only advances the generator. *)
Lemma sample_policies_ok items size acc s d s' :
  sample_policies items size acc s = (Ok d, s') ->
  Forall (fun kc => column_ok (Z.to_nat size) (snd kc)) acc ->
  Forall (fun kc => column_ok (Z.to_nat size) (snd kc)) d /\
  s' = advance (length items * Z.to_nat size) s /\
  (acc <> [] \/ items <> [] -> d <> []) /\
  (items <> [] -> (0 <= size)%Z) /\
  Forall (fun kp => 0 <= std_dev (snd kp)) items.
Proof.
  revert acc s. induction items as [|[key param] rest IH]; intros acc s Hrun Hacc.
  - simpl in Hrun. inversion Hrun; subst.
    repeat split; try assumption; try constructor.
    + intros [H|H]; congruence.
    + congruence.
  - rewrite sample_policies_cons in Hrun. invert_bind Hrun.
    apply sample_unseeded_ok in Hstep.
    destruct Hstep as (Hsize & Hstd & Hcol & Hs).
    apply IH in Hrun; [|apply dict_set_Forall; assumption].
    destruct Hrun as (Hd & Hs' & Hne & _ & Hstds). subst s0.
    repeat split.
    + exact Hd.
    + rewrite Hs'. simpl length. rewrite Nat.mul_succ_l.
      rewrite (Nat.add_comm _ (Z.to_nat size)). now rewrite advance_add.
    + intros _. apply Hne. left. apply dict_set_not_nil.
    + intros _. exact Hsize.
    + constructor; assumption.
Qed.

Lemma sample_policies_succeeds items size acc s :
  (0 <= size)%Z ->
  Forall (fun kp => 0 <= std_dev (snd kp)) items ->
  exists d,
    sample_policies items size acc s =
    (Ok d, advance (length items * Z.to_nat size) s).
Proof.
  intros Hsize Hstd. revert acc s.
  induction Hstd as [|[key param] rest Hp Hrest IH]; intros acc s.
  - simpl. eauto.
  - rewrite sample_policies_cons.
    destruct (sample_unseeded_succeeds param s Hsize Hp) as [a Ha].
    destruct (IH (dict_set acc key a) (advance (Z.to_nat size) s)) as [d Hd].
    exists d. simpl bind. rewrite Ha. rewrite Hd. f_equal.
    simpl length. rewrite Nat.mul_succ_l.
    rewrite (Nat.add_comm _ (Z.to_nat size)). now rewrite advance_add.
Qed.

(** *** Data frames and array arithmetic *)

Lemma DataFrame_of_dict_ok d df :
  Pd.DataFrame_of_dict d = Ok df ->
  Pd.columns df = d /\
  (d = [] -> Pd.nrows df = O) /\
  forall n, Forall (fun kc => length (snd kc) = n) d -> d <> [] ->
            Pd.nrows df = n.
Proof.
  unfold Pd.DataFrame_of_dict. destruct d as [|[k c] rest].
  - intro H. inversion H. repeat split. congruence.
  - match goal with |- context [forallb ?f rest] => destruct (forallb f rest) end;
      [|discriminate].
    intro H. inversion H. simpl. repeat split; [discriminate|].
    intros n Hn _. inversion Hn. assumption.
Qed.

Lemma DataFrame_of_dict_succeeds d n :
  Forall (fun kc => length (snd kc) = n) d ->
  exists df, Pd.DataFrame_of_dict d = Ok df.
Proof.
  intro H. unfold Pd.DataFrame_of_dict. destruct d as [|[k c] rest]; [eauto|].
  inversion H as [|x l Hc Hrest]; subst. simpl in Hrest.
  assert (E : forallb (fun kc => Nat.eqb (length (snd kc)) (length c)) rest = true).
  { apply forallb_forall. intros kc Hin. apply Nat.eqb_eq.
    rewrite Forall_forall in Hrest. exact (Hrest kc Hin). }
  rewrite E. eauto.
Qed.

Lemma sum_axis1_length df : length (Pd.sum_axis1 df) = Pd.nrows df.
Proof. unfold Pd.sum_axis1. now rewrite length_map, length_seq. Qed.

Lemma sum_axis1_nth df i :
  (i < Pd.nrows df)%nat -> nth i (Pd.sum_axis1 df) 0 = Np.sum (Pd.row df i).
Proof.
  intro Hi. unfold Pd.sum_axis1.
  rewrite (nth_indep _ 0 (Np.sum (Pd.row df O)))
    by now rewrite length_map, length_seq.
  rewrite (map_nth (fun j => Np.sum (Pd.row df j)) (seq O (Pd.nrows df)) O i).
  now rewrite seq_nth.
Qed.

Lemma sum_nonneg (l : list Q) : Forall (fun v => 0 <= v) l -> 0 <= Np.sum l.
Proof.
  induction 1 as [|x l Hx Hl IH]; simpl.
  - apply Qle_refl.
  - change 0 with (0 + 0). apply Qplus_le_compat; assumption.
Qed.

Lemma nth_nonneg (c : list Q) i :
  Forall (fun v => 0 <= v) c -> 0 <= nth i c 0.
Proof.
  intro H. destruct (Nat.lt_ge_cases i (length c)) as [Hi|Hi].
  - rewrite Forall_forall in H. apply H. now apply nth_In.
  - rewrite nth_overflow by exact Hi. apply Qle_refl.
Qed.

Lemma sum_axis1_nonneg df :
  Forall (fun kc => Forall (fun v => 0 <= v) (snd kc)) (Pd.columns df) ->
  Forall (fun v => 0 <= v) (Pd.sum_axis1 df).
Proof.
  intro H. unfold Pd.sum_axis1. apply Forall_forall. intros v Hin.
  apply in_map_iff in Hin. destruct Hin as (i & Hv & _). subst v.
  apply sum_nonneg. unfold Pd.row. apply Forall_forall. intros v Hin.
  apply in_map_iff in Hin. destruct Hin as (kc & Hv & Hkc). subst v.
  apply nth_nonneg. rewrite Forall_forall in H. now apply H.
Qed.

Lemma subtract_same_length a b :
  length a = length b ->
  Np.subtract a b = Ok (map (fun p => fst p - snd p) (combine a b)).
Proof. intro H. unfold Np.subtract. now rewrite H, Nat.eqb_refl. Qed.

Lemma subtract_nth a b i :
  length a = length b -> (i < length a)%nat ->
  nth i (map (fun p => fst p - snd p) (combine a b)) 0 = nth i a 0 - nth i b 0.
Proof.
  intros Hlen Hi.
  rewrite (nth_indep _ 0 ((fun p => fst p - snd p) (0, 0))).
  - rewrite (map_nth (fun p : Q * Q => fst p - snd p)).
    rewrite combine_nth by exact Hlen. reflexivity.
  - rewrite length_map, length_combine, <- Hlen, Nat.min_id. exact Hi.
Qed.

Lemma min_ok_nonempty a v : Np.min a = Ok v -> a <> [].
Proof. destruct a; [discriminate | congruence]. Qed.

Lemma summary_ok_nonempty a sm : summary a = Ok sm -> a <> [].
Proof.
  unfold summary. intro H. invert_bind H. now apply min_ok_nonempty in Hstep.
Qed.

Lemma summary_succeeds a : a <> [] -> exists sm, summary a = Ok sm.
Proof. destruct a as [|x a]; [congruence|]. intros _. unfold summary. simpl. eauto. Qed.


(** *** What a successful run went through *)

Lemma run_simulation_eq tables self :
  run_simulation tables self =
  (policy_costs_dict <-
     sample_policies (POLICY_PARAMETERS tables) (num_simulations self) [] ;;
   revenue_param <-
     lift (dict_getitem (REVENUE_PARAMETERS tables) "tax_increases") ;;
   revenues <- sample revenue_param (num_simulations self) None ;;
   policy_costs_df <- lift (Pd.DataFrame_of_dict policy_costs_dict) ;;
   net_budget_impact <-
     lift (Np.subtract (Pd.sum_axis1 policy_costs_df) revenues) ;;
   statistics <-
     lift (_calculate_statistics self policy_costs_df
             (Pd.sum_axis1 policy_costs_df) revenues net_budget_impact
             (Np.count_greater (Pd.sum_axis1 policy_costs_df)
                (budget_threshold self))) ;;
   ret {| policy_costs := policy_costs_df;
          total_costs := Pd.sum_axis1 policy_costs_df;
          revenues := revenues;
          net_budget_impact := net_budget_impact;
          threshold_exceedances :=
            Np.count_greater (Pd.sum_axis1 policy_costs_df)
              (budget_threshold self);
          statistics := statistics |})%monad.
Proof. reflexivity. Qed.

Lemma run_simulation_trace tables self s r s' :
  run_simulation tables self s = (Ok r, s') -> run_trace tables self s r s'.
Proof.
  rewrite run_simulation_eq. intro H.
  invert_bind H. rename a into d, s0 into s1, Hstep into Hd.
  invert_bind H. apply lift_ok in Hstep. destruct Hstep as [Hrp ->].
  rename a into rp.
  invert_bind H. rename a into rev, s0 into s2, Hstep into Hrev.
  invert_bind H. apply lift_ok in Hstep. destruct Hstep as [Hdf ->].
  rename a into df.
  invert_bind H. apply lift_ok in Hstep. destruct Hstep as [Hnet ->].
  rename a into net.
  invert_bind H. apply lift_ok in Hstep. destruct Hstep as [Hst ->].
  rename a into st.
  simpl in H. inversion H; subst. clear H.
  econstructor; simpl; try eassumption; reflexivity.
Qed.

Lemma run_simulation_shape tables self s r s' :
  run_simulation tables self s = (Ok r, s') -> run_shape tables self s r s'.
Proof.
  intro H. apply run_simulation_trace in H.
  destruct H as [d rp s1 Hd Hrp Hrev Hdf Htot Hnet Hexc Hst].
  set (n := Z.to_nat (num_simulations self)) in *.
  apply sample_policies_ok in Hd; [|constructor].
  destruct Hd as (Hcols & Hs1 & Hne & _ & _).
  apply sample_unseeded_ok in Hrev. fold n in Hrev.
  destruct Hrev as (Hsize & _ & Hrevok & Hs').
  apply DataFrame_of_dict_ok in Hdf.
  destruct Hdf as (Hcolumns & Hempty & Hnrows).
  (* the statistics need a non-empty total-cost vector *)
  assert (Htotne : total_costs r <> []).
  { unfold _calculate_statistics in Hst. invert_bind Hst.
    now apply summary_ok_nonempty in Hstep. }
  assert (Hdne : d <> []).
  { intro E. apply Htotne. rewrite Htot. unfold Pd.sum_axis1.
    now rewrite (Hempty E). }
  assert (Hrows : Pd.nrows (policy_costs r) = n).
  { apply Hnrows; [|exact Hdne].
    eapply Forall_impl; [|exact Hcols]. intros kc [Hlen _]. exact Hlen. }
  assert (Hlen_total : length (total_costs r) = n).
  { rewrite Htot, sum_axis1_length. exact Hrows. }
  assert (Hn : (1 <= n)%nat).
  { destruct (total_costs r); [congruence|]. simpl in Hlen_total. lia. }
  assert (Hnz : Z.of_nat n = num_simulations self).
  { unfold n. apply Z2Nat.id. exact Hsize. }
  constructor.
  - lia.
  - now rewrite Hcolumns.
  - now rewrite Hrows.
  - now rewrite Hcolumns.
  - split; [exact Hlen_total|].
    rewrite Htot. apply sum_axis1_nonneg. rewrite Hcolumns.
    eapply Forall_impl; [|exact Hcols]. intros kc [_ Hpos]. exact Hpos.
  - exact Hrevok.
  - destruct Hrevok as [Hlen_rev _].
    rewrite subtract_same_length in Hnet by congruence.
    now inversion Hnet.
  - rewrite Hs', Hs1. rewrite <- advance_add. f_equal. fold n. lia.
Qed.


(** *** The statistics dictionary, entry by entry *)

Lemma calculate_statistics_entries self pc tc rv net te st :
  _calculate_statistics self pc tc rv net te = Ok st ->
  summary tc = Ok (stats_total_costs st) /\
  percentiles_of tc = Ok (stats_total_costs_percentiles st) /\
  threshold_analysis st =
    {| exceedances := Z.of_nat te;
       probability := Float64.div (Float64.of_nat te)
                        (Float64.of_Z (num_simulations self));
       percentage := Float64.div (Float64.of_nat (100 * te))
                       (Float64.of_Z (num_simulations self)) |} /\
  _calculate_confidence_intervals self tc rv net = Ok (confidence_intervals st).
Proof.
  unfold _calculate_statistics. intro H.
  invert_bind H. rename Hstep into H1.
  invert_bind H. rename Hstep into H2.
  invert_bind H. invert_bind H. invert_bind H.
  invert_bind H. rename Hstep into H6.
  invert_bind H.
  simpl in H. inversion H; subst; simpl. auto.
Qed.

Lemma count_greater_le_length a x : (Np.count_greater a x <= length a)%nat.
Proof. unfold Np.count_greater. apply filter_length_le. Qed.

Lemma count_greater_strict a x :
  Np.count_greater a x =
  length (filter (fun c => if Qlt_le_dec x c then true else false) a).
Proof.
  unfold Np.count_greater. f_equal. apply filter_ext. intro c.
  destruct (Qlt_le_dec x c) as [Hlt|Hle].
  - now apply Qltb_lt.
  - now apply Qltb_ge.
Qed.

Lemma ratio_in_unit_interval (k n : Z) :
  (0 <= k <= n)%Z -> (1 <= n)%Z ->
  0 <= inject_Z k / inject_Z n <= 1.
Proof.
  intros Hk Hn.
  assert (Hpos : 0 < inject_Z n).
  { change 0 with (inject_Z 0). rewrite <- Zlt_Qlt. lia. }
  split.
  - apply Qle_shift_div_l; [exact Hpos|].
    rewrite Qmult_0_l. change 0 with (inject_Z 0). rewrite <- Zle_Qle. lia.
  - apply Qle_shift_div_r; [exact Hpos|].
    rewrite Qmult_1_l. rewrite <- Zle_Qle. lia.
Qed.

(** C9.  The results of a run have as many rows as the configured number of
    trials, in the cost table, in each of its columns and in the total-cost,
    revenue and net-impact vectors; every per-policy cost, total cost and
    revenue is [>= 0]. *)
Theorem results_have_trial_count_rows_and_nonnegative_costs
  tables self s r s' :
  run_simulation tables self s = (Ok r, s') ->
  let n := num_simulations self in
  Z.of_nat (Pd.nrows (policy_costs r)) = n /\
  Forall (fun kc => Z.of_nat (length (snd kc)) = n /\
                    Forall (fun v => 0 <= v) (snd kc))
         (Pd.columns (policy_costs r)) /\
  Z.of_nat (length (total_costs r)) = n /\
  Z.of_nat (length (revenues r)) = n /\
  Z.of_nat (length (net_budget_impact r)) = n /\
  Forall (fun v => 0 <= v) (total_costs r) /\
  Forall (fun v => 0 <= v) (revenues r).
Proof.
  intros H n. apply run_simulation_shape in H.
  destruct H as [Hn _ Hrows Hcols [Hlt Hpt] [Hlr Hpr] Hnet _].
  assert (Hnat : Z.of_nat (Z.to_nat n) = n) by (apply Z2Nat.id; unfold n; lia).
  fold n in Hcols, Hlt, Hlr.
  repeat split; try assumption.
  - eapply Forall_impl; [|exact Hcols].
    intros kc [Hlen Hpos]. split; [|exact Hpos].
    exact (eq_trans (f_equal Z.of_nat Hlen) Hnat).
  - now rewrite Hlt.
  - now rewrite Hlr.
  - rewrite Hnet, length_map, length_combine, Hlt, Hlr, Nat.min_id.
    exact Hnat.
Qed.

(** The cells of a row that lies within every column. *)
Lemma row_cells (df : Pd.DataFrame) (i : nat) :
  Forall (fun kc => (i < length (snd kc))%nat) (Pd.columns df) ->
  Forall2 (fun kc cell => nth_error (snd kc) i = Some cell)
          (Pd.columns df) (Pd.row df i).
Proof.
  unfold Pd.row. induction 1 as [|kc l Hkc Hl IH]; simpl; constructor.
  - now apply nth_error_nth'.
  - exact IH.
Qed.

(** C1.  In the results of a run, every trial [i] has a cell in each policy
    column of the cost table and an entry in the total-cost, the revenue
    and the net-impact vector; its total cost is the sum of its cells over
    all policy columns, and its net impact is its total cost minus its
    revenue; both are equalities of values, without tolerance. *)
Theorem total_cost_is_row_sum_and_net_impact_is_difference
  tables self s r s' (i : nat) :
  run_simulation tables self s = (Ok r, s') ->
  (Z.of_nat i < num_simulations self)%Z ->
  exists cells cost revenue,
    Forall2 (fun kc cell => nth_error (snd kc) i = Some cell)
            (Pd.columns (policy_costs r)) cells /\
    cells <> [] /\
    nth_error (total_costs r) i = Some cost /\
    nth_error (revenues r) i = Some revenue /\
    cost = Np.sum cells /\
    nth_error (net_budget_impact r) i = Some (cost - revenue).
Proof.
  intros H Hi. pose proof H as Ht. apply run_simulation_trace in Ht.
  destruct Ht as [d rp s1 _ _ _ _ Htot _ _ _].
  apply run_simulation_shape in H.
  destruct H as [Hn Hne Hrows Hcols [Hlt _] [Hlr _] Hnet _].
  assert (Hin : (i < Z.to_nat (num_simulations self))%nat) by lia.
  exists (Pd.row (policy_costs r) i), (nth i (total_costs r) 0),
    (nth i (revenues r) 0).
  split; [|split; [|split; [|split; [|split]]]].
  - apply row_cells. eapply Forall_impl; [|exact Hcols].
    intros kc [Hlen _].
    exact (eq_ind_r (fun n => (i < n)%nat) Hin Hlen).
  - unfold Pd.row. destruct (Pd.columns (policy_costs r));
      [congruence | discriminate].
  - apply nth_error_nth'. rewrite Hlt. exact Hin.
  - apply nth_error_nth'. rewrite Hlr. exact Hin.
  - rewrite Htot. apply sum_axis1_nth. lia.
  - rewrite <- (@subtract_nth (total_costs r) (revenues r) i)
      by (try congruence; rewrite Hlt; exact Hin).
    rewrite <- Hnet. apply nth_error_nth'.
    rewrite Hnet, length_map, length_combine, Hlt, Hlr, Nat.min_id.
    exact Hin.
Qed.

(** C5.  The exceedance count of a run is the number of trials whose total
    cost is strictly greater than the threshold (a trial whose total cost
    equals the threshold is not counted); the statistics report this count,
    and the reported probability is the count divided by the number of
    trials, a value between 0 and 1. *)
Theorem exceedance_count_is_strict_and_probability_in_unit_interval
  tables self s r s' :
  run_simulation tables self s = (Ok r, s') ->
  let count :=
    length (filter (fun c => if Qlt_le_dec (budget_threshold self) c
                             then true else false)
                   (total_costs r)) in
  let analysis := threshold_analysis (statistics r) in
  threshold_exceedances r = count /\
  exceedances analysis = Z.of_nat count /\
  probability analysis
  = Fin (inject_Z (Z.of_nat count) / inject_Z (num_simulations self)) /\
  0 <= inject_Z (Z.of_nat count) / inject_Z (num_simulations self) <= 1.
Proof.
  intros H count analysis. pose proof H as Ht. apply run_simulation_trace in Ht.
  destruct Ht as [d rp s1 _ _ _ _ _ _ Hexc Hst].
  apply run_simulation_shape in H.
  destruct H as [Hn _ _ _ [Hlt _] _ _ _].
  apply calculate_statistics_entries in Hst.
  destruct Hst as (_ & _ & Hta & _).
  assert (Hcount : threshold_exceedances r = count).
  { rewrite Hexc. apply count_greater_strict. }
  assert (Hle : (count <= Z.to_nat (num_simulations self))%nat).
  { rewrite <- Hcount, Hexc, <- Hlt. apply count_greater_le_length. }
  unfold analysis. rewrite Hta. simpl. rewrite Hcount.
  repeat split.
  - unfold Float64.div, Float64.of_nat, Float64.of_Z.
    assert (E : Qeq_bool (inject_Z (num_simulations self)) 0 = false).
    { destruct (Qeq_bool (inject_Z (num_simulations self)) 0) eqn:Eq;
        [|reflexivity].
      apply Qeq_bool_eq in Eq. unfold Qeq in Eq. simpl in Eq. lia. }
    now rewrite E.
  - apply ratio_in_unit_interval; lia.
  - apply ratio_in_unit_interval; lia.
Qed.

End RunFacts.

(** ** Seeding and reproducibility *)

Section SeedFacts.
Context {L : NumericLib}.
Import Parameters Simulation MonteCarloSimulator.

Local Open Scope monad_scope.

Lemma init_seeded n thr seed g :
  __init__ n thr (Some seed) g =
  if ((0 <=? seed) && (seed <? 2 ^ 32))%Z
  then (Ok {| num_simulations := n; budget_threshold := thr;
              random_seed := Some seed |}, init_by_seed seed)
  else (Raise SeedOutOfRange, g).
Proof.
  unfold __init__, np_random_seed. cbv [bind ret StateExn_Monad].
  destruct ((0 <=? seed) && (seed <? 2 ^ 32))%Z; reflexivity.
Qed.

Lemma init_unseeded n thr g :
  __init__ n thr None g =
  (Ok {| num_simulations := n; budget_threshold := thr; random_seed := None |},
   g).
Proof. reflexivity. Qed.

(** C4.  Two simulations constructed with the same configuration (parameter
    tables, number of trials, threshold) and the same seed, and run once,
    produce the same outcome whatever state the generator was in before:
    the same cost table, total-cost, revenue and net-impact vectors,
    exceedance count and statistics. *)
Theorem same_configuration_and_seed_give_identical_results
  (tables : Tables) (num_simulations : Z) (budget_threshold : Q) (seed : Z)
  (g1 g2 : rng_state) :
  fst (construct_and_run tables num_simulations budget_threshold (Some seed) g1)
  = fst (construct_and_run tables num_simulations budget_threshold (Some seed) g2).
Proof.
  unfold construct_and_run. simpl bind.
  rewrite !init_seeded.
  destruct ((0 <=? seed) && (seed <? 2 ^ 32))%Z; reflexivity.
Qed.

(** C10.  When a simulator is constructed with a seed and [run_simulation]
    is called twice on it, the first call starts from the state the seed
    installs and only advances the generator by its draws; the second call
    starts from that advanced state, not from the seed's state, and again
    only advances it.  The seed is used by the constructor alone. *)
Theorem second_run_continues_from_advanced_generator
  (tables : Tables) (n : Z) (threshold : Q) (seed : Z)
  (g g' : rng_state) (first second : SimulationResults) :
  construct_and_run_twice tables n threshold (Some seed) g
  = (Ok (first, second), g') ->
  let simulator := {| num_simulations := n; budget_threshold := threshold;
                      random_seed := Some seed |} in
  let seeded := init_by_seed seed in
  let advanced := advance (draws_per_run tables n) seeded in
  run_simulation tables simulator seeded = (Ok first, advanced) /\
  run_simulation tables simulator advanced = (Ok second, g') /\
  g' = advance (draws_per_run tables n) advanced.
Proof.
  intros H simulator seeded advanced. unfold construct_and_run_twice in H.
  invert_bind H. rewrite init_seeded in Hstep.
  destruct ((0 <=? seed) && (seed <? 2 ^ 32))%Z; [|discriminate].
  inversion Hstep; subst a s. clear Hstep.
  invert_bind H. rename a into r1, s into s1, Hstep into H1.
  invert_bind H. rename a into r2, s into s2, Hstep into H2.
  simpl in H. inversion H; subst. clear H.
  pose proof H1 as S1. apply run_simulation_shape in S1.
  destruct S1 as [_ _ _ _ _ _ _ Hs1]. simpl in Hs1.
  fold (draws_per_run tables n) in Hs1. fold seeded in Hs1.
  fold advanced in Hs1. subst s1.
  pose proof H2 as S2. apply run_simulation_shape in S2.
  destruct S2 as [_ _ _ _ _ _ _ Hs2]. simpl in Hs2.
  fold (draws_per_run tables n) in Hs2.
  repeat split; assumption.
Qed.

End SeedFacts.

(** ** Validation (parameters.py) *)

Section ValidationFacts.
Import Parameters.

Lemma validate_items_spec (items : list (string * PolicyParameter)) :
  match snd (validate_items items) with
  | Raise e =>
      exists key param, In (key, param) items /\ identifies e key param
  | Ok b =>
      b = true /\
      Forall (fun kp => ~ negative_field (snd kp)) items /\
      fst (validate_items items) =
      map (fun kp => StdDevExceedsMean (fst kp))
          (filter (fun kp => Float64.Qltb (mean (snd kp)) (std_dev (snd kp)))
                  items)
  end.
Proof.
  induction items as [|[key param] rest IH]; simpl.
  - repeat split. constructor.
  - destruct (Float64.Qltb (mean param) 0) eqn:Em; simpl.
    { exists key, param. split; [now left|]. left. split; [reflexivity|].
      now apply Qltb_lt. }
    destruct (Float64.Qltb (std_dev param) 0) eqn:Es; simpl.
    { exists key, param. split; [now left|]. right. split; [reflexivity|].
      now apply Qltb_lt. }
    destruct (validate_items rest) as [warnings r]. simpl in IH.
    assert (Hsnd : forall w, snd (if Float64.Qltb (mean param) (std_dev param)
                                  then (StdDevExceedsMean key :: warnings, r)
                                  else (w, r)) = r).
    { intro w. destruct (Float64.Qltb (mean param) (std_dev param)); reflexivity. }
    rewrite Hsnd. destruct r as [b|e].
    + destruct IH as (Hb & Hall & Hw). split; [exact Hb|]. split.
      * constructor; [|exact Hall]. simpl. intros [H|H].
        -- apply Qltb_lt in H. congruence.
        -- apply Qltb_lt in H. congruence.
      * destruct (Float64.Qltb (mean param) (std_dev param)); simpl;
          now rewrite Hw.
    + destruct IH as (k & p & Hin & Hid). exists k, p. split; [now right | exact Hid].
Qed.


End ValidationFacts.

(** ** Confidence intervals and the degenerate sample *)

Section IntervalFacts.
Context {L : NumericLib}.
Import Parameters Simulation MonteCarloSimulator.

(** Without a positive number of degrees of freedom the quantile is NaN. *)
Lemma t_dist_ppf_no_degrees_of_freedom q df loc scale :
  (df <= 0)%Z -> Stats.t_dist_ppf q df loc scale = NaN.
Proof.
  intro H. unfold Stats.t_dist_ppf.
  apply Z.ltb_ge in H. rewrite H. reflexivity.
Qed.

Lemma t_interval_confidence_level df loc scale :
  Stats.t_interval Config.CONFIDENCE_LEVEL df loc scale =
  Ok (Stats.t_dist_ppf ((1 - Config.CONFIDENCE_LEVEL) / 2) df loc scale,
      Stats.t_dist_ppf ((1 + Config.CONFIDENCE_LEVEL) / 2) df loc scale).
Proof. reflexivity. Qed.

(** [ci] never raises. *)
Lemma ci_succeeds (data : Np.ndarray) : exists interval, ci data = Ok interval.
Proof. unfold ci. rewrite t_interval_confidence_level. simpl. eauto. Qed.

Lemma ci_single_value (data : Np.ndarray) :
  length data = 1%nat -> ci data = Ok undefined_interval.
Proof.
  intro H. unfold ci. rewrite t_interval_confidence_level. rewrite H.
  simpl. rewrite !t_dist_ppf_no_degrees_of_freedom by reflexivity.
  reflexivity.
Qed.

(** C7, as the code has it.  With one trial, each of the three vectors has
    one value and [_calculate_confidence_intervals] has no special case:
    it returns normally, no exception is raised, and the lower and the
    upper bound of each of the three intervals are NaN, the quantile that
    SciPy gives for zero degrees of freedom. *)
Theorem confidence_intervals_of_one_trial_are_nan_not_an_exception
  (self : t) (total_costs revenues net_budget_impact : Np.ndarray) :
  length total_costs = 1%nat ->
  length revenues = 1%nat ->
  length net_budget_impact = 1%nat ->
  _calculate_confidence_intervals self total_costs revenues net_budget_impact
  = Ok {| ci_total_costs := undefined_interval;
          ci_revenues := undefined_interval;
          ci_net_budget_impact := undefined_interval |}.
Proof.
  intros H1 H2 H3. unfold _calculate_confidence_intervals.
  rewrite !ci_single_value by assumption. reflexivity.
Qed.

End IntervalFacts.

(** ** A well-configured run returns *)

Section Totality.
Context {L : NumericLib}.
Import Parameters Simulation MonteCarloSimulator.

Lemma mapM_succeeds {A B} (f : A -> Result B) (l : list A) :
  (forall x, In x l -> exists y, f x = Ok y) -> exists ys, mapM f l = Ok ys.
Proof.
  induction l as [|x l IH]; intro H; simpl; [eauto|].
  destruct (H x (or_introl eq_refl)) as [y Hy]. rewrite Hy.
  destruct IH as [ys Hys]; [intros z Hz; apply H; now right|].
  rewrite Hys. eauto.
Qed.

Lemma percentile_in_range (a : Np.ndarray) (p : Q) :
  0 <= p <= 100 -> exists v, Np.percentile a p = Ok v.
Proof.
  intros [H0 H100]. unfold Np.percentile.
  assert (E : Qle_bool 0 (p / 100) && Qle_bool (p / 100) 1 = true).
  { apply andb_true_iff. split; apply Qle_bool_iff.
    - apply Qle_shift_div_l; [reflexivity|]. now rewrite Qmult_0_l.
    - apply Qle_shift_div_r; [reflexivity|]. now rewrite Qmult_1_l. }
  rewrite E. simpl. destruct (length a); eauto.
Qed.

Lemma percentiles_of_succeeds (a : Np.ndarray) :
  exists l, percentiles_of a = Ok l.
Proof.
  unfold percentiles_of. apply mapM_succeeds. intros p Hp.
  destruct (@percentile_in_range a (inject_Z p)) as [v Hv].
  - unfold Config.PERCENTILES in Hp. simpl in Hp.
    repeat (destruct Hp as [<-|Hp]; [split; discriminate|]). contradiction.
  - rewrite Hv. simpl. eauto.
Qed.

Lemma policy_statistics_of_succeeds (df : Pd.DataFrame) :
  exists d, policy_statistics_of df = Ok d.
Proof.
  unfold policy_statistics_of. apply mapM_succeeds. intros key Hkey.
  unfold Pd.getitem, dict_getitem.
  destruct (dict_get_In_keys _ _ Hkey) as [column Hc]. rewrite Hc. simpl. eauto.
Qed.

Lemma calculate_statistics_succeeds self df tc rv net te :
  tc <> [] -> rv <> [] -> net <> [] ->
  exists st, _calculate_statistics self df tc rv net te = Ok st.
Proof.
  intros Htc Hrv Hnet. unfold _calculate_statistics.
  destruct (summary_succeeds Htc) as [s1 ->].
  destruct (percentiles_of_succeeds tc) as [p1 ->].
  destruct (summary_succeeds Hrv) as [s2 ->].
  destruct (summary_succeeds Hnet) as [s3 ->].
  destruct (percentiles_of_succeeds net) as [p3 ->].
  unfold _calculate_confidence_intervals.
  destruct (ci_succeeds tc) as [c1 ->].
  destruct (ci_succeeds rv) as [c2 ->].
  destruct (ci_succeeds net) as [c3 ->].
  destruct (policy_statistics_of_succeeds df) as [ps ->].
  simpl. eauto.
Qed.

Lemma length_pos_not_nil {A} (l : list A) n :
  length l = n -> (1 <= n)%nat -> l <> [].
Proof. intros H Hn E. subst l. simpl in H. lia. Qed.

(** With at least one trial, at least one policy, no negative standard
    deviation and a revenue parameter under the key "tax_increases", the
    run returns results. *)
Lemma run_simulation_succeeds tables self (s : rng_state) revenue_param :
  (1 <= num_simulations self)%Z ->
  POLICY_PARAMETERS tables <> [] ->
  Forall (fun kp => 0 <= std_dev (snd kp)) (POLICY_PARAMETERS tables) ->
  dict_get (REVENUE_PARAMETERS tables) "tax_increases" = Some revenue_param ->
  0 <= std_dev revenue_param ->
  exists r s', run_simulation tables self s = (Ok r, s').
Proof.
  intros Hn Hne Hstd Hrev Hrevstd.
  set (n := Z.to_nat (num_simulations self)).
  assert (Hn1 : (1 <= n)%nat) by (unfold n; lia).
  assert (Hsize : (0 <= num_simulations self)%Z) by lia.
  rewrite run_simulation_eq.
  destruct (sample_policies_succeeds [] s Hsize Hstd) as [d Hd].
  pose proof Hd as Hdok. apply sample_policies_ok in Hdok; [|constructor].
  destruct Hdok as (Hcols & _ & Hdne & _ & _). fold n in Hcols.
  specialize (Hdne (or_intror Hne)).
  set (s1 := advance (length (POLICY_PARAMETERS tables) * n) s) in *.
  destruct (sample_unseeded_succeeds revenue_param s1 Hsize Hrevstd)
    as [rev Hrv].
  pose proof Hrv as Hrvok. apply sample_unseeded_ok in Hrvok.
  destruct Hrvok as (_ & _ & [Hlenrev _] & _). fold n in Hlenrev.
  assert (Hlens : Forall (fun kc : string * Np.ndarray => length (snd kc) = n) d).
  { eapply Forall_impl; [|exact Hcols]. intros kc [Hl _]. exact Hl. }
  destruct (DataFrame_of_dict_succeeds Hlens) as [df Hdf].
  pose proof Hdf as Hdfok. apply DataFrame_of_dict_ok in Hdfok.
  destruct Hdfok as (_ & _ & Hrows). specialize (Hrows n Hlens Hdne).
  assert (Hlentot : length (Pd.sum_axis1 df) = n)
    by now rewrite sum_axis1_length.
  assert (Hsub : Np.subtract (Pd.sum_axis1 df) rev
                 = Ok (map (fun p => fst p - snd p)
                           (combine (Pd.sum_axis1 df) rev)))
    by (apply subtract_same_length; congruence).
  set (net := map (fun p : Q * Q => fst p - snd p)
                  (combine (Pd.sum_axis1 df) rev)) in *.
  assert (Hlennet : length net = n).
  { unfold net. rewrite length_map, length_combine, Hlentot, Hlenrev.
    apply Nat.min_id. }
  destruct (@calculate_statistics_succeeds self df (Pd.sum_axis1 df) rev net
              (Np.count_greater (Pd.sum_axis1 df) (budget_threshold self)))
    as [st Hst]; try (eapply length_pos_not_nil; eassumption).
  assert (Hget : dict_getitem (REVENUE_PARAMETERS tables) "tax_increases"
                 = Ok revenue_param)
    by (unfold dict_getitem; now rewrite Hrev).
  subst net s1 n.
  unfold M.
  erewrite bind_StateExn_step by exact Hd.
  erewrite bind_lift_step by exact Hget.
  erewrite bind_StateExn_step by exact Hrv.
  erewrite bind_lift_step by exact Hdf.
  erewrite bind_lift_step by exact Hsub.
  erewrite bind_lift_step by exact Hst.
  simpl. eauto.
Qed.

End Totality.

(** ** Percentiles *)

Section PercentileFacts.

Lemma insert_length x l : length (Np.insert x l) = S (length l).
Proof.
  induction l as [|y l IH]; simpl; [reflexivity|].
  destruct (Qle_bool x y); simpl; [reflexivity | now rewrite IH].
Qed.

Lemma sort_length a : length (Np.sort a) = length a.
Proof.
  unfold Np.sort. induction a as [|x a IH]; simpl; [reflexivity|].
  now rewrite insert_length, IH.
Qed.

Lemma insert_Forall (P : Q -> Prop) x l :
  P x -> Forall P l -> Forall P (Np.insert x l).
Proof.
  intros Hx Hl. induction Hl as [|y l Hy Hl IH]; simpl.
  - constructor; [exact Hx | constructor].
  - destruct (Qle_bool x y); constructor; try assumption.
    constructor; assumption.
Qed.

Lemma insert_sorted x l :
  StronglySorted Qle l -> StronglySorted Qle (Np.insert x l).
Proof.
  induction 1 as [|y l Hl IH Hy]; simpl.
  - constructor; constructor.
  - destruct (Qle_bool x y) eqn:E.
    + apply Qle_bool_iff in E. constructor.
      * constructor; assumption.
      * constructor; [exact E|].
        eapply Forall_impl; [|exact Hy]. intros z Hz.
        eapply Qle_trans; eassumption.
    + constructor; [exact IH|].
      apply insert_Forall; [|exact Hy].
      apply Qlt_le_weak. apply Qnot_le_lt. intro Hle.
      apply Qle_bool_iff in Hle. congruence.
Qed.

Lemma sort_sorted a : StronglySorted Qle (Np.sort a).
Proof.
  unfold Np.sort. induction a as [|x a IH]; simpl.
  - constructor.
  - now apply insert_sorted.
Qed.

Lemma sorted_nth l :
  StronglySorted Qle l ->
  forall i j, (i <= j)%nat -> (j < length l)%nat -> nth i l 0 <= nth j l 0.
Proof.
  induction 1 as [|x l Hl IH Hx]; intros i j Hij Hj; simpl in Hj; [lia|].
  destruct i as [|i], j as [|j]; simpl; try lia.
  - apply Qle_refl.
  - rewrite Forall_forall in Hx. apply Hx. apply nth_In. lia.
  - apply IH; lia.
Qed.

(** *** Linear interpolation *)

Lemma lerp_value a b t : Np._lerp a b t == a + (b - a) * t.
Proof. unfold Np._lerp. destruct (Qle_bool (1 # 2) t); ring. Qed.

Lemma lerp_lower a b t : a <= b -> 0 <= t -> a <= Np._lerp a b t.
Proof. intros Hab Ht. rewrite lerp_value. nra. Qed.

Lemma lerp_upper a b t : a <= b -> t <= 1 -> Np._lerp a b t <= b.
Proof. intros Hab Ht. rewrite lerp_value. nra. Qed.

Lemma lerp_monotone a b t u :
  a <= b -> t <= u -> Np._lerp a b t <= Np._lerp a b u.
Proof. intros Hab Htu. rewrite !lerp_value. nra. Qed.

Lemma lerp_same a t : Np._lerp a a t == a.
Proof. rewrite lerp_value. ring. Qed.


(** *** The interpolated quantile of a sorted array *)

Lemma virtual_index_nonneg (n1 : nat) (q : Q) :
  0 <= q -> 0 <= inject_Z (Z.of_nat n1) * q.
Proof.
  intro Hq. apply Qmult_le_0_compat; [|exact Hq].
  change 0 with (inject_Z 0). rewrite <- Zle_Qle. lia.
Qed.

Lemma Qfloor_nonneg (x : Q) : 0 <= x -> (0 <= Qfloor x)%Z.
Proof. intro H. change 0%Z with (Qfloor 0). now apply Qfloor_resp_le. Qed.

(** Either the virtual index is at the last position and the quantile is
    the last element, or it lies in a segment [k, k + 1) and the quantile
    interpolates between the elements [k] and [k + 1]. *)
Lemma quantile_cases (arr : Np.ndarray) (n1 : nat) (q : Q) :
  length arr = S n1 -> 0 <= q ->
  let vi := inject_Z (Z.of_nat n1) * q in
  (inject_Z (Z.of_nat n1) <= vi /\ Np._quantile arr n1 q == nth n1 arr 0) \/
  (vi < inject_Z (Z.of_nat n1) /\
   exists k : nat,
     (k < n1)%nat /\ Qfloor vi = Z.of_nat k /\
     Np._quantile arr n1 q
     = Np._lerp (nth k arr 0) (nth (S k) arr 0) (vi - inject_Z (Z.of_nat k))).
Proof.
  intros Hlen Hq vi. pose proof (@virtual_index_nonneg n1 q Hq) as Hvi.
  fold vi in Hvi. unfold Np._quantile. fold vi.
  assert (Hbelow : Float64.Qltb vi 0 = false) by now apply Qltb_ge.
  rewrite Hbelow.
  destruct (Qle_bool (inject_Z (Z.of_nat n1)) vi) eqn:Eabove.
  - left. apply Qle_bool_iff in Eabove. split; [exact Eabove|].
    unfold Np.item. change (-1 <? 0)%Z with true. cbv iota. rewrite Hlen.
    replace (Z.to_nat (Z.of_nat (S n1) + -1)) with n1 by lia.
    apply lerp_same.
  - right.
    assert (Hlt : vi < inject_Z (Z.of_nat n1)).
    { apply Qnot_le_lt. intro Hle. apply Qle_bool_iff in Hle. congruence. }
    split; [exact Hlt|].
    pose proof (@Qfloor_nonneg vi Hvi) as Hk0.
    assert (Hk1 : (Qfloor vi < Z.of_nat n1)%Z).
    { rewrite Zlt_Qlt. eapply Qle_lt_trans; [apply Qfloor_le | exact Hlt]. }
    exists (Z.to_nat (Qfloor vi)).
    split; [lia|]. split; [lia|].
    unfold Np.item.
    assert (E1 : (Qfloor vi <? 0)%Z = false) by (apply Z.ltb_ge; lia).
    assert (E2 : (Qfloor vi + 1 <? 0)%Z = false) by (apply Z.ltb_ge; lia).
    rewrite E1, E2.
    replace (Z.to_nat (Qfloor vi + 1)) with (S (Z.to_nat (Qfloor vi))) by lia.
    rewrite Z2Nat.id by exact Hk0. reflexivity.
Qed.

Lemma quantile_monotone (arr : Np.ndarray) (n1 : nat) (q1 q2 : Q) :
  StronglySorted Qle arr -> length arr = S n1 ->
  0 <= q1 -> q1 <= q2 ->
  Np._quantile arr n1 q1 <= Np._quantile arr n1 q2.
Proof.
  intros Hsorted Hlen H1 H12.
  assert (H2 : 0 <= q2) by (eapply Qle_trans; eassumption).
  assert (Hn : 0 <= inject_Z (Z.of_nat n1)).
  { change 0 with (inject_Z 0). rewrite <- Zle_Qle. lia. }
  assert (Hvi : inject_Z (Z.of_nat n1) * q1 <= inject_Z (Z.of_nat n1) * q2).
  { rewrite !(Qmult_comm (inject_Z (Z.of_nat n1))).
    apply Qmult_le_compat_r; assumption. }
  pose proof (@sorted_nth arr Hsorted) as Hnth.
  destruct (@quantile_cases arr n1 q2 Hlen H2) as [[Ha2 Hv2]|[Hb2 (k2 & Hk2 & Hf2 & Hv2)]];
    destruct (@quantile_cases arr n1 q1 Hlen H1) as [[Ha1 Hv1]|[Hb1 (k1 & Hk1 & Hf1 & Hv1)]].
  - rewrite Hv1, Hv2. apply Qle_refl.
  - rewrite Hv2, Hv1.
    eapply Qle_trans; [apply lerp_upper|].
    + apply Hnth; lia.
    + pose proof (Qlt_floor (inject_Z (Z.of_nat n1) * q1)) as Hfl.
      rewrite Hf1 in Hfl. rewrite inject_Z_plus in Hfl.
      change (inject_Z 1) with 1 in Hfl. lra.
    + apply Hnth; lia.
  - exfalso. apply (Qlt_irrefl (inject_Z (Z.of_nat n1))). lra.
  - rewrite Hv1, Hv2.
    pose proof (Qfloor_le (inject_Z (Z.of_nat n1) * q1)) as Hl1.
    pose proof (Qfloor_le (inject_Z (Z.of_nat n1) * q2)) as Hl2.
    pose proof (Qlt_floor (inject_Z (Z.of_nat n1) * q1)) as Hu1.
    rewrite Hf1 in Hl1, Hu1. rewrite Hf2 in Hl2.
    rewrite inject_Z_plus in Hu1. change (inject_Z 1) with 1 in Hu1.
    assert (Hk12 : (k1 <= k2)%nat).
    { apply Qfloor_resp_le in Hvi. rewrite Hf1, Hf2 in Hvi. lia. }
    destruct (Nat.eq_dec k1 k2) as [->|Hneq].
    + apply lerp_monotone; [apply Hnth; lia | lra].
    + eapply Qle_trans; [apply lerp_upper|].
      * apply Hnth; lia.
      * lra.
      * eapply Qle_trans; [|apply lerp_lower].
        -- apply Hnth; lia.
        -- apply Hnth; lia.
        -- lra.
Qed.

Lemma percentile_of_nonempty (a : Np.ndarray) (n1 : nat) (p : Q) :
  length a = S n1 -> 0 <= p <= 100 ->
  Np.percentile a p = Ok (Fin (Np._quantile (Np.sort a) n1 (p / 100))).
Proof.
  intros Hlen [H0 H100]. unfold Np.percentile.
  assert (E : Qle_bool 0 (p / 100) && Qle_bool (p / 100) 1 = true).
  { apply andb_true_iff. split; apply Qle_bool_iff.
    - apply Qle_shift_div_l; [reflexivity|]. now rewrite Qmult_0_l.
    - apply Qle_shift_div_r; [reflexivity|]. now rewrite Qmult_1_l. }
  rewrite E, Hlen. reflexivity.
Qed.

(** [np.percentile] is monotone in the rank. *)
Lemma percentile_monotone (a : Np.ndarray) (n1 : nat) (p1 p2 : Q) :
  length a = S n1 -> 0 <= p1 -> p1 <= p2 ->
  Np._quantile (Np.sort a) n1 (p1 / 100)
  <= Np._quantile (Np.sort a) n1 (p2 / 100).
Proof.
  intros Hlen H1 H12. apply quantile_monotone.
  - apply sort_sorted.
  - now rewrite sort_length.
  - apply Qle_shift_div_l; [reflexivity|]. now rewrite Qmult_0_l.
  - unfold Qdiv. apply Qmult_le_compat_r; [exact H12 | discriminate].
Qed.

End PercentileFacts.

Section PercentileOrder.
Context {L : NumericLib}.
Import Parameters Simulation MonteCarloSimulator.

Lemma percentiles_of_nonempty (a : Np.ndarray) (n1 : nat) :
  length a = S n1 ->
  percentiles_of a =
  Ok (map (fun p => (p, Fin (Np._quantile (Np.sort a) n1 (inject_Z p / 100))))
          Config.PERCENTILES).
Proof.
  intro Hlen. unfold percentiles_of, Config.PERCENTILES. cbn [mapM map].
  rewrite !(@percentile_of_nonempty a n1 _ Hlen) by (split; discriminate).
  reflexivity.
Qed.

(** C8.  The percentiles of the total cost that a run reports are those of
    ranks 5, 25, 50, 75 and 95, and their values do not decrease with the
    rank. *)
Theorem total_cost_percentiles_are_nondecreasing tables self s r s' :
  run_simulation tables self s = (Ok r, s') ->
  exists v5 v25 v50 v75 v95 : Q,
    stats_total_costs_percentiles (statistics r)
    = [(5, Fin v5); (25, Fin v25); (50, Fin v50); (75, Fin v75);
       (95, Fin v95)]%Z /\
    v5 <= v25 /\ v25 <= v50 /\ v50 <= v75 /\ v75 <= v95.
Proof.
  intro H. pose proof H as Ht. apply run_simulation_trace in Ht.
  destruct Ht as [d rp s1 _ _ _ _ _ _ _ Hst].
  apply run_simulation_shape in H.
  destruct H as [Hn _ _ _ [Hlt _] _ _ _].
  apply calculate_statistics_entries in Hst.
  destruct Hst as (_ & Hp & _ & _).
  destruct (Z.to_nat (num_simulations self)) as [|n1] eqn:En; [lia|].
  rewrite (@percentiles_of_nonempty (total_costs r) n1 Hlt) in Hp.
  inversion Hp as [Heq]. unfold Config.PERCENTILES. cbn [map].
  do 5 eexists. split; [reflexivity|].
  repeat split; apply percentile_monotone; try exact Hlt; discriminate.
Qed.

End PercentileOrder.

(** ** Sensitivity analysis at zero variance *)

Section SensitivityFacts.
Import Float64 Parameters Simulation.

Lemma mapM_Forall {A B} (f : A -> Result B) (P : B -> Prop) (l : list A) ys :
  mapM f l = Ok ys -> (forall x y, f x = Ok y -> P y) -> Forall P ys.
Proof.
  revert ys. induction l as [|x l IH]; simpl; intros ys H HP.
  - inversion H. constructor.
  - destruct (f x) as [y|e] eqn:Ey; [|discriminate].
    destruct (mapM f l) as [ys'|e]; [|discriminate].
    inversion H; subst. constructor; [eapply HP; eassumption | now apply IH].
Qed.


Lemma insert_by_key_Forall {A} (key : A -> float64) (P : A -> Prop) x l :
  P x -> Forall P l -> Forall P (insert_by_key key x l).
Proof.
  intros Hx Hl. induction Hl as [|y l Hy Hl IH]; simpl.
  - constructor; [exact Hx | constructor].
  - destruct (ltb (key x) (key y)); constructor; try assumption.
    constructor; assumption.
Qed.

Lemma sorted_ascending_Forall {A} (key : A -> float64) (P : A -> Prop) l :
  Forall P l -> Forall P (sorted_ascending key l).
Proof.
  unfold sorted_ascending. intro Hl.
  assert (Hgen : forall acc, Forall P acc ->
            Forall P (fold_left (fun acc x => insert_by_key key x acc) l acc)).
  { induction Hl as [|x l Hx Hl IH]; simpl; intros acc Hacc; [exact Hacc|].
    apply IH. apply insert_by_key_Forall; assumption. }
  apply Hgen. constructor.
Qed.

Lemma sorted_reverse_Forall {A} (key : A -> float64) (P : A -> Prop) l :
  Forall P l -> Forall P (sorted_reverse key l).
Proof.
  intro Hl. unfold sorted_reverse. apply Forall_rev.
  apply sorted_ascending_Forall. now apply Forall_rev.
Qed.






End SensitivityFacts.

(** * Concrete runs

    The theorems above applied to the module's own tables, with the
    generator of [TestLib] started in state 0. *)

Section ConcreteRuns.
Import Parameters Simulation MonteCarloSimulator.

Lemma module_tables_merged :
  dict_merge (POLICY_PARAMETERS module_tables) (REVENUE_PARAMETERS module_tables)
  = POLICY_PARAMETERS module_tables ++ REVENUE_PARAMETERS module_tables.
Proof. reflexivity. Qed.

Lemma module_tables_validate :
  validate_parameters module_tables = ([], Ok true).
Proof. reflexivity. Qed.


(** The condition on the keys is needed: a policy filed under the key of
    the revenue is overwritten in the table that [validate_parameters]
    iterates over, so its negative standard deviation is not seen, and the
    run that follows raises NumPy's "scale < 0". *)
Example shared_key_hides_the_policy_from_validation :
  validate_parameters shared_key_tables = ([], Ok true) /\
  Exists (fun kp => negative_field (snd kp))
         (POLICY_PARAMETERS shared_key_tables) /\
  @run_simulation TestLib.lib shared_key_tables three_trials 0%Z
  = (Raise ScaleNegative, 0%Z).
Proof.
  split; [reflexivity|]. split; [|reflexivity].
  constructor. right. reflexivity.
Qed.

Lemma sample_returns_N_nonnegative_values_witness :
  exists draws a s',
    @np_random_normal TestLib.lib (mean wide_spread) (std_dev wide_spread) 3
      (@init_by_seed TestLib.lib 42)
    = (Ok draws, s') /\
    @sample TestLib.lib wide_spread 3 (Some 42%Z) 0%Z = (Ok a, s') /\
    Z.of_nat (length a) = 3%Z /\
    Forall (fun v => 0 <= v) a /\
    Forall2 clamped_at_zero draws a.
Proof.
  apply (@sample_returns_N_nonnegative_values TestLib.lib wide_spread
           3 (Some 42%Z) 0%Z).
  - discriminate.
  - discriminate.
  - lia.
  - simpl. lia.
Defined.

(** In that sample the draws are 5, -2 and 2: the negative one is returned
    as 0, the other two as they are. *)
Example sample_clamps_the_negative_draw :
  exists s',
    @np_random_normal TestLib.lib (mean wide_spread) (std_dev wide_spread) 3
      (@init_by_seed TestLib.lib 42)
    = (Ok [1 + 2 * (4 # 2); 1 + 2 * (-3 # 2); 1 + 2 * (1 # 2)], s') /\
    @sample TestLib.lib wide_spread 3 (Some 42%Z) 0%Z
    = (Ok [1 + 2 * (4 # 2); 0; 1 + 2 * (1 # 2)], s').
Proof. eexists. split; reflexivity. Qed.

Lemma total_cost_is_row_sum_witness :
  exists r s',
    @run_simulation TestLib.lib module_tables three_trials 0%Z = (Ok r, s') /\
    exists cells cost revenue,
      Forall2 (fun kc cell => nth_error (snd kc) 1 = Some cell)
              (Pd.columns (policy_costs r)) cells /\
      cells <> [] /\
      nth_error (total_costs r) 1 = Some cost /\
      nth_error (revenues r) 1 = Some revenue /\
      cost = Np.sum cells /\
      nth_error (net_budget_impact r) 1 = Some (cost - revenue).
Proof.
  eexists. eexists.
  refine ((fun H => conj H
             (@total_cost_is_row_sum_and_net_impact_is_difference
                TestLib.lib module_tables three_trials 0%Z _ _ 1%nat H _)) _).
  - simpl. lia.
  - vm_compute. reflexivity.
Defined.

Lemma results_have_trial_count_rows_witness :
  exists r s',
    @run_simulation TestLib.lib module_tables three_trials 0%Z = (Ok r, s') /\
    Z.of_nat (Pd.nrows (policy_costs r)) = 3%Z /\
    Forall (fun kc => Z.of_nat (length (snd kc)) = 3%Z /\
                      Forall (fun v => 0 <= v) (snd kc))
           (Pd.columns (policy_costs r)) /\
    Z.of_nat (length (total_costs r)) = 3%Z /\
    Z.of_nat (length (revenues r)) = 3%Z /\
    Z.of_nat (length (net_budget_impact r)) = 3%Z /\
    Forall (fun v => 0 <= v) (total_costs r) /\
    Forall (fun v => 0 <= v) (revenues r).
Proof.
  eexists. eexists.
  refine ((fun H => conj H
             (@results_have_trial_count_rows_and_nonnegative_costs
                TestLib.lib module_tables three_trials 0%Z _ _ H)) _).
  vm_compute. reflexivity.
Defined.

Lemma exceedance_count_witness :
  exists r s',
    @run_simulation TestLib.lib module_tables three_trials 0%Z = (Ok r, s') /\
    (let count :=
       length (filter (fun c => if Qlt_le_dec (133 # 10) c then true else false)
                      (total_costs r)) in
     let analysis := threshold_analysis (statistics r) in
     threshold_exceedances r = count /\
     exceedances analysis = Z.of_nat count /\
     probability analysis = Fin (inject_Z (Z.of_nat count) / inject_Z 3) /\
     0 <= inject_Z (Z.of_nat count) / inject_Z 3 <= 1).
Proof.
  eexists. eexists.
  refine ((fun H => conj H
             (@exceedance_count_is_strict_and_probability_in_unit_interval
                TestLib.lib module_tables three_trials 0%Z _ _ H)) _).
  vm_compute. reflexivity.
Defined.

(** In that run the total costs are 11.725, 13.3 and 14.925 and the
    threshold is 13.3: only the last trial is counted. *)
Example exceedance_count_of_three_trials :
  exists r s',
    @run_simulation TestLib.lib module_tables three_trials 0%Z = (Ok r, s') /\
    map Qred (total_costs r) = [469 # 40; 133 # 10; 597 # 40] /\
    threshold_exceedances r = 1%nat /\
    probability (threshold_analysis (statistics r)) = Fin (1 # 3).
Proof. eexists. eexists. repeat split; vm_compute; reflexivity. Qed.

Lemma total_cost_percentiles_witness :
  exists r s',
    @run_simulation TestLib.lib module_tables three_trials 0%Z = (Ok r, s') /\
    exists v5 v25 v50 v75 v95 : Q,
      stats_total_costs_percentiles (statistics r)
      = [(5, Fin v5); (25, Fin v25); (50, Fin v50); (75, Fin v75);
         (95, Fin v95)]%Z /\
      v5 <= v25 /\ v25 <= v50 /\ v50 <= v75 /\ v75 <= v95.
Proof.
  eexists. eexists.
  refine ((fun H => conj H
             (@total_cost_percentiles_are_nondecreasing
                TestLib.lib module_tables three_trials 0%Z _ _ H)) _).
  vm_compute. reflexivity.
Defined.

Lemma confidence_intervals_of_one_trial_witness :
  @_calculate_confidence_intervals TestLib.lib one_trial
     [2598 # 160] [10] [998 # 160]
  = Ok {| ci_total_costs := undefined_interval;
          ci_revenues := undefined_interval;
          ci_net_budget_impact := undefined_interval |}.
Proof.
  apply (@confidence_intervals_of_one_trial_are_nan_not_an_exception
           TestLib.lib one_trial [2598 # 160] [10] [998 # 160]);
    reflexivity.
Defined.

(** C7 as stated fails with one trial: the function returns intervals
    whose bounds are NaN, neither an explicit signal nor numbers. *)
Lemma one_trial_is_not_handled :
  ~ @handles_one_trial TestLib.lib one_trial [2598 # 160] [10] [998 # 160].
Proof.
  intro Hclaim.
  destruct (Hclaim eq_refl eq_refl eq_refl) as [[e He]|[c [Hc [[Hl _] _]]]].
  - vm_compute in He. discriminate.
  - vm_compute in Hc. inversion Hc; subst c. vm_compute in Hl. discriminate.
Qed.

(** With one trial the run itself returns, and its intervals are the
    undefined ones. *)
Lemma one_trial_run_has_undefined_intervals :
  exists r s',
    @run_simulation TestLib.lib module_tables one_trial 0%Z = (Ok r, s') /\
    confidence_intervals (statistics r)
    = {| ci_total_costs := undefined_interval;
         ci_revenues := undefined_interval;
         ci_net_budget_impact := undefined_interval |}.
Proof. eexists. eexists. split; vm_compute; reflexivity. Qed.

Lemma second_run_continues_witness :
  exists first second g',
    @construct_and_run_twice TestLib.lib module_tables 3 (133 # 10) (Some 42%Z) 0%Z
    = (Ok (first, second), g') /\
    (let seeded := @init_by_seed TestLib.lib 42 in
     let advanced :=
       @advance TestLib.lib (draws_per_run module_tables 3) seeded in
     @run_simulation TestLib.lib module_tables three_trials seeded
     = (Ok first, advanced) /\
     @run_simulation TestLib.lib module_tables three_trials advanced
     = (Ok second, g') /\
     g' = @advance TestLib.lib (draws_per_run module_tables 3) advanced) /\
    total_costs first <> total_costs second.
Proof.
  eexists. eexists. eexists.
  split; [vm_compute; reflexivity|].
  split; [|vm_compute; discriminate].
  apply (@second_run_continues_from_advanced_generator
           TestLib.lib module_tables 3 (133 # 10) 42%Z 0%Z).
  vm_compute. reflexivity.
Defined.

(** Without a seed the outcome depends on the state the generator is in. *)
Lemma unseeded_runs_depend_on_generator_state :
  fst (@construct_and_run TestLib.lib module_tables 3 16 None 0%Z)
  <> fst (@construct_and_run TestLib.lib module_tables 3 16 None 1%Z).
Proof. vm_compute. discriminate. Qed.



End ConcreteRuns.

(** * Further properties of the code *)

(** ** parameters.py *)

Section FurtherParameters.
Context {L : NumericLib}.
Import Float64 Parameters.

Lemma validate_items_first_offender items e :
  snd (validate_items items) = Raise e ->
  exists before key param after,
    items = before ++ (key, param) :: after /\
    Forall (fun kp => ~ negative_field (snd kp)) before /\
    (mean param < 0 -> e = NegativeMean key (mean param)) /\
    (0 <= mean param ->
     std_dev param < 0 /\ e = NegativeStdDev key (std_dev param)) /\
    fst (validate_items items) = warnings_of before.
Proof.
  induction items as [|[key param] rest IH]; simpl; [discriminate|].
  destruct (Qltb (mean param) 0) eqn:Em.
  - simpl. intro H. inversion H; subst e.
    exists [], key, param, rest. apply Qltb_lt in Em.
    split; [reflexivity|]. split; [constructor|].
    split; [reflexivity|]. split; [|reflexivity].
    intro Hpos. exfalso. exact (Qlt_not_le _ _ Em Hpos).
  - destruct (Qltb (std_dev param) 0) eqn:Es.
    + simpl. intro H. inversion H; subst e.
      exists [], key, param, rest. apply Qltb_ge in Em. apply Qltb_lt in Es.
      split; [reflexivity|]. split; [constructor|].
      split; [|split; [|reflexivity]].
      * intro Hneg. exfalso. exact (Qlt_not_le _ _ Hneg Em).
      * intros _. split; [exact Es | reflexivity].
    + destruct (validate_items rest) as [warnings r] eqn:Erest. simpl in IH.
      intro H.
      assert (Hr : r = Raise e).
      { destruct (Qltb (mean param) (std_dev param)); exact H. }
      destruct (IH Hr) as (before & k & p & after & Hrest & Hvalid & Hm & Hs & Hw).
      exists ((key, param) :: before), k, p, after.
      apply Qltb_ge in Em, Es.
      split; [simpl; now rewrite Hrest|]. split.
      { constructor; [|exact Hvalid]. simpl. intros [Hn|Hn].
        - exact (Qlt_not_le _ _ Hn Em).
        - exact (Qlt_not_le _ _ Hn Es). }
      split; [exact Hm|]. split; [exact Hs|].
      unfold warnings_of. simpl.
      destruct (Qltb (mean param) (std_dev param)); simpl;
        now rewrite Hw.
Qed.

(** X1.  When [validate_parameters] raises, the exception is about the
    first parameter, in the order of the merged table, that has a negative
    field; for that parameter a negative mean is reported in preference to
    a negative standard deviation; and the warnings already printed are
    those of the parameters before it. *)
Theorem validate_reports_the_first_negative_parameter
  (tables : Tables) (e : exn) :
  snd (validate_parameters tables) = Raise e ->
  exists before key param after,
    dict_merge (POLICY_PARAMETERS tables) (REVENUE_PARAMETERS tables)
    = before ++ (key, param) :: after /\
    Forall (fun kp => ~ negative_field (snd kp)) before /\
    (mean param < 0 -> e = NegativeMean key (mean param)) /\
    (0 <= mean param ->
     std_dev param < 0 /\ e = NegativeStdDev key (std_dev param)) /\
    fst (validate_parameters tables) = warnings_of before.
Proof. unfold validate_parameters. apply validate_items_first_offender. Qed.

Lemma max_with_zero_nonneg x : 0 <= max_with_zero x.
Proof.
  unfold max_with_zero. destruct (Qltb 0 x) eqn:E.
  - apply Qltb_lt in E. now apply Qlt_le_weak.
  - apply Qle_refl.
Qed.

Lemma max_with_zero_lower x : x <= max_with_zero x.
Proof.
  unfold max_with_zero. destruct (Qltb 0 x) eqn:E.
  - apply Qle_refl.
  - now apply Qltb_ge.
Qed.

Lemma max_with_zero_upper x y : 0 <= y -> x <= y -> max_with_zero x <= y.
Proof.
  intros Hy Hxy. unfold max_with_zero. destruct (Qltb 0 x); assumption.
Qed.

(** X2.  For a table whose keys are distinct, [get_policy_summary] has one
    item per policy, in table order, carrying the policy's name, mean and
    standard deviation; when neither of these two is negative its estimates
    satisfy [0 <= min_estimate <= mean <= max_estimate], and the minimum
    estimate is never below [mean - 2 std_dev]. *)
Theorem policy_summary_brackets_the_mean (tables : Tables) :
  NoDup (dict_keys (POLICY_PARAMETERS tables)) ->
  Forall (fun kp => valid_parameter (snd kp)) (POLICY_PARAMETERS tables) ->
  Forall2
    (fun kp ks =>
       summarises kp ks /\
       0 <= min_estimate (snd ks) /\
       min_estimate (snd ks) <= summary_mean (snd ks) /\
       summary_mean (snd ks) <= max_estimate (snd ks) /\
       summary_mean (snd ks) - 2 * summary_std_dev (snd ks)
       <= min_estimate (snd ks))
    (POLICY_PARAMETERS tables) (get_policy_summary tables).
Proof.
  intros Hnodup Hvalid. unfold get_policy_summary.
  rewrite dict_update_fresh.
  - simpl. induction Hvalid as [|[key param] rest [Hm Hs] Hrest IH];
      simpl; constructor.
    + unfold summarises. simpl in *. repeat split.
      * apply max_with_zero_nonneg.
      * apply max_with_zero_upper; [exact Hm|]. lra.
      * lra.
      * apply max_with_zero_lower.
    + apply IH. simpl in Hnodup. now inversion Hnodup.
  - simpl. unfold dict_keys in *. rewrite map_map. simpl. exact Hnodup.
Qed.

End FurtherParameters.

(** ** simulation.py: when a run returns and what it raises *)

Section FurtherRun.
Context {L : NumericLib}.
Import Float64 Parameters Simulation MonteCarloSimulator.

Lemma bind_StateExn_raise {S A B} (m : StateExn S A) (k : A -> StateExn S B)
  (s s' : S) (e : exn) :
  bind m k s = (Raise e, s') ->
  m s = (Raise e, s') \/
  exists a s1, m s = (Ok a, s1) /\ k a s1 = (Raise e, s').
Proof.
  simpl. destruct (m s) as [[a|e0] s1]; intro H.
  - right. eauto.
  - left. inversion H; subst. reflexivity.
Qed.

Lemma sample_unseeded_raise p size s e s' :
  sample p size None s = (Raise e, s') ->
  s' = s /\
  ((e = ScaleNegative /\ std_dev p < 0) \/
   (e = NegativeDimensions /\ (size < 0)%Z)).
Proof.
  rewrite sample_unseeded.
  destruct (Qltb (std_dev p) 0) eqn:Estd.
  - intro H. inversion H; subst. split; [reflexivity|]. left.
    split; [reflexivity | now apply Qltb_lt].
  - destruct (size <? 0)%Z eqn:Esize; [|discriminate].
    intro H. inversion H; subst. split; [reflexivity|]. right.
    split; [reflexivity | now apply Z.ltb_lt].
Qed.

Lemma sample_policies_raise items size acc s e s' :
  sample_policies items size acc s = (Raise e, s') ->
  (e = ScaleNegative /\ Exists (fun kp => std_dev (snd kp) < 0) items) \/
  (e = NegativeDimensions /\ (size < 0)%Z).
Proof.
  revert acc s. induction items as [|[key param] rest IH]; intros acc s H.
  - simpl in H. discriminate.
  - rewrite sample_policies_cons in H. apply bind_StateExn_raise in H.
    destruct H as [H|(a & s1 & _ & H)].
    + apply sample_unseeded_raise in H.
      destruct H as (_ & [[-> Hneg]|[-> Hneg]]); [left | right; now split].
      split; [reflexivity|]. now constructor.
    + apply IH in H. destruct H as [[-> Hex]|[-> Hneg]]; [left | right; now split].
      split; [reflexivity|]. now apply Exists_cons_tl.
Qed.

Lemma summary_raise a e :
  summary a = Raise e -> e = ZeroSizeReduction /\ a = [].
Proof.
  destruct a as [|x a]; unfold summary; simpl; intro H.
  - inversion H. split; reflexivity.
  - discriminate.
Qed.

Lemma calculate_statistics_raise self df tc rv net te e :
  _calculate_statistics self df tc rv net te = Raise e ->
  e = ZeroSizeReduction /\ (tc = [] \/ rv = [] \/ net = []).
Proof.
  unfold _calculate_statistics. intro H.
  destruct (summary tc) as [s1|e1] eqn:E1.
  2:{ simpl in H. inversion H; subst e1. apply summary_raise in E1.
      destruct E1 as [-> ->]. auto. }
  destruct (percentiles_of_succeeds tc) as [p1 Hp1]. rewrite Hp1 in H.
  destruct (summary rv) as [s2|e2] eqn:E2.
  2:{ simpl in H. inversion H; subst e2. apply summary_raise in E2.
      destruct E2 as [-> ->]. auto. }
  destruct (summary net) as [s3|e3] eqn:E3.
  2:{ simpl in H. inversion H; subst e3. apply summary_raise in E3.
      destruct E3 as [-> ->]. auto. }
  destruct (percentiles_of_succeeds net) as [p3 Hp3]. rewrite Hp3 in H.
  unfold _calculate_confidence_intervals in H.
  destruct (ci_succeeds tc) as [c1 Hc1]. rewrite Hc1 in H.
  destruct (ci_succeeds rv) as [c2 Hc2]. rewrite Hc2 in H.
  destruct (ci_succeeds net) as [c3 Hc3]. rewrite Hc3 in H.
  destruct (policy_statistics_of_succeeds df) as [ps Hps]. rewrite Hps in H.
  simpl in H. discriminate.
Qed.

Lemma sample_policies_of_nil size acc s :
  sample_policies [] size acc s = (Ok acc, s).
Proof. reflexivity. Qed.

Lemma subtract_raise a b e :
  Np.subtract a b = Raise e ->
  e = BroadcastError /\ length a <> length b /\
  length a <> 1%nat /\ length b <> 1%nat.
Proof.
  unfold Np.subtract. destruct (Nat.eqb (length a) (length b)) eqn:E;
    [discriminate|].
  apply Nat.eqb_neq in E.
  destruct a as [|x [|x' a]], b as [|y [|y' b]]; simpl in *;
    intro H; try discriminate; inversion H; repeat split; congruence.
Qed.

(** X4.  [run_simulation] returns results exactly when there is at least
    one trial, at least one policy, no policy has a negative standard
    deviation, and [REVENUE_PARAMETERS] holds under the key "tax_increases"
    a parameter whose standard deviation is not negative.  Negative means
    do not make it fail. *)
Theorem run_simulation_returns_iff_configuration_is_usable
  (tables : Tables) (self : t) (s : rng_state) :
  (exists r s', run_simulation tables self s = (Ok r, s')) <->
  ((1 <= num_simulations self)%Z /\
   POLICY_PARAMETERS tables <> [] /\
   Forall (fun kp => 0 <= std_dev (snd kp)) (POLICY_PARAMETERS tables) /\
   exists revenue_param,
     dict_get (REVENUE_PARAMETERS tables) "tax_increases" = Some revenue_param
     /\ 0 <= std_dev revenue_param).
Proof.
  split.
  - intros (r & s' & H).
    pose proof H as Ht. apply run_simulation_trace in Ht.
    destruct Ht as [d rp s1 Hd Hrp Hrev Hdf _ _ _ _].
    apply run_simulation_shape in H.
    destruct H as [Hn Hne _ _ _ _ _ _].
    apply DataFrame_of_dict_ok in Hdf. destruct Hdf as (Hcols & _ & _).
    pose proof Hd as Hdok. apply sample_policies_ok in Hdok; [|constructor].
    destruct Hdok as (_ & _ & _ & _ & Hstd).
    apply sample_unseeded_ok in Hrev. destruct Hrev as (_ & Hrstd & _ & _).
    split; [exact Hn|]. split.
    + intro E. rewrite E in Hd. rewrite sample_policies_of_nil in Hd.
      inversion Hd; subst d. congruence.
    + split; [exact Hstd|]. exists rp. split; [|exact Hrstd].
      unfold dict_getitem in Hrp.
      destruct (dict_get (REVENUE_PARAMETERS tables) "tax_increases");
        [now inversion Hrp | discriminate].
  - intros (Hn & Hne & Hstd & rp & Hrp & Hrstd).
    eapply run_simulation_succeeds; eassumption.
Qed.

(** X5.  The only exceptions [run_simulation] raises are: "scale < 0" when
    a policy or the revenue parameter has a negative standard deviation;
    "negative dimensions" when the number of trials is negative; the
    [KeyError] of a missing "tax_increases"; the broadcasting error when
    there is no policy and there are two trials or more; and the
    zero-size reduction of [np.min] when there is no trial or no policy. *)
Theorem run_simulation_raises_only_these
  (tables : Tables) (self : t) (s s' : rng_state) (e : exn) :
  run_simulation tables self s = (Raise e, s') ->
  (e = ScaleNegative /\
   (Exists (fun kp => std_dev (snd kp) < 0) (POLICY_PARAMETERS tables) \/
    exists revenue_param,
      dict_get (REVENUE_PARAMETERS tables) "tax_increases"
      = Some revenue_param /\ std_dev revenue_param < 0)) \/
  (e = NegativeDimensions /\ (num_simulations self < 0)%Z) \/
  (e = KeyError "tax_increases" /\
   dict_get (REVENUE_PARAMETERS tables) "tax_increases" = None) \/
  (e = BroadcastError /\ POLICY_PARAMETERS tables = [] /\
   (2 <= num_simulations self)%Z) \/
  (e = ZeroSizeReduction /\
   (num_simulations self = 0%Z \/ POLICY_PARAMETERS tables = [])).
Proof.
  rewrite run_simulation_eq. intro H.
  set (n := Z.to_nat (num_simulations self)).
  apply bind_StateExn_raise in H. destruct H as [H|(d & s1 & Hd & H)].
  { apply sample_policies_raise in H.
    destruct H as [[-> Hex]|[-> Hneg]]; [left; auto | right; left; auto]. }
  apply bind_StateExn_raise in H. destruct H as [H|(rp & s2 & Hrp & H)].
  { unfold lift, dict_getitem in H.
    destruct (dict_get (REVENUE_PARAMETERS tables) "tax_increases") eqn:Eget;
      [discriminate|].
    inversion H; subst. right. right. left. auto. }
  apply lift_ok in Hrp. destruct Hrp as [Hrp ->].
  assert (Hget : dict_get (REVENUE_PARAMETERS tables) "tax_increases" = Some rp).
  { unfold dict_getitem in Hrp.
    destruct (dict_get (REVENUE_PARAMETERS tables) "tax_increases");
      [now inversion Hrp | discriminate]. }
  apply bind_StateExn_raise in H. destruct H as [H|(rev & s3 & Hrev & H)].
  { apply sample_unseeded_raise in H.
    destruct H as (_ & [[-> Hneg]|[-> Hneg]]);
      [left; split; [reflexivity|]; right; eauto | right; left; auto]. }
  pose proof Hd as Hdok. apply sample_policies_ok in Hdok; [|constructor].
  destruct Hdok as (Hcols & _ & Hdne & _ & _). fold n in Hcols.
  apply sample_unseeded_ok in Hrev. fold n in Hrev.
  destruct Hrev as (Hsize & _ & [Hlenrev _] & _).
  assert (Hlens : Forall (fun kc : string * Np.ndarray => length (snd kc) = n) d).
  { eapply Forall_impl; [|exact Hcols]. intros kc [Hl _]. exact Hl. }
  destruct (DataFrame_of_dict_succeeds Hlens) as [df Hdf].
  apply bind_StateExn_raise in H. destruct H as [H|(df' & s4 & Hdf' & H)].
  { unfold lift in H. rewrite Hdf in H. discriminate. }
  apply lift_ok in Hdf'. destruct Hdf' as [Hdf' ->].
  rewrite Hdf in Hdf'. inversion Hdf'; subst df'. clear Hdf'.
  apply DataFrame_of_dict_ok in Hdf. destruct Hdf as (_ & Hempty & Hrows).
  assert (Hpolicies : d = [] -> POLICY_PARAMETERS tables = []).
  { intro E. destruct (POLICY_PARAMETERS tables) as [|kp rest] eqn:Ep;
      [reflexivity|].
    exfalso. apply Hdne; [right; discriminate | exact E]. }
  assert (Hlentot : d <> [] -> length (Pd.sum_axis1 df) = n).
  { intro Hne. rewrite sum_axis1_length. now apply Hrows. }
  assert (Hlentot0 : d = [] -> length (Pd.sum_axis1 df) = 0%nat).
  { intro E. rewrite sum_axis1_length. now apply Hempty. }
  apply bind_StateExn_raise in H. destruct H as [H|(net & s5 & Hnet & H)].
  { unfold lift in H. inversion H as [[Hsub Hs]]. apply subtract_raise in Hsub.
    destruct Hsub as (-> & Hneq & _ & Hrev1).
    destruct d as [|kc d'].
    - right. right. right. left. split; [reflexivity|].
      split; [now apply Hpolicies|].
      rewrite Hlentot0 in Hneq by reflexivity. rewrite Hlenrev in *.
      unfold n in *. lia.
    - exfalso. apply Hneq. rewrite Hlentot by discriminate. now rewrite Hlenrev. }
  apply lift_ok in Hnet. destruct Hnet as [Hnet ->].
  apply bind_StateExn_raise in H. destruct H as [H|(st & s6 & _ & H)].
  2:{ simpl in H. discriminate. }
  unfold lift in H. inversion H as [[Hst Hs]].
  apply calculate_statistics_raise in Hst. destruct Hst as [-> Hcases].
  right. right. right. right. split; [reflexivity|].
  destruct d as [|kc d']; [right; now apply Hpolicies|]. left.
  assert (Htot : length (Pd.sum_axis1 df) = n) by (apply Hlentot; discriminate).
  rewrite subtract_same_length in Hnet by congruence.
  inversion Hnet as [Hnet']. clear Hnet.
  assert (Hn0 : n = 0%nat).
  { destruct Hcases as [E|[E|E]].
    - rewrite E in Htot. simpl in Htot. lia.
    - rewrite E in Hlenrev. simpl in Hlenrev. lia.
    - rewrite <- Hnet' in E.
      apply (f_equal (@length Q)) in E.
      rewrite length_map, length_combine, Htot, Hlenrev, Nat.min_id in E.
      simpl in E. exact E. }
  unfold n in Hn0. lia.
Qed.

End FurtherRun.

(** ** simulation.py: the order and the items of the sensitivity analysis *)

Section FurtherSensitivity.
Import Float64 Parameters Simulation.

Lemma dict_set_keys_NoDup {V} (d : dict V) k v :
  NoDup (dict_keys d) -> NoDup (dict_keys (dict_set d k v)).
Proof.
  intro H. destruct (in_dec string_dec k (dict_keys d)) as [Hin|Hnin].
  - assert (E : dict_keys (dict_set d k v) = dict_keys d).
    { clear H. induction d as [|[k' v'] d IH]; simpl in *; [contradiction|].
      destruct (String.eqb k k') eqn:Ek; simpl; [reflexivity|].
      f_equal. apply IH. destruct Hin as [Hin|Hin]; [|exact Hin].
      subst k'. rewrite String.eqb_refl in Ek. discriminate. }
    now rewrite E.
  - rewrite dict_set_fresh by exact Hnin.
    unfold dict_keys in *. rewrite map_app. simpl.
    apply NoDup_app; [exact H | repeat constructor; intros [] | ].
    intros x Hx [Hk|[]]. subst x. contradiction.
Qed.

Lemma dict_set_keys_incl {V} (d : dict V) k v x :
  In x (dict_keys (dict_set d k v)) -> x = k \/ In x (dict_keys d).
Proof.
  induction d as [|[k' v'] d IH]; simpl.
  - intros [H|[]]. now left.
  - destruct (String.eqb k k') eqn:Ek; simpl.
    + intros [H|H]; auto.
    + intros [H|H]; [auto|]. destruct (IH H); auto.
Qed.

Lemma mapM_keys {A B} (f : A -> Result (A * B)) (l : list A) ys :
  mapM f l = Ok ys -> (forall x y, f x = Ok y -> fst y = x) -> map fst ys = l.
Proof.
  revert ys. induction l as [|x l IH]; simpl; intros ys H Hf.
  - now inversion H.
  - destruct (f x) as [y|e] eqn:Ey; [|discriminate].
    destruct (mapM f l) as [ys'|e]; [|discriminate].
    inversion H; subst. simpl. f_equal; [eapply Hf; eassumption | now apply IH].
Qed.

Lemma mapM_Forall_In {A B} (f : A -> Result B) (P : B -> Prop) (l : list A) ys :
  mapM f l = Ok ys -> (forall x y, In x l -> f x = Ok y -> P y) -> Forall P ys.
Proof.
  revert ys. induction l as [|x l IH]; simpl; intros ys H HP.
  - inversion H. constructor.
  - destruct (f x) as [y|e] eqn:Ey; [|discriminate].
    destruct (mapM f l) as [ys'|e]; [|discriminate].
    inversion H; subst. constructor.
    + eapply HP; [left; reflexivity | exact Ey].
    + apply IH; [reflexivity|]. intros z w Hz. apply HP. now right.
Qed.

Section SortFacts.
Variable A : Type.
Variable key : A -> float64.

(** ascending order of finite keys *)
Let ascending (a b : A) : Prop :=
  exists qa qb, key a = Fin qa /\ key b = Fin qb /\ qa <= qb.

Let finite_key (a : A) : Prop := is_finite (key a) = true.

Lemma insert_by_key_Permutation x l :
  Permutation (insert_by_key key x l) (x :: l).
Proof.
  induction l as [|y l IH]; simpl; [apply Permutation_refl|].
  destruct (ltb (key x) (key y)); [apply Permutation_refl|].
  eapply Permutation_trans; [apply perm_skip; exact IH | apply perm_swap].
Qed.

Lemma sorted_ascending_Permutation l :
  Permutation (sorted_ascending key l) l.
Proof.
  unfold sorted_ascending.
  assert (Hgen : forall acc,
            Permutation
              (fold_left (fun acc x => insert_by_key key x acc) l acc)
              (acc ++ l)).
  { induction l as [|x l IH]; simpl; intro acc.
    - rewrite app_nil_r. apply Permutation_refl.
    - eapply Permutation_trans; [apply IH|].
      eapply Permutation_trans;
        [apply Permutation_app_tail; apply insert_by_key_Permutation|].
      simpl. apply Permutation_cons_app. apply Permutation_refl. }
  apply (Hgen []).
Qed.

Lemma sorted_reverse_Permutation l :
  Permutation (sorted_reverse key l) l.
Proof.
  unfold sorted_reverse.
  eapply Permutation_trans; [apply Permutation_sym, Permutation_rev|].
  eapply Permutation_trans; [apply sorted_ascending_Permutation|].
  apply Permutation_sym, Permutation_rev.
Qed.

Lemma finite_key_value a : finite_key a -> exists q, key a = Fin q.
Proof.
  unfold finite_key. destruct (key a) as [q| |]; simpl; intro H;
    [eauto | discriminate | discriminate].
Qed.

Lemma insert_by_key_sorted x l :
  finite_key x -> Forall finite_key l ->
  StronglySorted ascending l -> StronglySorted ascending (insert_by_key key x l).
Proof.
  intros Hx Hfin Hsorted.
  induction Hsorted as [|y l Hl IH Hy]; simpl.
  - constructor; constructor.
  - inversion Hfin as [|y' l' Hfy Hfl]; subst.
    destruct (finite_key_value Hx) as [qx Ex].
    destruct (finite_key_value Hfy) as [qy Ey].
    destruct (ltb (key x) (key y)) eqn:E.
    + rewrite Ex, Ey in E. simpl in E. apply Qltb_lt in E.
      constructor; [constructor; assumption|].
      constructor.
      * exists qx, qy. repeat split; try assumption. now apply Qlt_le_weak.
      * eapply Forall_impl; [|exact Hy].
        intros z (qy' & qz & Hy' & Hz & Hle).
        rewrite Ey in Hy'. inversion Hy'; subst qy'.
        exists qx, qz. repeat split; try assumption.
        apply Qlt_le_weak. eapply Qlt_le_trans; eassumption.
    + rewrite Ex, Ey in E. simpl in E. apply Qltb_ge in E.
      constructor; [now apply IH|].
      apply insert_by_key_Forall; [|exact Hy].
      exists qy, qx. repeat split; assumption.
Qed.

Lemma sorted_ascending_sorted l :
  Forall finite_key l -> StronglySorted ascending (sorted_ascending key l).
Proof.
  unfold sorted_ascending. intro Hfin.
  assert (Hgen : forall acc,
            Forall finite_key acc -> StronglySorted ascending acc ->
            StronglySorted ascending
              (fold_left (fun acc x => insert_by_key key x acc) l acc)).
  { induction Hfin as [|x l Hx Hl IH]; simpl; intros acc Hacc Hs; [exact Hs|].
    apply IH.
    - apply insert_by_key_Forall; assumption.
    - now apply insert_by_key_sorted. }
  apply Hgen; constructor.
Qed.

Lemma StronglySorted_snoc (R : A -> A -> Prop) l x :
  StronglySorted R l -> Forall (fun y => R y x) l ->
  StronglySorted R (l ++ [x]).
Proof.
  intros Hs Hx. induction Hs as [|y l Hl IH Hy]; simpl.
  - constructor; constructor.
  - inversion Hx; subst. constructor; [now apply IH|].
    apply Forall_app. split; [exact Hy | now constructor].
Qed.

Lemma StronglySorted_rev (R : A -> A -> Prop) l :
  StronglySorted R l -> StronglySorted (fun a b => R b a) (rev l).
Proof.
  induction 1 as [|x l Hl IH Hx]; simpl; [constructor|].
  apply StronglySorted_snoc; [exact IH|].
  apply Forall_rev. exact Hx.
Qed.

Lemma sorted_reverse_descending l :
  Forall finite_key l ->
  StronglySorted (fun a b => ascending b a) (sorted_reverse key l).
Proof.
  intro Hfin. unfold sorted_reverse. apply StronglySorted_rev.
  apply sorted_ascending_sorted. now apply Forall_rev.
Qed.
End SortFacts.

Lemma run_sensitivity_analysis_sorted tables base_simulator results d :
  run_sensitivity_analysis tables base_simulator results = Ok d ->
  NoDup (dict_keys (Pd.columns (policy_costs results))) ->
  exists items,
    map fst items = dict_keys (Pd.columns (policy_costs results)) /\
    Forall (fun kv =>
              exists column,
                dict_get (Pd.columns (policy_costs results)) (fst kv)
                = Some column /\
                variance (snd kv) = Np.var column /\
                contribution_to_total (snd kv)
                = div (Np.var column) (Np.var (total_costs results)) /\
                sens_percentage (snd kv)
                = mul (Fin 100) (contribution_to_total (snd kv)))
           items /\
    d = sorted_reverse (fun kv => contribution_to_total (snd kv)) items.
Proof.
  unfold run_sensitivity_analysis. intros H Hnodup.
  match type of H with
  | match mapM ?f ?l with _ => _ end = _ =>
      destruct (mapM f l) as [items|e] eqn:Eitems; [|discriminate]
  end.
  match type of H with
  | match mapM ?f ?l with _ => _ end = _ =>
      destruct (mapM f l) as [names|e] eqn:Enames; [|discriminate]
  end.
  inversion H; subst d. clear H Enames.
  assert (Hkeys : map fst items = dict_keys (Pd.columns (policy_costs results))).
  { eapply mapM_keys; [exact Eitems|]. intros key kv Hkv. cbv beta in Hkv.
    destruct (Pd.getitem (policy_costs results) key); [|discriminate].
    now inversion Hkv. }
  assert (Hunsorted : dict_update [] items = items).
  { apply (dict_update_fresh items []). simpl. unfold dict_keys. now rewrite Hkeys. }
  rewrite Hunsorted.
  exists items. split; [exact Hkeys|]. split.
  - eapply mapM_Forall; [exact Eitems|].
    intros key kv Hkv. cbv beta in Hkv. unfold Pd.getitem, dict_getitem in Hkv.
    destruct (dict_get (Pd.columns (policy_costs results)) key) as [column|] eqn:Eget;
      [|discriminate].
    inversion Hkv; subst kv. simpl. exists column. repeat split. exact Eget.
  - apply (dict_update_fresh _ []). simpl.
    eapply Permutation_NoDup; [|rewrite <- Hkeys in Hnodup; exact Hnodup].
    unfold dict_keys. apply Permutation_map. apply Permutation_sym.
    apply sorted_reverse_Permutation.
Qed.

(** X6.  When the columns of the cost table have distinct keys and
    [run_sensitivity_analysis] returns, it returns one item per column (its
    keys are the columns' keys in another order); each item holds the
    population variance of its column, that variance divided by the
    variance of the total cost, and 100 times this quotient; and when the
    quotients are all finite the items are in descending order of the
    quotient. *)
Theorem sensitivity_is_a_sorted_item_per_policy
  (tables : Tables) (base_simulator : MonteCarloSimulator.t)
  (results : SimulationResults) (d : dict Sensitivity) :
  run_sensitivity_analysis tables base_simulator results = Ok d ->
  NoDup (dict_keys (Pd.columns (policy_costs results))) ->
  Permutation (dict_keys d) (dict_keys (Pd.columns (policy_costs results))) /\
  Forall (fun kv =>
            exists column,
              dict_get (Pd.columns (policy_costs results)) (fst kv)
              = Some column /\
              variance (snd kv) = Np.var column /\
              contribution_to_total (snd kv)
              = div (Np.var column) (Np.var (total_costs results)) /\
              sens_percentage (snd kv)
              = mul (Fin 100) (contribution_to_total (snd kv)))
         d /\
  (Forall (fun kv => is_finite (contribution_to_total (snd kv)) = true) d ->
   descending d).
Proof.
  intros H Hnodup.
  destruct (run_sensitivity_analysis_sorted _ _ _ H Hnodup)
    as (items & Hkeys & Hitems & ->).
  pose proof (sorted_reverse_Permutation
                (fun kv : string * Sensitivity => contribution_to_total (snd kv))
                items) as Hperm.
  split; [|split].
  - rewrite <- Hkeys. unfold dict_keys. now apply Permutation_map.
  - eapply Permutation_Forall; [apply Permutation_sym; exact Hperm | exact Hitems].
  - intro Hfin. unfold descending.
    assert (Hfin' : Forall (fun kv : string * Sensitivity =>
                              is_finite (contribution_to_total (snd kv)) = true)
                           items).
    { eapply Permutation_Forall; [exact Hperm | exact Hfin]. }
    pose proof (sorted_reverse_descending
                  (fun kv : string * Sensitivity => contribution_to_total (snd kv))
                  Hfin') as Hsorted.
    clear - Hsorted.
    induction Hsorted as [|a l Hl IH Ha]; constructor; [exact IH|].
    eapply Forall_impl; [|exact Ha].
    intros b (qb & qa & Hb & Hqa & Hle). exists qa, qb. auto.
Qed.

End FurtherSensitivity.

(** ** Validation, run and analysis in sequence (main.py) *)

Section FurtherPipeline.
Context {L : NumericLib}.
Import Float64 Parameters Simulation MonteCarloSimulator.

Lemma sample_policies_keys items size acc s d s' :
  sample_policies items size acc s = (Ok d, s') ->
  NoDup (dict_keys acc) ->
  NoDup (dict_keys d) /\
  forall x, In x (dict_keys d) ->
            In x (dict_keys acc) \/ In x (dict_keys items).
Proof.
  revert acc s. induction items as [|[key param] rest IH]; intros acc s H Hacc.
  - simpl in H. inversion H; subst. split; [exact Hacc | auto].
  - rewrite sample_policies_cons in H. invert_bind H.
    apply IH in H; [|now apply dict_set_keys_NoDup].
    destruct H as [Hnodup Hin]. split; [exact Hnodup|].
    intros x Hx. destruct (Hin x Hx) as [Hset|Hrest].
    + apply dict_set_keys_incl in Hset. destruct Hset as [->|Hset].
      * right. now left.
      * now left.
    + right. now right.
Qed.

Lemma run_results_keys tables self s r s' :
  run_simulation tables self s = (Ok r, s') ->
  NoDup (dict_keys (Pd.columns (policy_costs r))) /\
  forall x, In x (dict_keys (Pd.columns (policy_costs r))) ->
            In x (dict_keys (POLICY_PARAMETERS tables)).
Proof.
  intro H. apply run_simulation_trace in H.
  destruct H as [d rp s1 Hd _ _ Hdf _ _ _ _].
  apply DataFrame_of_dict_ok in Hdf. destruct Hdf as (-> & _ & _).
  apply sample_policies_keys in Hd; [|constructor].
  destruct Hd as [Hnodup Hin]. split; [exact Hnodup|].
  intros x Hx. destruct (Hin x Hx) as [[]|Hp]. exact Hp.
Qed.

Lemma sensitivity_returns_when_keys_are_policies tables base_simulator results :
  (forall x, In x (dict_keys (Pd.columns (policy_costs results))) ->
             In x (dict_keys (POLICY_PARAMETERS tables))) ->
  exists d, run_sensitivity_analysis tables base_simulator results = Ok d.
Proof.
  intro Hkeys. unfold run_sensitivity_analysis.
  match goal with
  | |- exists d, match mapM ?f ?l with _ => _ end = _ =>
      destruct (@mapM_succeeds _ _ f l) as [items Hitems]
  end.
  { intros key Hkey. unfold Pd.getitem, dict_getitem.
    destruct (dict_get_In_keys _ _ Hkey) as [column ->]. eauto. }
  rewrite Hitems.
  assert (Hin : Forall (fun kv : string * Sensitivity =>
                          In (fst kv) (dict_keys (POLICY_PARAMETERS tables)))
                       items).
  { eapply mapM_Forall_In; [exact Hitems|].
    intros key kv Hkey Hkv. cbv beta in Hkv.
    destruct (Pd.getitem (policy_costs results) key); [|discriminate].
    inversion Hkv; subst kv. simpl. now apply Hkeys. }
  match goal with
  | |- exists d, match mapM ?f ?l with _ => _ end = _ =>
      destruct (@mapM_succeeds _ _ f l) as [names Hnames]
  end.
  { intros kv Hkv.
    assert (Hall : Forall (fun kv : string * Sensitivity =>
                             In (fst kv) (dict_keys (POLICY_PARAMETERS tables)))
                          (dict_update []
                             (sorted_reverse
                                (fun kv => contribution_to_total (snd kv))
                                (dict_update [] items)))).
    { apply dict_update_Forall; [constructor|].
      apply sorted_reverse_Forall.
      apply dict_update_Forall; [constructor | exact Hin]. }
    rewrite Forall_forall in Hall. specialize (Hall kv Hkv).
    unfold dict_getitem.
    destruct (dict_get_In_keys _ _ Hall) as [param ->]. eauto. }
  rewrite Hnames. eauto.
Qed.

Lemma mean_of_nonempty (a : Np.ndarray) :
  a <> [] ->
  Np.mean a = Fin (Np.sum a / inject_Z (Z.of_nat (length a))).
Proof.
  intro Hne. unfold Np.mean, div, of_nat, of_Z.
  destruct (Qeq_bool (inject_Z (Z.of_nat (length a))) 0) eqn:E; [|reflexivity].
  apply Qeq_bool_eq in E. unfold Qeq in E. simpl in E.
  destruct a; [congruence | simpl in E; lia].
Qed.

Lemma length_as_rational_pos {A} (a : list A) :
  a <> [] -> 0 < inject_Z (Z.of_nat (length a)).
Proof.
  intro Hne. change 0 with (inject_Z 0). rewrite <- Zlt_Qlt.
  destruct a; [congruence | simpl; lia].
Qed.

Lemma sum_of_products_nonneg (f : Q -> Q) (l : list Q) :
  0 <= Np.sum (map (fun v => f v * f v) l).
Proof.
  induction l as [|x l IH]; simpl; [apply Qle_refl|]. nra.
Qed.

(** The population variance of a non-empty array is a non-negative
    number. *)
Lemma var_of_nonempty (a : Np.ndarray) :
  a <> [] -> exists v, Np.var a = Fin v /\ 0 <= v.
Proof.
  intro Hne. unfold Np.var, Np.var_ddof. rewrite (mean_of_nonempty Hne).
  rewrite Nat.sub_0_r. unfold div, of_nat, of_Z.
  pose proof (length_as_rational_pos Hne) as Hpos.
  destruct (Qeq_bool (inject_Z (Z.of_nat (length a))) 0) eqn:E.
  { apply Qeq_bool_eq in E. rewrite E in Hpos. exfalso.
    exact (Qlt_irrefl _ Hpos). }
  eexists. split; [reflexivity|].
  apply Qle_shift_div_l; [exact Hpos|]. rewrite Qmult_0_l.
  apply (sum_of_products_nonneg
           (fun v => v - Np.sum a / inject_Z (Z.of_nat (length a)))).
Qed.

(** X7.  After a run has returned, [run_sensitivity_analysis] on its
    results, with the same tables, returns too: its lookups of the policy
    names cannot fail.  It returns one item per policy column.  The
    variance of the total cost is a non-negative number, and when it is not
    zero every contribution is a non-negative number and the items are in
    descending order of contribution. *)
Theorem analysis_of_a_run_returns_sorted_nonnegative_contributions
  (tables : Tables) (self : t) (s s' : rng_state) (r : SimulationResults) :
  run_simulation tables self s = (Ok r, s') ->
  exists d total_variance,
    run_sensitivity_analysis tables self r = Ok d /\
    Permutation (dict_keys d) (dict_keys (Pd.columns (policy_costs r))) /\
    Np.var (total_costs r) = Fin total_variance /\
    0 <= total_variance /\
    (~ total_variance == 0 ->
     Forall (fun kv => exists q,
                 contribution_to_total (snd kv) = Fin q /\ 0 <= q) d /\
     descending d).
Proof.
  intro H.
  destruct (run_results_keys _ _ _ H) as [Hnodup Hkeys].
  destruct (sensitivity_returns_when_keys_are_policies tables self r Hkeys)
    as [d Hd].
  pose proof H as Hshape. apply run_simulation_shape in Hshape.
  destruct Hshape as [Hn _ _ Hcols [Hlt _] _ _ _].
  assert (Hn1 : (1 <= Z.to_nat (num_simulations self))%nat) by lia.
  destruct (@var_of_nonempty (total_costs r)) as (vt & Hvt & Hvt0).
  { eapply length_pos_not_nil; eassumption. }
  destruct (run_sensitivity_analysis_sorted _ _ _ Hd Hnodup)
    as (items & Hitemkeys & Hitems & Hsorted).
  pose proof (sorted_reverse_Permutation
                (fun kv : string * Sensitivity => contribution_to_total (snd kv))
                items) as Hperm.
  rewrite <- Hsorted in Hperm.
  exists d, vt. split; [exact Hd|]. split.
  { rewrite <- Hitemkeys. unfold dict_keys. now apply Permutation_map. }
  split; [exact Hvt|]. split; [exact Hvt0|].
  intro Hnz.
  assert (Hpos : Forall (fun kv : string * Sensitivity =>
                           exists q, contribution_to_total (snd kv) = Fin q /\
                                     0 <= q) items).
  { eapply Forall_impl; [|exact Hitems].
    intros kv (column & Hget & _ & Hc & _).
    assert (Hcne : column <> []).
    { apply dict_get_In in Hget. rewrite Forall_forall in Hcols.
      destruct (Hcols _ Hget) as [Hlen _]. simpl in Hlen.
      eapply length_pos_not_nil; eassumption. }
    destruct (var_of_nonempty Hcne) as (vc & Hvc & Hvc0).
    rewrite Hc, Hvc, Hvt. unfold div.
    destruct (Qeq_bool vt 0) eqn:E;
      [apply Qeq_bool_eq in E; contradiction|].
    eexists. split; [reflexivity|].
    apply Qle_shift_div_l; [|now rewrite Qmult_0_l].
    destruct (Qle_lt_or_eq _ _ Hvt0) as [Hlt0|Heq]; [exact Hlt0|].
    exfalso. apply Hnz. now symmetry. }
  split.
  - eapply Permutation_Forall; [apply Permutation_sym; exact Hperm | exact Hpos].
  - unfold descending. rewrite Hsorted.
    assert (Hfin : Forall (fun kv : string * Sensitivity =>
                             is_finite (contribution_to_total (snd kv)) = true)
                          items).
    { eapply Forall_impl; [|exact Hpos]. intros kv (q & -> & _). reflexivity. }
    pose proof (sorted_reverse_descending
                  (fun kv : string * Sensitivity => contribution_to_total (snd kv))
                  Hfin) as Hs.
    clear - Hs.
    induction Hs as [|a l Hl IH Ha]; constructor; [exact IH|].
    eapply Forall_impl; [|exact Ha].
    intros b (qb & qa & Hb & Hqa & Hle). exists qa, qb. auto.
Qed.

(** X8.  The sequence of [main]: when [validate_parameters] has returned
    for tables whose keys are all distinct, that hold at least one policy
    and the revenue key "tax_increases", and at least one trial is asked
    for, then [run_simulation] returns results, from any state of the
    generator, and [run_sensitivity_analysis] returns a dictionary for
    them: neither of the two calls raises after a successful validation. *)
Theorem validated_tables_run_and_analyse_without_exception
  (tables : Tables) (self : t) (s : rng_state) :
  snd (validate_parameters tables) = Ok true ->
  NoDup (dict_keys (POLICY_PARAMETERS tables)
         ++ dict_keys (REVENUE_PARAMETERS tables)) ->
  POLICY_PARAMETERS tables <> [] ->
  In "tax_increases"%string (dict_keys (REVENUE_PARAMETERS tables)) ->
  (1 <= num_simulations self)%Z ->
  exists r s' d,
    run_simulation tables self s = (Ok r, s') /\
    run_sensitivity_analysis tables self r = Ok d.
Proof.
  intros Hvalid Hnodup Hne Hkey Hn.
  unfold validate_parameters in Hvalid.
  pose proof (validate_items_spec
                (dict_merge (POLICY_PARAMETERS tables)
                            (REVENUE_PARAMETERS tables))) as Hspec.
  rewrite Hvalid in Hspec. destruct Hspec as (_ & Hall & _).
  rewrite (dict_merge_distinct_keys _ _ Hnodup) in Hall.
  apply Forall_app in Hall. destruct Hall as [Hpol Hrev].
  assert (Hnonneg : forall param, ~ negative_field param -> 0 <= std_dev param).
  { intros param Hp. apply Qnot_lt_le. intro Hlt. apply Hp. now right. }
  destruct (dict_get_In_keys _ _ Hkey) as [rp Hrp].
  destruct (@run_simulation_succeeds L tables self s rp) as (r & s' & Hrun).
  - exact Hn.
  - exact Hne.
  - eapply Forall_impl; [|exact Hpol]. intros kp Hkp. now apply Hnonneg.
  - exact Hrp.
  - apply Hnonneg. apply dict_get_In in Hrp.
    rewrite Forall_forall in Hrev. exact (Hrev _ Hrp).
  - destruct (run_results_keys _ _ _ Hrun) as [_ Hkeys].
    destruct (sensitivity_returns_when_keys_are_policies tables self r Hkeys)
      as [d Hd].
    exists r, s', d. split; assumption.
Qed.

End FurtherPipeline.

(** ** simulation.py: the summary statistics *)

Section FurtherStatistics.
Context {L : NumericLib}.
Import Float64 Parameters Simulation MonteCarloSimulator.

Lemma Qmin_is_argument x y : Qmin x y = x \/ Qmin x y = y.
Proof.
  unfold Qmin, GenericMinMax.gmin. destruct (x ?= y); auto.
Qed.

Lemma Qmax_is_argument x y : Qmax x y = x \/ Qmax x y = y.
Proof.
  unfold Qmax, GenericMinMax.gmax. destruct (x ?= y); auto.
Qed.

Lemma fold_min_spec (l : list Q) (x : Q) :
  fold_left Qmin l x <= x /\
  Forall (fun v => fold_left Qmin l x <= v) l /\
  In (fold_left Qmin l x) (x :: l).
Proof.
  revert x. induction l as [|y l IH]; intro x; simpl.
  - split; [apply Qle_refl|]. split; [constructor | now left].
  - destruct (IH (Qmin x y)) as (Hle & Hall & Hin). split; [|split].
    + eapply Qle_trans; [exact Hle | apply Q.le_min_l].
    + constructor; [|exact Hall].
      eapply Qle_trans; [exact Hle | apply Q.le_min_r].
    + destruct Hin as [Hin|Hin]; [|right; now right].
      rewrite <- Hin. destruct (Qmin_is_argument x y) as [->| ->]; auto.
Qed.

Lemma fold_max_spec (l : list Q) (x : Q) :
  x <= fold_left Qmax l x /\
  Forall (fun v => v <= fold_left Qmax l x) l /\
  In (fold_left Qmax l x) (x :: l).
Proof.
  revert x. induction l as [|y l IH]; intro x; simpl.
  - split; [apply Qle_refl|]. split; [constructor | now left].
  - destruct (IH (Qmax x y)) as (Hle & Hall & Hin). split; [|split].
    + eapply Qle_trans; [apply Q.le_max_l | exact Hle].
    + constructor; [|exact Hall].
      eapply Qle_trans; [apply Q.le_max_r | exact Hle].
    + destruct Hin as [Hin|Hin]; [|right; now right].
      rewrite <- Hin. destruct (Qmax_is_argument x y) as [->| ->]; auto.
Qed.

Lemma min_spec (a : Np.ndarray) (m : Q) :
  Np.min a = Ok m -> Forall (fun v => m <= v) a /\ In m a.
Proof.
  destruct a as [|x l]; simpl; intro H; [discriminate|].
  inversion H; subst m. destruct (fold_min_spec l x) as (Hx & Hl & Hin).
  split; [constructor; assumption | exact Hin].
Qed.

Lemma max_spec (a : Np.ndarray) (m : Q) :
  Np.max a = Ok m -> Forall (fun v => v <= m) a /\ In m a.
Proof.
  destruct a as [|x l]; simpl; intro H; [discriminate|].
  inversion H; subst m. destruct (fold_max_spec l x) as (Hx & Hl & Hin).
  split; [constructor; assumption | exact Hin].
Qed.

Lemma sum_between (l : list Q) (lo hi : Q) :
  Forall (fun v => lo <= v <= hi) l ->
  inject_Z (Z.of_nat (length l)) * lo <= Np.sum l
  <= inject_Z (Z.of_nat (length l)) * hi.
Proof.
  induction 1 as [|x l [Hlo Hhi] Hl IH].
  - simpl. split; rewrite Qmult_0_l; apply Qle_refl.
  - cbn [length Np.sum fold_right]. rewrite Nat2Z.inj_succ. unfold Z.succ.
    rewrite inject_Z_plus. change (inject_Z 1) with 1.
    change (fold_right Qplus 0 l) with (Np.sum l).
    destruct IH as [IHlo IHhi]. split; nra.
Qed.

(** The mean of a non-empty array lies between any bounds of its values. *)
Lemma mean_between (l : list Q) (lo hi : Q) :
  l <> [] -> Forall (fun v => lo <= v <= hi) l ->
  exists m, Np.mean l = Fin m /\ lo <= m <= hi.
Proof.
  intros Hne Hall. rewrite (mean_of_nonempty Hne).
  eexists. split; [reflexivity|].
  pose proof (length_as_rational_pos Hne) as Hpos.
  destruct (sum_between Hall) as [Hlo Hhi]. split.
  - apply Qle_shift_div_l; [exact Hpos|]. now rewrite Qmult_comm.
  - apply Qle_shift_div_r; [exact Hpos|]. now rewrite Qmult_comm.
Qed.

Lemma insert_In x l v : In v (Np.insert x l) -> v = x \/ In v l.
Proof.
  induction l as [|y l IH]; simpl.
  - intros [H|[]]. now left.
  - destruct (Qle_bool x y); simpl.
    + intros [H|[H|H]]; auto.
    + intros [H|H]; [auto|]. destruct (IH H); auto.
Qed.

Lemma sort_In a v : In v (Np.sort a) -> In v a.
Proof.
  unfold Np.sort. induction a as [|x a IH]; simpl; [auto|].
  intro H. apply insert_In in H. destruct H as [->|H]; auto.
Qed.

Lemma In_firstn {A} (l : list A) k x : In x (firstn k l) -> In x l.
Proof.
  intro H. rewrite <- (firstn_skipn k l). apply in_or_app. now left.
Qed.

Lemma In_skipn {A} (l : list A) k x : In x (skipn k l) -> In x l.
Proof.
  intro H. rewrite <- (firstn_skipn k l). apply in_or_app. now right.
Qed.

Lemma Forall_firstn_skipn {A} (P : A -> Prop) (l : list A) i k :
  Forall P l -> Forall P (firstn k (skipn i l)).
Proof.
  intro H. apply Forall_forall. intros x Hx.
  rewrite Forall_forall in H. apply H.
  apply In_firstn in Hx. now apply In_skipn in Hx.
Qed.

(** The median of a non-empty array lies between any bounds of its
    values. *)
Lemma median_between (a : Np.ndarray) (lo hi : Q) :
  a <> [] -> Forall (fun v => lo <= v <= hi) a ->
  exists m, Np.median a = Fin m /\ lo <= m <= hi.
Proof.
  intros Hne Hall. unfold Np.median.
  assert (Hsorted : Forall (fun v => lo <= v <= hi) (Np.sort a)).
  { apply Forall_forall. intros v Hv. rewrite Forall_forall in Hall.
    apply Hall. now apply sort_In. }
  assert (Hlen : (1 <= length a)%nat).
  { destruct a; [congruence | simpl; lia]. }
  destruct (Nat.eqb (length a) 0) eqn:E0; [apply Nat.eqb_eq in E0; lia|].
  pose proof (sort_length a) as Hsl.
  destruct (Nat.odd (length a)) eqn:Eodd.
  - apply mean_between; [|now apply Forall_firstn_skipn].
    intro E. apply (f_equal (@length Q)) in E.
    rewrite length_firstn, length_skipn, Hsl in E.
    change (length (@nil Q)) with 0%nat in E.
    pose proof (Nat.div_lt (length a) 2). lia.
  - apply mean_between; [|now apply Forall_firstn_skipn].
    intro E. apply (f_equal (@length Q)) in E.
    rewrite length_firstn, length_skipn, Hsl in E.
    change (length (@nil Q)) with 0%nat in E.
    pose proof (Nat.div_lt (length a) 2). lia.
Qed.

Lemma summary_is_within_bounds (a : Np.ndarray) (sm : Summary) :
  summary a = Ok sm -> summary_within_bounds a sm.
Proof.
  unfold summary. intro H.
  destruct (Np.min a) as [lo|e] eqn:Emin; [|discriminate].
  destruct (Np.max a) as [hi|e] eqn:Emax; [|discriminate].
  simpl in H. inversion H; subst sm. clear H. unfold summary_within_bounds.
  simpl.
  assert (Hne : a <> []) by (eapply min_ok_nonempty; eassumption).
  apply min_spec in Emin. apply max_spec in Emax.
  destruct Emin as [Hlo Hinlo]. destruct Emax as [Hhi Hinhi].
  assert (Hall : Forall (fun v => lo <= v <= hi) a).
  { rewrite Forall_forall in *. intros v Hv. split; auto. }
  repeat split; try assumption.
  now apply median_between.
Qed.

Lemma calculate_statistics_summaries self pc tc rv net te st :
  _calculate_statistics self pc tc rv net te = Ok st ->
  summary tc = Ok (stats_total_costs st) /\
  summary rv = Ok (stats_revenues st) /\
  summary net = Ok (stats_net_budget_impact st) /\
  percentiles_of net = Ok (stats_net_budget_impact_percentiles st) /\
  stats_num_simulations st = num_simulations self /\
  stats_budget_threshold st = budget_threshold self.
Proof.
  unfold _calculate_statistics. intro H.
  invert_bind H. rename Hstep into H1.
  invert_bind H.
  invert_bind H. rename Hstep into H3.
  invert_bind H. rename Hstep into H4.
  invert_bind H. rename Hstep into H5.
  invert_bind H. invert_bind H.
  simpl in H. inversion H; subst; simpl.
  repeat split; assumption || reflexivity.
Qed.

(** X9.  In the statistics of a run, each of the three blocks (total
    costs, revenues, net budget impact) has a minimum and a maximum that
    are values of its vector and bound all of them, and its median is a
    number between its minimum and its maximum.  The minima of the total
    costs and of the revenues are not negative. *)
Theorem summaries_lie_within_their_minimum_and_maximum
  (tables : Tables) (self : t) (s s' : rng_state) (r : SimulationResults) :
  run_simulation tables self s = (Ok r, s') ->
  summary_within_bounds (total_costs r) (stats_total_costs (statistics r)) /\
  summary_within_bounds (revenues r) (stats_revenues (statistics r)) /\
  summary_within_bounds (net_budget_impact r)
    (stats_net_budget_impact (statistics r)) /\
  0 <= stat_min (stats_total_costs (statistics r)) /\
  0 <= stat_min (stats_revenues (statistics r)).
Proof.
  intro H. pose proof H as Ht. apply run_simulation_trace in Ht.
  destruct Ht as [d rp s1 _ _ _ _ _ _ _ Hst].
  apply run_simulation_shape in H.
  destruct H as [_ _ _ _ [_ Hpt] [_ Hpr] _ _].
  apply calculate_statistics_summaries in Hst.
  destruct Hst as (H1 & H2 & H3 & _).
  apply summary_is_within_bounds in H1, H2, H3.
  split; [exact H1|]. split; [exact H2|]. split; [exact H3|]. split.
  - destruct H1 as (_ & Hin & _). rewrite Forall_forall in Hpt. now apply Hpt.
  - destruct H2 as (_ & Hin & _). rewrite Forall_forall in Hpr. now apply Hpr.
Qed.

Lemma quantile_between_elements (arr : Np.ndarray) (n1 : nat) (q : Q) :
  StronglySorted Qle arr -> length arr = S n1 -> 0 <= q ->
  exists i j,
    (i < length arr)%nat /\ (j < length arr)%nat /\
    nth i arr 0 <= Np._quantile arr n1 q /\
    Np._quantile arr n1 q <= nth j arr 0.
Proof.
  intros Hsorted Hlen Hq.
  pose proof (@sorted_nth arr Hsorted) as Hnth.
  destruct (@quantile_cases arr n1 q Hlen Hq)
    as [[_ Hv]|[_ (k & Hk & Hf & Hv)]].
  - exists n1, n1. rewrite Hlen. repeat split; try lia;
      rewrite Hv; apply Qle_refl.
  - exists k, (S k). rewrite Hlen. repeat split; try lia; rewrite Hv.
    + apply lerp_lower; [apply Hnth; lia|].
      pose proof (Qfloor_le (inject_Z (Z.of_nat n1) * q)) as Hfl.
      rewrite Hf in Hfl. lra.
    + apply lerp_upper; [apply Hnth; lia|].
      pose proof (Qlt_floor (inject_Z (Z.of_nat n1) * q)) as Hfl.
      rewrite Hf in Hfl. rewrite inject_Z_plus in Hfl.
      change (inject_Z 1) with 1 in Hfl. lra.
Qed.

Lemma percentiles_between (a : Np.ndarray) (lo hi : Q) l :
  Forall (fun v => lo <= v <= hi) a -> a <> [] ->
  percentiles_of a = Ok l ->
  Forall (fun pv => exists v, snd pv = Fin v /\ lo <= v <= hi) l.
Proof.
  intros Hall Hne Hp.
  destruct (length a) as [|n1] eqn:Elen.
  { destruct a; [congruence | discriminate]. }
  rewrite (@percentiles_of_nonempty a n1 Elen) in Hp.
  assert (Hgen : forall q, 0 <= q ->
            lo <= Np._quantile (Np.sort a) n1 q <= hi).
  { intros q Hq.
    destruct (@quantile_between_elements (Np.sort a) n1 q)
      as (i & j & Hi & Hj & Hlo & Hhi).
    - apply sort_sorted.
    - now rewrite sort_length.
    - exact Hq.
    - rewrite Forall_forall in Hall.
      destruct (Hall (nth i (Np.sort a) 0)) as [Hl _].
      { apply sort_In. now apply nth_In. }
      destruct (Hall (nth j (Np.sort a) 0)) as [_ Hh].
      { apply sort_In. now apply nth_In. }
      split; eapply Qle_trans; eassumption. }
  inversion Hp; subst l. clear Hp.
  repeat constructor; simpl; eexists; (split; [reflexivity|]);
    apply Hgen; discriminate.
Qed.

(** X10.  In the statistics of a run, every reported percentile of the
    total cost and of the net budget impact is a number between the
    minimum and the maximum of its vector, and the percentiles of the net
    budget impact, like those of the total cost, do not decrease with the
    rank. *)
Theorem percentiles_lie_within_minimum_and_maximum
  (tables : Tables) (self : t) (s s' : rng_state) (r : SimulationResults) :
  run_simulation tables self s = (Ok r, s') ->
  let st := statistics r in
  Forall (fun pv => exists v,
              snd pv = Fin v /\
              stat_min (stats_total_costs st) <= v
              <= stat_max (stats_total_costs st))
         (stats_total_costs_percentiles st) /\
  Forall (fun pv => exists v,
              snd pv = Fin v /\
              stat_min (stats_net_budget_impact st) <= v
              <= stat_max (stats_net_budget_impact st))
         (stats_net_budget_impact_percentiles st) /\
  exists v5 v25 v50 v75 v95 : Q,
    stats_net_budget_impact_percentiles st
    = [(5, Fin v5); (25, Fin v25); (50, Fin v50); (75, Fin v75);
       (95, Fin v95)]%Z /\
    v5 <= v25 /\ v25 <= v50 /\ v50 <= v75 /\ v75 <= v95.
Proof.
  intros H st. unfold st. clear st.
  pose proof H as Ht. apply run_simulation_trace in Ht.
  destruct Ht as [d rp s1 _ _ _ _ _ _ _ Hst].
  pose proof Hst as Hentries. apply calculate_statistics_entries in Hentries.
  destruct Hentries as (_ & Hpt & _ & _).
  apply calculate_statistics_summaries in Hst.
  destruct Hst as (H1 & _ & H3 & Hpn & _).
  pose proof H1 as Hne1. apply summary_ok_nonempty in Hne1.
  pose proof H3 as Hne3. apply summary_ok_nonempty in Hne3.
  apply summary_is_within_bounds in H1, H3.
  destruct H1 as (Hall1 & _). destruct H3 as (Hall3 & _).
  split; [eapply percentiles_between; eassumption|].
  split; [eapply percentiles_between; eassumption|].
  destruct (length (net_budget_impact r)) as [|n1] eqn:Elen.
  { destruct (net_budget_impact r); [congruence | discriminate]. }
  rewrite (@percentiles_of_nonempty (net_budget_impact r) n1 Elen) in Hpn.
  inversion Hpn as [Heq]. unfold Config.PERCENTILES. cbn [map].
  do 5 eexists. split; [reflexivity|].
  repeat split; apply percentile_monotone; try exact Elen; discriminate.
Qed.




End FurtherStatistics.

(** ** app.py: the custom simulation *)

Section FurtherApp.
Context {L : NumericLib}.
Import Float64 Parameters Simulation MonteCarloSimulator.

(** X13.  [run_custom_simulation] samples and aggregates exactly as
    [run_simulation] does on the tables built from its arguments: whenever
    the latter returns results, the former, started in the same generator
    state, returns the same cost table, total costs, revenues, net impacts
    and exceedance count, and leaves the generator in the same state. *)
Theorem custom_simulation_agrees_with_run_simulation
  (num_sims : Z) (threshold : Q) (seed : option Z)
  (fb_mean fb_std cc_mean cc_std ah_mean ah_std gs_mean gs_std
   rev_mean rev_std : Q)
  (s s' : rng_state) (r : SimulationResults) :
  run_simulation
    (custom_tables fb_mean fb_std cc_mean cc_std ah_mean ah_std gs_mean
       gs_std rev_mean rev_std)
    {| num_simulations := num_sims; budget_threshold := threshold;
       random_seed := seed |} s = (Ok r, s') ->
  exists c,
    App.run_custom_simulation num_sims threshold fb_mean fb_std cc_mean
      cc_std ah_mean ah_std gs_mean gs_std rev_mean rev_std s = (Ok c, s') /\
    same_samples r c /\
    App.threshold c = threshold /\ App.num_sims c = num_sims.
Proof.
  intro H. apply run_simulation_trace in H.
  destruct H as [d rp s1 Hd Hrp Hrev Hdf Htot Hnet Hexc _].
  simpl in Hd, Hrp, Hrev, Hexc.
  unfold dict_getitem in Hrp. simpl in Hrp. inversion Hrp; subst rp. clear Hrp.
  rewrite Htot in Hnet.
  unfold App.run_custom_simulation. unfold M.
  erewrite bind_StateExn_step by exact Hd.
  erewrite bind_StateExn_step by exact Hrev.
  erewrite bind_lift_step by exact Hdf.
  erewrite bind_lift_step by exact Hnet.
  eexists. split; [reflexivity|].
  unfold same_samples. simpl. rewrite Hexc, Htot. repeat split.
Qed.

(** X14.  [run_custom_simulation] returns exactly when the number of
    simulations and the five standard deviations are not negative; means
    may be negative.  What it returns has that number of rows in every
    column and vector, non-negative costs and revenues, and an exceedance
    count of at most that number.  With zero simulations it still returns,
    with empty vectors. *)
Theorem custom_simulation_returns_iff_arguments_are_usable
  (num_sims : Z) (threshold : Q)
  (fb_mean fb_std cc_mean cc_std ah_mean ah_std gs_mean gs_std
   rev_mean rev_std : Q) (s : rng_state) :
  ((exists c s',
      App.run_custom_simulation num_sims threshold fb_mean fb_std cc_mean
        cc_std ah_mean ah_std gs_mean gs_std rev_mean rev_std s = (Ok c, s'))
   <->
   ((0 <= num_sims)%Z /\ 0 <= fb_std /\ 0 <= cc_std /\ 0 <= ah_std /\
    0 <= gs_std /\ 0 <= rev_std)) /\
  (forall c s',
     App.run_custom_simulation num_sims threshold fb_mean fb_std cc_mean
       cc_std ah_mean ah_std gs_mean gs_std rev_mean rev_std s = (Ok c, s') ->
     let n := Z.to_nat num_sims in
     Forall (fun kc => column_ok n (snd kc))
            (Pd.columns (App.policy_costs c)) /\
     dict_keys (Pd.columns (App.policy_costs c))
     = ["free_buses"; "universal_childcare"; "affordable_housing";
        "government_grocery_stores"]%string /\
     column_ok n (App.total_costs c) /\
     column_ok n (App.revenues c) /\
     length (App.net_budget_impact c) = n /\
     (App.exceedances c <= n)%nat).
Proof.
  set (policies := App.custom_policies fb_mean fb_std cc_mean cc_std ah_mean
                     ah_std gs_mean gs_std).
  assert (Hinv : forall c s',
            App.run_custom_simulation num_sims threshold fb_mean fb_std
              cc_mean cc_std ah_mean ah_std gs_mean gs_std rev_mean rev_std s
            = (Ok c, s') ->
            ((0 <= num_sims)%Z /\ 0 <= fb_std /\ 0 <= cc_std /\ 0 <= ah_std /\
             0 <= gs_std /\ 0 <= rev_std) /\
            Forall (fun kc => column_ok (Z.to_nat num_sims) (snd kc))
                   (Pd.columns (App.policy_costs c)) /\
            dict_keys (Pd.columns (App.policy_costs c))
            = ["free_buses"; "universal_childcare"; "affordable_housing";
               "government_grocery_stores"]%string /\
            column_ok (Z.to_nat num_sims) (App.total_costs c) /\
            column_ok (Z.to_nat num_sims) (App.revenues c) /\
            length (App.net_budget_impact c) = Z.to_nat num_sims /\
            (App.exceedances c <= Z.to_nat num_sims)%nat).
  { intros c s' H. unfold App.run_custom_simulation in H. fold policies in H.
    invert_bind H. rename a into d, s0 into s1, Hstep into Hd.
    invert_bind H. rename a into rev, s0 into s2, Hstep into Hrev.
    invert_bind H. apply lift_ok in Hstep. destruct Hstep as [Hdf ->].
    rename a into df.
    invert_bind H. apply lift_ok in Hstep. destruct Hstep as [Hnet ->].
    rename a into net.
    simpl in H. inversion H; subst c s'. clear H. simpl.
    assert (Hkeys : dict_keys d
                    = ["free_buses"; "universal_childcare";
                       "affordable_housing";
                       "government_grocery_stores"]%string).
    { unfold policies, App.custom_policies in Hd.
      do 4 (rewrite sample_policies_cons in Hd; invert_bind Hd;
            cbv beta in Hd).
      rewrite sample_policies_of_nil in Hd. inversion Hd; subst d.
      reflexivity. }
    pose proof Hd as Hdok. apply sample_policies_ok in Hdok; [|constructor].
    destruct Hdok as (Hcols & _ & Hdne & Hsize & Hstd).
    assert (Hne : d <> []) by (apply Hdne; right; discriminate).
    assert (Hn : (0 <= num_sims)%Z) by (apply Hsize; discriminate).
    apply sample_unseeded_ok in Hrev.
    destruct Hrev as (_ & Hrstd & [Hlenrev Hposrev] & _).
    apply DataFrame_of_dict_ok in Hdf. destruct Hdf as (Hcolumns & _ & Hrows).
    assert (Hnrows : Pd.nrows df = Z.to_nat num_sims).
    { apply Hrows; [|exact Hne].
      eapply Forall_impl; [|exact Hcols]. intros kc [Hl _]. exact Hl. }
    assert (Hlentot : length (Pd.sum_axis1 df) = Z.to_nat num_sims)
      by now rewrite sum_axis1_length.
    rewrite subtract_same_length in Hnet by congruence.
    inversion Hnet as [Hnet']. clear Hnet.
    unfold policies, App.custom_policies in Hstd.
    pose proof (Forall_inv Hstd) as Hfb.
    pose proof (Forall_inv (Forall_inv_tail Hstd)) as Hcc.
    pose proof (Forall_inv (Forall_inv_tail (Forall_inv_tail Hstd))) as Hah.
    pose proof (Forall_inv
                  (Forall_inv_tail (Forall_inv_tail (Forall_inv_tail Hstd))))
      as Hgs.
    simpl in Hfb, Hcc, Hah, Hgs, Hrstd.
    split; [repeat split; assumption|].
    rewrite Hcolumns.
    split; [exact Hcols|]. split; [exact Hkeys|].
    split.
    { split; [exact Hlentot|]. apply sum_axis1_nonneg. rewrite Hcolumns.
      eapply Forall_impl; [|exact Hcols]. intros kc [_ Hp]. exact Hp. }
    split; [split; assumption|].
    split.
    - rewrite length_map, length_combine, Hlentot, Hlenrev. apply Nat.min_id.
    - rewrite <- Hlentot. apply count_greater_le_length. }
  split; [split|].
  - intros (c & s' & H). apply Hinv in H. tauto.
  - intros (Hn & Hfb & Hcc & Hah & Hgs & Hrev).
    assert (Hstd : Forall (fun kp : string * PolicyParameter =>
                             0 <= std_dev (snd kp)) policies).
    { unfold policies, App.custom_policies. repeat constructor; assumption. }
    destruct (sample_policies_succeeds [] s Hn Hstd) as [d Hd].
    pose proof Hd as Hdok. apply sample_policies_ok in Hdok; [|constructor].
    destruct Hdok as (Hcols & _ & Hdne & _ & _).
    assert (Hne : d <> []) by (apply Hdne; right; discriminate).
    set (s1 := advance (length policies * Z.to_nat num_sims) s) in *.
    destruct (sample_unseeded_succeeds
                (App.custom_revenue rev_mean rev_std) s1 Hn Hrev) as [rev Hrv].
    pose proof Hrv as Hrvok. apply sample_unseeded_ok in Hrvok.
    destruct Hrvok as (_ & _ & [Hlenrev _] & _).
    assert (Hlens : Forall (fun kc : string * Np.ndarray =>
                              length (snd kc) = Z.to_nat num_sims) d).
    { eapply Forall_impl; [|exact Hcols]. intros kc [Hl _]. exact Hl. }
    destruct (DataFrame_of_dict_succeeds Hlens) as [df Hdf].
    pose proof Hdf as Hdfok. apply DataFrame_of_dict_ok in Hdfok.
    destruct Hdfok as (_ & _ & Hrows).
    specialize (Hrows (Z.to_nat num_sims) Hlens Hne).
    assert (Hsub : Np.subtract (Pd.sum_axis1 df) rev
                   = Ok (map (fun p => fst p - snd p)
                             (combine (Pd.sum_axis1 df) rev))).
    { apply subtract_same_length. rewrite sum_axis1_length. congruence. }
    subst s1. unfold App.run_custom_simulation. fold policies. unfold M.
    erewrite bind_StateExn_step by exact Hd.
    erewrite bind_StateExn_step by exact Hrv.
    erewrite bind_lift_step by exact Hdf.
    erewrite bind_lift_step by exact Hsub.
    simpl. eauto.
  - intros c s' H n. apply Hinv in H. unfold n. tauto.
Qed.

End FurtherApp.

(** ** Sampling without spread, and sampling with a seed *)

Section FurtherSampling.
Context {L : NumericLib}.
Import Float64 Parameters Simulation MonteCarloSimulator.

Lemma normal_draws_values n loc scale s :
  Forall (fun x => exists z, x = loc + scale * z)
         (fst (normal_draws n loc scale s)).
Proof.
  revert s. induction n as [|n IH]; simpl; intro s; [constructor|].
  destruct (legacy_gauss s) as [z s1]. specialize (IH s1).
  destruct (normal_draws n loc scale s1) as [rest s2]. simpl in *.
  constructor; [eauto | exact IH].
Qed.

(** A parameter without spread and with a non-negative mean is sampled at
    its mean. *)
Lemma sample_without_spread p size s a s' :
  sample p size None s = (Ok a, s') ->
  std_dev p == 0 -> 0 <= mean p ->
  Forall (fun v => v == mean p) a.
Proof.
  rewrite sample_unseeded.
  destruct (Qltb (std_dev p) 0); [discriminate|].
  destruct (size <? 0)%Z; [discriminate|].
  intros H Hstd Hmean. inversion H; subst a. clear H.
  unfold Np.maximum. apply Forall_forall. intros v Hv.
  apply in_map_iff in Hv. destruct Hv as (x & <- & Hx).
  pose proof (normal_draws_values (Z.to_nat size) (mean p) (std_dev p) s)
    as Hvalues.
  rewrite Forall_forall in Hvalues. destruct (Hvalues x Hx) as [z ->].
  assert (Hval : mean p + std_dev p * z == mean p).
  { rewrite Hstd. ring. }
  destruct (Qltb (mean p + std_dev p * z) 0) eqn:E.
  - apply Qltb_lt in E. rewrite Hval in E.
    exfalso. exact (Qlt_not_le _ _ E Hmean).
  - exact Hval.
Qed.

(** the column stored for a policy was sampled from its parameter *)
Let sampled (size : Z) (kp : string * PolicyParameter)
  (kc : string * Np.ndarray) : Prop :=
  fst kc = fst kp /\
  exists s0 s1, sample (snd kp) size None s0 = (Ok (snd kc), s1).

Lemma sample_policies_columns items size acc s d s' :
  sample_policies items size acc s = (Ok d, s') ->
  NoDup (dict_keys acc ++ dict_keys items) ->
  exists cols, d = acc ++ cols /\ Forall2 (sampled size) items cols.
Proof.
  revert acc s. induction items as [|[key param] rest IH]; intros acc s H Hnd.
  - simpl in H. inversion H; subst. exists []. split; [now rewrite app_nil_r|].
    constructor.
  - rewrite sample_policies_cons in H. invert_bind H.
    assert (Hfresh : ~ In key (dict_keys acc)).
    { simpl in Hnd. apply NoDup_remove_2 in Hnd. intro Hin. apply Hnd.
      apply in_or_app. now left. }
    rewrite dict_set_fresh in H by exact Hfresh.
    apply IH in H.
    + destruct H as (cols & -> & Hcols). exists ((key, a) :: cols).
      split; [now rewrite <- app_assoc|].
      constructor; [|exact Hcols]. split; [reflexivity|]. simpl. eauto.
    + unfold dict_keys in *. rewrite map_app. simpl. rewrite <- app_assoc.
      exact Hnd.
Qed.

(** X15.  When the policy keys are distinct and every policy has a zero
    standard deviation and a non-negative mean, the cost table of a run
    has, for each policy in table order, a column under the policy's key
    whose every cell is the policy's mean, and all trials have the same
    total cost: the draws of the generator have no effect. *)
Theorem without_spread_every_trial_has_the_same_costs
  (tables : Tables) (self : t) (s s' : rng_state) (r : SimulationResults) :
  run_simulation tables self s = (Ok r, s') ->
  NoDup (dict_keys (POLICY_PARAMETERS tables)) ->
  Forall (fun kp => std_dev (snd kp) == 0 /\ 0 <= mean (snd kp))
         (POLICY_PARAMETERS tables) ->
  Forall2 (fun kp kc =>
             fst kc = fst kp /\
             Forall (fun v => v == mean (snd kp)) (snd kc))
          (POLICY_PARAMETERS tables) (Pd.columns (policy_costs r)) /\
  (forall c1 c2,
     In c1 (total_costs r) -> In c2 (total_costs r) -> c1 == c2).
Proof.
  intros H Hnodup Hflat. pose proof H as Ht. apply run_simulation_trace in Ht.
  destruct Ht as [d rp s1 Hd _ _ Hdf Htot _ _ _].
  apply run_simulation_shape in H.
  destruct H as [_ _ Hrows Hcolsok _ _ _ _].
  apply DataFrame_of_dict_ok in Hdf. destruct Hdf as (Hcolumns & _ & _).
  apply sample_policies_columns in Hd; [|exact Hnodup].
  destruct Hd as (cols & Hd & Hsampled). simpl in Hd. subst d.
  rewrite Hcolumns in Hcolsok.
  assert (Hcells : Forall2 (fun kp kc =>
                      fst kc = fst kp /\
                      Forall (fun v => v == mean (snd kp)) (snd kc))
                     (POLICY_PARAMETERS tables) cols).
  { clear - Hsampled Hflat.
    induction Hsampled as [|kp kc items cols [Hkey (s0 & s1 & Hs)] Hrest IH];
      constructor.
    - split; [exact Hkey|].
      pose proof (Forall_inv Hflat) as [Hstd Hmean].
      exact (sample_without_spread _ _ _ Hs Hstd Hmean).
    - apply IH. exact (Forall_inv_tail Hflat). }
  split; [rewrite Hcolumns; exact Hcells|].
  assert (Hall : Forall (fun c => c == Np.sum (map (fun kp => mean (snd kp))
                                               (POLICY_PARAMETERS tables)))
                        (total_costs r)).
  { rewrite Htot. unfold Pd.sum_axis1. apply Forall_forall. intros c Hc.
    apply in_map_iff in Hc. destruct Hc as (i & <- & Hi).
    apply in_seq in Hi. destruct Hi as [_ Hi]. simpl in Hi.
    unfold Pd.row. rewrite Hcolumns.
    assert (Hi' : (i < Z.to_nat (num_simulations self))%nat) by lia.
    clear - Hcells Hcolsok Hi'.
    induction Hcells as [|kp kc items cols [_ Hkc] Hrest IH];
      simpl; [reflexivity|].
    pose proof (Forall_inv Hcolsok) as [Hlen _].
    rewrite (IH (Forall_inv_tail Hcolsok)).
    apply Qplus_comp; [|reflexivity].
    rewrite Forall_forall in Hkc. apply Hkc. apply nth_In.
    exact (eq_ind_r (fun n => (i < n)%nat) Hi' Hlen). }
  rewrite Forall_forall in Hall. intros c1 c2 H1 H2.
  rewrite (Hall c1 H1), (Hall c2 H2). reflexivity.
Qed.

(** X16.  A seed given to [sample] reseeds the global generator before
    drawing.  With a seed that NumPy accepts, the sample and every later
    unseeded sample no longer depend on the state the generator was in; a
    seed that NumPy rejects raises and leaves the generator as it was. *)
Theorem seeded_sample_resets_the_global_generator
  (p q : PolicyParameter) (n m : Z) (seed : Z) (s1 s2 : rng_state) :
  let two_samples : M (Np.ndarray * Np.ndarray) :=
    (a <- sample p n (Some seed) ;; b <- sample q m None ;; ret (a, b))%monad
  in
  ((0 <= seed < 2 ^ 32)%Z ->
   sample p n (Some seed) s1 = sample p n None (init_by_seed seed) /\
   two_samples s1 = two_samples s2) /\
  (~ (0 <= seed < 2 ^ 32)%Z ->
   sample p n (Some seed) s1 = (Raise SeedOutOfRange, s1)).
Proof.
  intro two_samples.
  assert (Hseeded : (0 <= seed < 2 ^ 32)%Z -> forall s,
            sample p n (Some seed) s = sample p n None (init_by_seed seed)).
  { intros Hseed s. unfold sample, np_random_seed.
    cbv [bind ret StateExn_Monad].
    assert (E : ((0 <=? seed) && (seed <? 2 ^ 32))%Z = true).
    { apply andb_true_iff. split; [apply Z.leb_le | apply Z.ltb_lt]; lia. }
    rewrite E. reflexivity. }
  split.
  - intro Hseed. split; [now apply Hseeded|].
    unfold two_samples. cbv [bind StateExn_Monad].
    now rewrite !(Hseeded Hseed).
  - intro Hseed. unfold sample, np_random_seed.
    cbv [bind ret StateExn_Monad].
    assert (E : ((0 <=? seed) && (seed <? 2 ^ 32))%Z = false).
    { apply andb_false_iff.
      destruct (Z.leb_spec 0 seed); [|now left].
      destruct (Z.ltb_spec seed (2 ^ 32)); [|now right].
      exfalso. apply Hseed. lia. }
    rewrite E. reflexivity.
Qed.

End FurtherSampling.

(** * Further concrete runs

    The further properties applied to the module's tables, to the tables
    without spread and to the tables with negated spread, with the
    generator of [TestLib] started in state 0. *)

Section FurtherConcreteRuns.
Import Float64 Parameters Simulation MonteCarloSimulator.

Ltac distinct_keys :=
  vm_compute; repeat constructor; simpl; intuition discriminate.

Lemma validate_reports_the_first_negative_parameter_witness :
  exists e,
    snd (validate_parameters negative_spread_tables) = Raise e /\
    exists before key param after,
      dict_merge (POLICY_PARAMETERS negative_spread_tables)
                 (REVENUE_PARAMETERS negative_spread_tables)
      = before ++ (key, param) :: after /\
      Forall (fun kp => ~ negative_field (snd kp)) before /\
      (mean param < 0 -> e = NegativeMean key (mean param)) /\
      (0 <= mean param ->
       std_dev param < 0 /\ e = NegativeStdDev key (std_dev param)) /\
      fst (validate_parameters negative_spread_tables) = warnings_of before.
Proof.
  eexists.
  refine ((fun H => conj H
             (@validate_reports_the_first_negative_parameter
                negative_spread_tables _ H)) _).
  vm_compute. reflexivity.
Defined.

Lemma policy_summary_brackets_the_mean_witness :
  Forall2
    (fun kp ks =>
       summarises kp ks /\
       0 <= min_estimate (snd ks) /\
       min_estimate (snd ks) <= summary_mean (snd ks) /\
       summary_mean (snd ks) <= max_estimate (snd ks) /\
       summary_mean (snd ks) - 2 * summary_std_dev (snd ks)
       <= min_estimate (snd ks))
    (POLICY_PARAMETERS module_tables) (get_policy_summary module_tables).
Proof.
  apply (@policy_summary_brackets_the_mean module_tables).
  - distinct_keys.
  - repeat (constructor; [split; discriminate|]). constructor.
Defined.

Lemma run_simulation_returns_witness :
  exists r s',
    @run_simulation TestLib.lib module_tables three_trials 0%Z = (Ok r, s').
Proof.
  apply (proj2 (@run_simulation_returns_iff_configuration_is_usable
                  TestLib.lib module_tables three_trials 0%Z)).
  split; [simpl; lia|]. split; [discriminate|]. split.
  - repeat (constructor; [discriminate|]). constructor.
  - eexists. split; [reflexivity | discriminate].
Defined.

Lemma run_simulation_raises_only_these_witness :
  exists e s',
    @run_simulation TestLib.lib negative_spread_tables three_trials 0%Z
    = (Raise e, s') /\
    ((e = ScaleNegative /\
      (Exists (fun kp => std_dev (snd kp) < 0)
              (POLICY_PARAMETERS negative_spread_tables) \/
       exists revenue_param,
         dict_get (REVENUE_PARAMETERS negative_spread_tables) "tax_increases"
         = Some revenue_param /\ std_dev revenue_param < 0)) \/
     (e = NegativeDimensions /\ (num_simulations three_trials < 0)%Z) \/
     (e = KeyError "tax_increases" /\
      dict_get (REVENUE_PARAMETERS negative_spread_tables) "tax_increases"
      = None) \/
     (e = BroadcastError /\ POLICY_PARAMETERS negative_spread_tables = [] /\
      (2 <= num_simulations three_trials)%Z) \/
     (e = ZeroSizeReduction /\
      (num_simulations three_trials = 0%Z \/
       POLICY_PARAMETERS negative_spread_tables = []))).
Proof.
  eexists. eexists.
  refine ((fun H => conj H
             (@run_simulation_raises_only_these TestLib.lib
                negative_spread_tables three_trials 0%Z _ _ H)) _).
  vm_compute. reflexivity.
Defined.

Lemma sensitivity_is_a_sorted_item_per_policy_witness :
  exists r s' d,
    @run_simulation TestLib.lib module_tables three_trials 0%Z = (Ok r, s') /\
    run_sensitivity_analysis module_tables three_trials r = Ok d /\
    Permutation (dict_keys d) (dict_keys (Pd.columns (policy_costs r))) /\
    Forall (fun kv =>
              exists column,
                dict_get (Pd.columns (policy_costs r)) (fst kv)
                = Some column /\
                variance (snd kv) = Np.var column /\
                contribution_to_total (snd kv)
                = div (Np.var column) (Np.var (total_costs r)) /\
                sens_percentage (snd kv)
                = mul (Fin 100) (contribution_to_total (snd kv)))
           d /\
    (Forall (fun kv => is_finite (contribution_to_total (snd kv)) = true) d ->
     descending d).
Proof.
  do 3 eexists. split; [vm_compute; reflexivity|].
  split; [vm_compute; reflexivity|].
  apply (@sensitivity_is_a_sorted_item_per_policy module_tables three_trials).
  - vm_compute. reflexivity.
  - distinct_keys.
Defined.

Lemma analysis_of_a_run_witness :
  exists r s',
    @run_simulation TestLib.lib module_tables three_trials 0%Z = (Ok r, s') /\
    exists d total_variance,
      run_sensitivity_analysis module_tables three_trials r = Ok d /\
      Permutation (dict_keys d) (dict_keys (Pd.columns (policy_costs r))) /\
      Np.var (total_costs r) = Fin total_variance /\
      0 <= total_variance /\
      (~ total_variance == 0 ->
       Forall (fun kv => exists q,
                   contribution_to_total (snd kv) = Fin q /\ 0 <= q) d /\
       descending d).
Proof.
  eexists. eexists.
  refine ((fun H => conj H
             (@analysis_of_a_run_returns_sorted_nonnegative_contributions
                TestLib.lib module_tables three_trials 0%Z _ _ H)) _).
  vm_compute. reflexivity.
Defined.

Lemma validated_tables_run_and_analyse_witness :
  exists r s' d,
    @run_simulation TestLib.lib module_tables three_trials 0%Z = (Ok r, s') /\
    run_sensitivity_analysis module_tables three_trials r = Ok d.
Proof.
  apply (@validated_tables_run_and_analyse_without_exception
           TestLib.lib module_tables three_trials 0%Z).
  - reflexivity.
  - distinct_keys.
  - discriminate.
  - simpl. auto.
  - simpl. lia.
Defined.

Lemma summaries_lie_within_bounds_witness :
  exists r s',
    @run_simulation TestLib.lib module_tables three_trials 0%Z = (Ok r, s') /\
    (summary_within_bounds (total_costs r) (stats_total_costs (statistics r))
     /\
     summary_within_bounds (revenues r) (stats_revenues (statistics r)) /\
     summary_within_bounds (net_budget_impact r)
       (stats_net_budget_impact (statistics r)) /\
     0 <= stat_min (stats_total_costs (statistics r)) /\
     0 <= stat_min (stats_revenues (statistics r))).
Proof.
  eexists. eexists.
  refine ((fun H => conj H
             (@summaries_lie_within_their_minimum_and_maximum
                TestLib.lib module_tables three_trials 0%Z _ _ H)) _).
  vm_compute. reflexivity.
Defined.

Lemma percentiles_lie_within_bounds_witness :
  exists r s',
    @run_simulation TestLib.lib module_tables three_trials 0%Z = (Ok r, s') /\
    (let st := statistics r in
     Forall (fun pv => exists v,
                 snd pv = Fin v /\
                 stat_min (stats_total_costs st) <= v
                 <= stat_max (stats_total_costs st))
            (stats_total_costs_percentiles st) /\
     Forall (fun pv => exists v,
                 snd pv = Fin v /\
                 stat_min (stats_net_budget_impact st) <= v
                 <= stat_max (stats_net_budget_impact st))
            (stats_net_budget_impact_percentiles st) /\
     exists v5 v25 v50 v75 v95 : Q,
       stats_net_budget_impact_percentiles st
       = [(5, Fin v5); (25, Fin v25); (50, Fin v50); (75, Fin v75);
          (95, Fin v95)]%Z /\
       v5 <= v25 /\ v25 <= v50 /\ v50 <= v75 /\ v75 <= v95).
Proof.
  eexists. eexists.
  refine ((fun H => conj H
             (@percentiles_lie_within_minimum_and_maximum
                TestLib.lib module_tables three_trials 0%Z _ _ H)) _).
  vm_compute. reflexivity.
Defined.


Lemma custom_simulation_agrees_witness :
  exists r s',
    @run_simulation TestLib.lib
      (custom_tables (7 # 10) (1 # 10) 6 1 10 (15 # 10) (75 # 1000)
         (25 # 1000) 10 (15 # 10))
      {| num_simulations := 3; budget_threshold := 133 # 10;
         random_seed := Some 42%Z |} 0%Z = (Ok r, s') /\
    exists c,
      @App.run_custom_simulation TestLib.lib 3 (133 # 10) (7 # 10) (1 # 10)
        6 1 10 (15 # 10) (75 # 1000) (25 # 1000) 10 (15 # 10) 0%Z
      = (Ok c, s') /\
      same_samples r c /\
      App.threshold c = 133 # 10 /\ App.num_sims c = 3%Z.
Proof.
  eexists. eexists.
  refine ((fun H => conj H
             (@custom_simulation_agrees_with_run_simulation TestLib.lib
                3%Z (133 # 10) (Some 42%Z) (7 # 10) (1 # 10) 6 1 10 (15 # 10)
                (75 # 1000) (25 # 1000) 10 (15 # 10) 0%Z _ _ H)) _).
  vm_compute. reflexivity.
Defined.

Lemma custom_simulation_returns_witness :
  exists c s',
    @App.run_custom_simulation TestLib.lib 3 (133 # 10) (7 # 10) (1 # 10)
      6 1 10 (15 # 10) (75 # 1000) (25 # 1000) 10 (15 # 10) 0%Z
    = (Ok c, s').
Proof.
  apply (proj2 (proj1 (@custom_simulation_returns_iff_arguments_are_usable
                         TestLib.lib 3%Z (133 # 10) (7 # 10) (1 # 10) 6 1 10
                         (15 # 10) (75 # 1000) (25 # 1000) 10 (15 # 10)
                         0%Z))).
  repeat split; try lia; discriminate.
Defined.

Lemma without_spread_witness :
  exists r s',
    @run_simulation TestLib.lib zero_spread_tables three_trials 0%Z
    = (Ok r, s') /\
    (Forall2 (fun kp kc =>
                fst kc = fst kp /\
                Forall (fun v => v == mean (snd kp)) (snd kc))
             (POLICY_PARAMETERS zero_spread_tables)
             (Pd.columns (policy_costs r)) /\
     (forall c1 c2,
        In c1 (total_costs r) -> In c2 (total_costs r) -> c1 == c2)).
Proof.
  eexists. eexists.
  refine ((fun H => conj H
             (@without_spread_every_trial_has_the_same_costs
                TestLib.lib zero_spread_tables three_trials 0%Z _ _ H _ _)) _).
  - distinct_keys.
  - repeat (constructor; [split; [reflexivity | discriminate]|]).
    constructor.
  - vm_compute. reflexivity.
Defined.

Lemma seeded_sample_resets_witness :
  @sample TestLib.lib affordable_housing 3 (Some 42%Z) 0%Z
  = @sample TestLib.lib affordable_housing 3 None
      (@init_by_seed TestLib.lib 42).
Proof.
  apply (proj1 (@seeded_sample_resets_the_global_generator TestLib.lib
                  affordable_housing affordable_housing 3 3 42 0%Z 1%Z)).
  lia.
Defined.

End FurtherConcreteRuns.
